(** * open-med-data: crawl-and-download scripts

    A shallow embedding of the crawling scripts of the repository
    ([crawl_cms_hcpcs.py], [download_loinc.py], [download_all_loinc.py] and
    the retrying request of [download_nlm_genes.py]) and of the table
    reader of [convert_icd10_to_csv.py], together with the properties
    their specification states about them and further properties of the
    code.

    Python values are modelled as follows.
    - [str] is [string]; a character is the code point it holds, so the
      strings of the model are the Python strings whose code points are
      below 256.  [bytes] bodies are strings as well.
    - [int] is [Z].
    - the module-level sets [VISITED_URLS] and [DOWNLOADED_FILES] are
      [gset string] fields of an explicit [world] that every function
      threads through.
    - everything a function does to the outside (HTTP requests, sleeps,
      file-system calls) is appended to the [log] of the world; what the
      outside answers is read from a [Platform], an oracle indexed by the
      length of the log, so that the same request may be answered
      differently at different times.
    - a raised exception is a [None] result. *)

From Stdlib Require Import ZArith Lia Ascii String List Bool.
From stdpp Require Import base gmap strings list pretty.

Set Default Proof Using "Type".

(** ** Python's built-in string and path functions *)

Module Py.

Definition code_in (c : ascii) (lo hi : N) : bool :=
  ((lo <=? N_of_ascii c) && (N_of_ascii c <=? hi))%N.

(** [str.lower] on one character: the upper-case letters below 256 are
    A-Z and U+00C0-U+00DE without the multiplication sign U+00D7. *)
Definition lower_char (c : ascii) : ascii :=
  if code_in c 65 90 || (code_in c 192 222 && negb (N_of_ascii c =? 215)%N)
  then ascii_of_N (N_of_ascii c + 32)
  else c.

Fixpoint lower (s : string) : string :=
  match s with
  | EmptyString => EmptyString
  | String c r => String (lower_char c) (lower r)
  end.

(** [s.startswith(p)] *)
Definition startswith (s p : string) : bool := String.prefix p s.

(** [s.endswith(suf)] *)
Fixpoint endswith (s suf : string) : bool :=
  String.eqb s suf ||
  match s with
  | EmptyString => false
  | String _ r => endswith r suf
  end.

(** [sub in s] *)
Fixpoint contains (s sub : string) : bool :=
  String.prefix sub s ||
  match s with
  | EmptyString => false
  | String _ r => contains r sub
  end.

(** [s.split(sep)] for a non-empty separator: [skip] counts the characters
    of a separator occurrence that are still to be dropped. *)
Fixpoint split_go (sep : string) (skip : nat) (s : string) : list string :=
  match s with
  | EmptyString => [EmptyString]
  | String c r =>
      match skip with
      | S k => split_go sep k r
      | O =>
          if String.prefix sep s
          then EmptyString :: split_go sep (String.length sep - 1) r
          else match split_go sep 0 r with
               | h :: t => String c h :: t
               | [] => [String c EmptyString]
               end
      end
  end.

Definition split (s sep : string) : list string := split_go sep 0 s.

(** [l[-1]] of a list that [split] returned (never empty). *)
Definition last_item (l : list string) : string := List.last l EmptyString.

(** [s.lstrip('/')], [s.rstrip('/')], [s.strip('/')] *)
Fixpoint lstrip_slash (s : string) : string :=
  match s with
  | String "/" r => lstrip_slash r
  | _ => s
  end.

Definition rstrip_slash (s : string) : string :=
  String.rev (lstrip_slash (String.rev s)).

Definition strip_slash (s : string) : string := rstrip_slash (lstrip_slash s).

(** [os.path.basename(p)]: what follows the last slash. *)
Definition basename (p : string) : string := last_item (split p "/").

(** [os.path.dirname(p)]: the head up to the last slash, without its
    trailing slashes unless it consists of slashes only. *)
Definition dirname (p : string) : string :=
  let head := String.substring 0 (String.length p - String.length (basename p)) p in
  if String.eqb (lstrip_slash head) EmptyString then head else rstrip_slash head.

(** [os.path.join(a, *ps)] *)
Definition join (a : string) (ps : list string) : string :=
  fold_left
    (fun path b =>
       if startswith b "/" then b
       else if String.eqb path EmptyString || endswith path "/" then path +:+ b
       else path +:+ "/" +:+ b)
    ps a.

(** [l[:-1]] *)
Definition all_but_last (l : list string) : list string := removelast l.

(** [len(s)] *)
Definition len (s : string) : Z := Z.of_nat (String.length s).

(** [iter_slices(s, size)] of [requests]: the consecutive slices of [s]
    of [size] characters, the last one possibly shorter; [room] is what
    the slice being filled can still take. *)
Fixpoint iter_slices_go (size room : N) (s : string) : list string :=
  match s with
  | EmptyString => []
  | String c r =>
      if (room <=? 1)%N then String c EmptyString :: iter_slices_go size size r
      else match iter_slices_go size (room - 1) r with
           | h :: t => String c h :: t
           | [] => [String c EmptyString]
           end
  end.

Definition iter_slices (s : string) (size : N) : list string :=
  iter_slices_go size size s.

End Py.

(** ** The regular expressions of the scripts *)

Module Re.

(** [\w] on a [str] pattern: [ch.isalnum() or ch == '_'].  Below 256 the
    alphanumeric code points are the ASCII letters and digits, the
    superscripts, fractions, ordinal indicators and micro sign of
    Latin-1, and its letters U+00C0-U+00FF without the multiplication
    and division signs. *)
Definition word_char (c : ascii) : bool :=
  let n := N_of_ascii c in
  Py.code_in c 48 57 || Py.code_in c 65 90 || Py.code_in c 97 122
  || (n =? 95)%N
  || (n =? 170)%N || (n =? 178)%N || (n =? 179)%N || (n =? 181)%N
  || (n =? 185)%N || (n =? 186)%N || Py.code_in c 188 190
  || (Py.code_in c 192 255 && negb (n =? 215)%N && negb (n =? 247)%N).

(** [\s] on a [str] pattern, below 256. *)
Definition space_char (c : ascii) : bool :=
  let n := N_of_ascii c in
  Py.code_in c 9 13 || Py.code_in c 28 32 || (n =? 133)%N || (n =? 160)%N.

(** [re.sub(r'[^\w\.-]', '_', s)] *)
Definition keep_char (c : ascii) : bool :=
  word_char c || Ascii.eqb c "." || Ascii.eqb c "-".

Fixpoint sub_unsafe (s : string) : string :=
  match s with
  | EmptyString => EmptyString
  | String c r => String (if keep_char c then c else "_"%char) (sub_unsafe r)
  end.

(** The character class of the URL pattern: everything but white space
    and the twelve characters of code 60 62 34 39 123 125 124 92 94 96
    91 93 (angle brackets, both quotes, braces, bar, backslash, caret,
    backquote and square brackets). *)
Definition url_char (c : ascii) : bool :=
  negb (space_char c
        || existsb (N.eqb (N_of_ascii c))
             [60; 62; 34; 39; 123; 125; 124; 92; 94; 96; 91; 93]%N).

(** [re.findall(url_pattern, text, re.IGNORECASE)] for the pattern
    [https?://C+\.(a1|...|an)], where [C] is the class above and [alts]
    lists the alternatives of the group in the order in which the
    matcher tries them (an optional last letter is tried first with the
    letter, then without).  The pattern has one group, so [findall]
    returns, for every match, the text of that group. *)

(** The dot and the group at the head of [s]; the result is the text the
    group matched. *)
Definition match_ext (alts : list string) (s : string) : option string :=
  match s with
  | String "." r =>
      option_map (fun a => String.substring 0 (String.length a) r)
                 (find (fun a => String.prefix a (Py.lower r)) alts)
  | _ => None
  end.

(** The greedy run of class characters followed by dot and group: the
    longest run is tried first.  The result is the group and the number
    of characters consumed from [s]. *)
Fixpoint match_run (alts : list string) (s : string) : option (string * nat) :=
  match s with
  | EmptyString => None
  | String c r =>
      let here :=
        option_map (fun g => (g, S (String.length g))) (match_ext alts s) in
      if url_char c then
        match match_run alts r with
        | Some (g, n) => Some (g, S n)
        | None => here
        end
      else here
  end.

(** A match of the whole pattern at the head of [s]. *)
Definition match_here (alts : list string) (s : string) : option (string * nat) :=
  let scheme :=
    if String.prefix "https://" (Py.lower s) then Some 8
    else if String.prefix "http://" (Py.lower s) then Some 7
    else None in
  match scheme with
  | None => None
  | Some k =>
      match String.substring k (String.length s - k) s with
      | String c r =>
          if url_char c then
            match match_run alts r with
            | Some (g, n) => Some (g, k + 1 + n)
            | None => None
            end
          else None
      | EmptyString => None
      end
  end.

(** The scan for non-overlapping matches, from left to right. *)
Fixpoint findall_go (alts : list string) (skip : nat) (s : string) : list string :=
  match s with
  | EmptyString => []
  | String _ r =>
      match skip with
      | S k => findall_go alts k r
      | O =>
          match match_here alts s with
          | Some (g, n) => g :: findall_go alts (n - 1) r
          | None => findall_go alts 0 r
          end
      end
  end.

Definition findall (alts : list string) (text : string) : list string :=
  findall_go alts 0 text.

End Re.

(** ** The outside world *)

(** What BeautifulSoup gives the scripts: the [href] of every [<a>] that
    has one, in document order ([find_all('a', href=True)]), the [action]
    of every [<form>] (the empty string when the attribute is missing), and
    the document as text ([str(soup)]). *)
Record soup : Type := {
  anchors : list string;
  forms : list string;
  page_text : string
}.

(** An HTTP response: [headers.get('Content-Type', '')] is kept as
    [content_type]; the body arrives as [chunks], and a [broken] body
    raises once they have been read. *)
Record response : Type := {
  status : Z;
  final_url : string;
  content_type : string;
  chunks : list string;
  broken : bool
}.

(** What a request gives.  [Raises] stands for the exceptions of
    [requests], which are all [RequestException]. *)
Inductive http_result : Type :=
| Raises
| Responds (r : response).

Inductive http_method : Type := GET | POST.

(** What the scripts do to the outside.  [PageFetch] marks the entry of
    [get_page]; it stands for one page fetch, whatever the number of
    attempts it takes.  Durations are in milliseconds. *)
Inductive event : Type :=
| PageFetch (url : string)
| HttpGet (url : string) (timeout : Z) (stream : bool)
| HttpPost (url : string) (timeout : Z)
| Sleep (millis : Z)
| Makedirs (path : string)
| FileOpen (path : string)
| FileWrite (path : string) (chunk : string)
| Getsize (path : string).

(** The libraries and the environment.  [urllib.parse] and the HTML parser
    are functions of their arguments; the server and the file system are
    asked at a time, the number of events logged so far.  [urlparse] and
    [urljoin] are taken on the URLs they accept: the [ValueError] they
    raise on a malformed one, such as a host with an unbalanced bracket,
    has no counterpart here. *)
Class Platform : Type := {
  urlparse_path : string -> string;
  urlparse_netloc : string -> string;
  urlparse_query : string -> string;
  urljoin : string -> string -> string;
  html_parser : string -> option soup;
  server : nat -> http_method -> string -> http_result;
  os_error : nat -> event -> bool;
  path_exists : nat -> string -> bool;
  time_now : nat -> Z
}.

Record world : Type := {
  VISITED_URLS : gset string;
  DOWNLOADED_FILES : gset string;
  log : list event
}.

Definition emit (e : event) (w : world) : world :=
  {| VISITED_URLS := VISITED_URLS w;
     DOWNLOADED_FILES := DOWNLOADED_FILES w;
     log := log w ++ [e] |}.

Definition visit (url : string) (w : world) : world :=
  {| VISITED_URLS := {[url]} ∪ VISITED_URLS w;
     DOWNLOADED_FILES := DOWNLOADED_FILES w;
     log := log w |}.

Definition record_download (url : string) (w : world) : world :=
  {| VISITED_URLS := VISITED_URLS w;
     DOWNLOADED_FILES := {[url]} ∪ DOWNLOADED_FILES w;
     log := log w |}.

(** A run starts with both sets empty and nothing done. *)
Definition start : world :=
  {| VISITED_URLS := ∅; DOWNLOADED_FILES := ∅; log := [] |}.

(** Code that may raise: the world it leaves and, unless it raised, its
    value. *)
Definition eff (A : Type) : Type := world -> world * option A.

Definition ret {A} (a : A) : eff A := fun w => (w, Some a).

Definition raise {A} : eff A := fun w => (w, None).

Definition bind {A B} (m : eff A) (k : A -> eff B) : eff B :=
  fun w =>
    match m w with
    | (w1, Some a) => k a w1
    | (w1, None) => (w1, None)
    end.

Notation "x <- m ;; k" := (bind m (fun x => k))
  (at level 100, m at next level, right associativity).
Notation "m ;;; k" := (bind m (fun _ => k))
  (at level 100, right associativity).

Section Effects.
Context {P : Platform}.

(** [response.content], the body read to its end *)
Definition content (r : response) : option string :=
  if broken r then None else Some (String.concat EmptyString (chunks r)).

(** [response.text] and [response.content] of a response whose body was
    read when the request returned *)
Definition body (r : response) : string := String.concat EmptyString (chunks r).

(** [requests.get] and [session.get]; without [stream=True] the body is
    read before the call returns, so a broken body raises here. *)
Definition http_get (url : string) (timeout : Z) (stream : bool) : eff response :=
  fun w =>
    let w1 := emit (HttpGet url timeout stream) w in
    match server (length (log w)) GET url with
    | Raises => (w1, None)
    | Responds r => if negb stream && broken r then (w1, None) else (w1, Some r)
    end.

(** [session.post] *)
Definition http_post (url : string) (timeout : Z) : eff response :=
  fun w =>
    let w1 := emit (HttpPost url timeout) w in
    match server (length (log w)) POST url with
    | Raises => (w1, None)
    | Responds r => if broken r then (w1, None) else (w1, Some r)
    end.

(** [response.raise_for_status()] *)
Definition raise_for_status (r : response) : eff unit :=
  if ((400 <=? status r) && (status r <? 600))%Z then raise else ret tt.

(** A file-system call, which the system may refuse. *)
Definition os_call (e : event) : eff unit :=
  fun w => (emit e w, if os_error (length (log w)) e then None else Some tt).

(** [os.makedirs(d, exist_ok=True)]; the empty path is always refused. *)
Definition makedirs (d : string) : eff unit :=
  if String.eqb d EmptyString then (os_call (Makedirs d) ;;; raise)
  else os_call (Makedirs d).

(** [for chunk in chunks: f.write(chunk)] *)
Fixpoint write_all (path : string) (cs : list string) : eff unit :=
  match cs with
  | [] => ret tt
  | c :: cs' => os_call (FileWrite path c) ;;; write_all path cs'
  end.

(** [time.sleep] *)
Definition sleep (millis : Z) : world -> world := emit (Sleep millis).

End Effects.

(** [list(set(links))]: the order of the result is the set's own. *)
Definition list_set (links : list string) : list string :=
  elements (list_to_set links : gset string).

(** ** crawl_cms_hcpcs.py *)

Module Cms.
Section Cms.
Context {P : Platform}.

Definition DOWNLOAD_DIR : string := "cms.gov".

Definition DOWNLOAD_EXTENSIONS : list string :=
  [".zip"; ".pdf"; ".txt"; ".csv"; ".xlsx"; ".xls"; ".docx"; ".doc"; ".xml"].

(** [any(path.endswith(ext) for ext in DOWNLOAD_EXTENSIONS)] *)
Definition is_download_path (path : string) : bool :=
  existsb (Py.endswith path) DOWNLOAD_EXTENSIONS.

(** [any(keyword in path for keyword in ['hcpcs', 'alpha-numeric', 'coding'])] *)
Definition has_keyword (path : string) : bool :=
  existsb (Py.contains path) ["hcpcs"; "alpha-numeric"; "coding"].

(** The group [(zip|pdf|txt|csv|xlsx?|docx?|xml)] of [url_pattern]. *)
Definition url_pattern_group : list string :=
  ["zip"; "pdf"; "txt"; "csv"; "xlsx"; "xls"; "docx"; "doc"; "xml"].

(** The loop of [get_page]: [n] iterations of [range(retries)] are left. *)
Fixpoint get_page_loop (n : nat) (attempt retries : Z) (url : string)
    (w : world) : world * option response :=
  match n with
  | O => (w, None)
  | S n' =>
      match (response <- http_get url 30 false ;;
             raise_for_status response ;;;
             ret response) w with
      | (w1, Some response) => (w1, Some response)
      | (w1, None) =>
          if (attempt <? retries - 1)%Z
          then get_page_loop n' (attempt + 1) retries url (sleep 2000 w1)
          else (w1, None)
      end
  end.

Definition get_page (url : string) (retries : Z) (w : world)
    : world * option response :=
  get_page_loop (Z.to_nat retries) 0 retries url (emit (PageFetch url) w).

(** The body of the loop over the anchors: what one [href] appends to
    [links]. *)
Definition anchor_links (base_url : string) (w : world) (href : string)
    : list string :=
  let full_url := urljoin base_url href in
  let path := Py.lower (urlparse_path full_url) in
  (if is_download_path path then [full_url] else [])
  ++ (if has_keyword path
      then if decide (full_url ∈ VISITED_URLS w) then [] else [full_url]
      else []).

(** The second pass, over [str(soup)]: what it appends to [links]. *)
Definition text_links (s : soup) : list string :=
  List.filter (fun url => Py.startswith url "http")
              (Re.findall url_pattern_group (page_text s)).

Definition find_downloadable_links (s : soup) (base_url : string) (w : world)
    : list string :=
  list_set (flat_map (anchor_links base_url w) (anchors s) ++ text_links s).

Definition download_file (url filepath : string) (w : world) : world * bool :=
  if decide (url ∈ DOWNLOADED_FILES w) then (w, false)
  else
    match (response <- http_get url 60 true ;;
           raise_for_status response ;;;
           makedirs (Py.dirname filepath) ;;;
           os_call (FileOpen filepath) ;;;
           write_all filepath (chunks response) ;;;
           (if broken response then raise else ret tt) ;;;
           os_call (Getsize filepath) ;;;
           (fun w => (record_download url w, Some tt))) w with
    | (w1, Some _) => (w1, true)
    | (w1, None) => (w1, false)
    end.

Definition get_filename_from_url (url default : string) : string :=
  let path := urlparse_path url in
  let filename := Py.basename path in
  let filename :=
    if String.eqb filename EmptyString || negb (Py.contains filename ".")
    then if Py.contains (Py.lower (urlparse_query url)) "file"
         then Py.last_item (Py.split (urlparse_query url) "=")
         else default
    else filename in
  Re.sub_unsafe filename.

(** The first loop of [crawl_page]: the links that are files. *)
Definition download_link (link : string) (w : world) : world :=
  let path_lower := Py.lower (urlparse_path link) in
  if is_download_path path_lower then
    let filename := get_filename_from_url link "file" in
    let url_path := Py.strip_slash (urlparse_path link) in
    let subdir :=
      if String.eqb url_path EmptyString then DOWNLOAD_DIR
      else Py.join DOWNLOAD_DIR (Py.all_but_last (Py.split url_path "/")) in
    let filepath := Py.join subdir [filename] in
    sleep 500 (fst (download_file link filepath w))
  else w.

Definition download_links (links : list string) (w : world) : world :=
  fold_left (fun w link => download_link link w) links w.

(** The second loop of [crawl_page], over a [crawl] that stands for the
    recursive call; [None] when a call gave no result. *)
Fixpoint crawl_links (crawl : string -> world -> option world)
    (links : list string) (w : world) : option world :=
  match links with
  | [] => Some w
  | link :: rest =>
      if decide (link ∈ VISITED_URLS w) then crawl_links crawl rest w
      else if Py.contains (urlparse_netloc link) "cms.gov" then
        match crawl link w with
        | Some w1 => crawl_links crawl rest (sleep 1000 w1)
        | None => None
        end
      else crawl_links crawl rest w
  end.

(** What [crawl_page] does with a page it has fetched. *)
Definition process_page (crawl : string -> world -> option world)
    (url : string) (response : response) (w : world) : option world :=
  let content_type := Py.lower (content_type response) in
  let path := Py.lower (urlparse_path url) in
  if is_download_path path
     || Py.contains content_type "application/"
     || Py.contains content_type "pdf"
  then
    let filename :=
      get_filename_from_url url ("file_" +:+ pretty (size (DOWNLOADED_FILES w))) in
    let filepath := Py.join DOWNLOAD_DIR [filename] in
    Some (fst (download_file url filepath w))
  else
    match html_parser (body response) with
    | None => Some w
    | Some s =>
        let links := find_downloadable_links s url w in
        crawl_links crawl links (download_links links w)
    end.

(** [crawl_page], by recursion on the number of nested calls it may still
    make; [None] when that number does not suffice. *)
Fixpoint crawl_page_rec (fuel : nat) (url : string) (depth max_depth : Z)
    (w : world) : option world :=
  if (depth >? max_depth)%Z then Some w
  else if decide (url ∈ VISITED_URLS w) then Some w
  else
    match fuel with
    | O => None
    | S fuel' =>
        let w := visit url w in
        match get_page url 3 w with
        | (w, None) => Some w
        | (w, Some response) =>
            process_page
              (fun link => crawl_page_rec fuel' link (depth + 1) max_depth)
              url response w
        end
    end.

(** The depth grows by one with every nested call and no call is made
    beyond [max_depth], so [max_depth - depth + 1] nested calls suffice. *)
Definition crawl_page (url : string) (depth max_depth : Z) (w : world)
    : option world :=
  crawl_page_rec (Z.to_nat (max_depth - depth + 1)) url depth max_depth w.

End Cms.
End Cms.

(** ** download_loinc.py *)

Module Loinc.
Section Loinc.
Context {P : Platform}.

Definition BASE_URL : string := "https://loinc.org".
Definition LOGIN_URL : string := "https://loinc.org/wp-login.php".
Definition DOWNLOAD_PAGE_URL : string :=
  "https://loinc.org/file-access/download-id/470626/".
Definition COMPLETE_DOWNLOAD_URL : string :=
  "https://loinc.org/download/loinc-complete/".
Definition DOWNLOAD_DIR : string := "loinc".
Definition USERNAME : string := "cze".

Definition DOWNLOAD_EXTENSIONS : list string :=
  [".zip"; ".pdf"; ".txt"; ".csv"; ".xlsx"; ".xls"; ".docx"; ".doc"; ".xml";
   ".db"; ".sqlite"; ".owl"; ".rdf"].

Definition is_download_path (path : string) : bool :=
  existsb (Py.endswith path) DOWNLOAD_EXTENSIONS.

(** [any(keyword in path.lower() for keyword in [...])] *)
Definition has_keyword (path : string) : bool :=
  existsb (Py.contains (Py.lower path)) ["download"; "file"; "loinc"; "complete"].

(** The group [(zip|pdf|txt|csv|xlsx?|docx?|xml|db|sqlite|owl|rdf)]. *)
Definition url_pattern_group : list string :=
  ["zip"; "pdf"; "txt"; "csv"; "xlsx"; "xls"; "docx"; "doc"; "xml";
   "db"; "sqlite"; "owl"; "rdf"].

(** The heuristic of [login] on the response to the form submission. *)
Definition login_succeeded (response : response) : bool :=
  Py.contains (final_url response) "wp-admin"
  || Py.contains (final_url response) "file-access"
  || Py.contains (Py.lower (body response)) (Py.lower USERNAME).

(** [login]: every exception inside it is caught and gives [False]. *)
Definition login (w : world) : world * bool :=
  match (login_page <- http_get LOGIN_URL 30 false ;;
         raise_for_status login_page ;;;
         match html_parser (body login_page) with
         | None => raise
         | Some s =>
             match forms s with
             | [] => ret false
             | _ :: _ =>
                 response <- http_post LOGIN_URL 30 ;;
                 if login_succeeded response then ret true
                 else
                   os_call (FileOpen "login_response.html") ;;;
                   os_call (FileWrite "login_response.html" (body response)) ;;;
                   ret false
             end
         end) w with
  | (w1, Some b) => (w1, b)
  | (w1, None) => (w1, false)
  end.

Fixpoint get_page_loop (n : nat) (attempt retries : Z) (url : string)
    (w : world) : world * option response :=
  match n with
  | O => (w, None)
  | S n' =>
      match (response <- http_get url 60 false ;;
             raise_for_status response ;;;
             ret response) w with
      | (w1, Some response) => (w1, Some response)
      | (w1, None) =>
          if (attempt <? retries - 1)%Z
          then get_page_loop n' (attempt + 1) retries url
                 (sleep (1000 * 2 ^ attempt) w1)
          else (w1, None)
      end
  end.

Definition get_page (url : string) (retries : Z) (w : world)
    : world * option response :=
  get_page_loop (Z.to_nat retries) 0 retries url (emit (PageFetch url) w).

Definition anchor_links (base_url : string) (w : world) (href : string)
    : list string :=
  if String.eqb href EmptyString then []
  else
    let full_url := urljoin base_url href in
    let path := Py.lower (urlparse_path full_url) in
    (if is_download_path path then [full_url] else [])
    ++ (if has_keyword path
        then if decide (full_url ∈ VISITED_URLS w) then [] else [full_url]
        else []).

Definition text_links (s : soup) : list string :=
  List.filter (fun m => Py.startswith m "http")
              (Re.findall url_pattern_group (page_text s)).

Definition form_links (base_url : string) (action : string) : list string :=
  if String.eqb action EmptyString then []
  else
    let full_action := urljoin base_url action in
    if Py.contains (Py.lower full_action) "download" then [full_action] else [].

Definition find_downloadable_links (s : soup) (base_url : string) (w : world)
    : list string :=
  list_set (flat_map (anchor_links base_url w) (anchors s)
            ++ text_links s
            ++ flat_map (form_links base_url) (forms s)).

(** The part of [download_file] that writes the body, given the chunks
    [iter_content] yields and whether it raises after them. *)
Definition save (url filepath : string) (cs : list string) (breaks : bool)
    : eff bool :=
  makedirs (Py.dirname filepath) ;;;
  os_call (FileOpen filepath) ;;;
  write_all filepath cs ;;;
  (if breaks then raise else ret tt) ;;;
  os_call (Getsize filepath) ;;;
  (fun w => (record_download url w, Some true)).

(** [download_file].  The body is read as a whole ([response.content])
    only when the content type mentions [text/html]; [iter_content] then
    yields slices of what was read, and the chunks of the stream
    otherwise. *)
Definition download_file (url filepath : string) (w : world) : world * bool :=
  if decide (url ∈ DOWNLOADED_FILES w) then (w, false)
  else
    match (response <- http_get url 300 true ;;
           raise_for_status response ;;;
           let content_type := Py.lower (content_type response) in
           if Py.contains content_type "text/html" then
             match content response with
             | None => raise
             | Some c =>
                 if (Py.len c <? 10000)%Z then ret false
                 else save url filepath (Py.iter_slices c 8192) false
             end
           else save url filepath (chunks response) (broken response)) w with
    | (w1, Some b) => (w1, b)
    | (w1, None) => (w1, false)
    end.

(** [get_filename_from_url]; [None] is the [IndexError] of
    [split('file=')[1]] when the query mentions [file] without [file=]. *)
Definition get_filename_from_url (url default : string) : option string :=
  let filename := Py.basename (urlparse_path url) in
  let filename :=
    if String.eqb filename EmptyString || String.eqb filename "/" then
      let query_params := urlparse_query url in
      if Py.contains query_params "file" then
        match Py.split query_params "file=" with
        | _ :: after :: _ => Some (hd EmptyString (Py.split after "&"))
        | _ => None
        end
      else Some default
    else Some filename in
  match filename with
  | None => None
  | Some filename =>
      let filename := Re.sub_unsafe filename in
      Some (if String.eqb filename EmptyString then default else filename)
  end.

(** The loop over links that downloads those that are files. *)
Definition download_link (link : string) : eff unit :=
  let path_lower := Py.lower (urlparse_path link) in
  if is_download_path path_lower then
    match get_filename_from_url link "file" with
    | None => raise
    | Some filename =>
        let filepath := Py.join DOWNLOAD_DIR [filename] in
        fun w => (sleep 1000 (fst (download_file link filepath w)), Some tt)
    end
  else ret tt.

Fixpoint download_links (links : list string) : eff unit :=
  match links with
  | [] => ret tt
  | link :: rest => download_link link ;;; download_links rest
  end.

(** [accept_terms_and_download].  The fields of the submitted form do not
    change what the script does next, they only reach the server, whose
    answer is the oracle's; so they are not computed here. *)
Definition accept_terms_and_download (page_url : string) : eff (list string) :=
  fun w =>
    match get_page page_url 3 w with
    | (w1, None) => (w1, Some [])
    | (w1, Some response) =>
        match html_parser (body response) with
        | None => (w1, None)
        | Some s =>
            match forms s with
            | [] => (w1, Some [])
            | form_action :: _ =>
                let submit_url :=
                  if String.eqb form_action EmptyString then page_url
                  else urljoin page_url form_action in
                match http_post submit_url 60 w1 with
                | (w2, None) => (w2, Some [])
                | (w2, Some response) =>
                    match html_parser (body response) with
                    | None => (w2, Some [])
                    | Some s2 =>
                        (w2, Some (find_downloadable_links s2 BASE_URL w2))
                    end
                end
            end
        end
    end.

Definition crawl_download_page (url : string) : eff unit :=
  fun w =>
    if decide (url ∈ VISITED_URLS w) then (w, Some tt)
    else
      let w := visit url w in
      match get_page url 3 w with
      | (w, None) => (w, Some tt)
      | (w, Some response) =>
          let content_type := Py.lower (content_type response) in
          let path := Py.lower (urlparse_path url) in
          if is_download_path path
             || Py.contains content_type "application/"
             || Py.contains content_type "pdf"
             || Py.contains content_type "zip"
             || Py.contains content_type "octet-stream"
          then
            match get_filename_from_url url
                    ("file_" +:+ pretty (size (DOWNLOADED_FILES w))) with
            | None => (w, None)
            | Some filename =>
                let filepath := Py.join DOWNLOAD_DIR [filename] in
                (fst (download_file url filepath w), Some tt)
            end
          else
            match html_parser (body response) with
            | None => (w, Some tt)
            | Some s =>
                (links <- (fun w => (w, Some (find_downloadable_links s url w))) ;;
                 download_links links ;;;
                 if Py.contains url "file-access"
                    || Py.contains (Py.lower url) "download"
                 then
                   form_links <- accept_terms_and_download url ;;
                   download_links form_links
                 else ret tt) w
            end
      end.

(** The loop of [main] over the additional URLs, which catches what a
    crawl raises. *)
Definition crawl_additional (urls : list string) (w : world) : world :=
  fold_left
    (fun w url =>
       match crawl_download_page url w with
       | (w1, Some _) => sleep 1000 w1
       | (w1, None) => w1
       end)
    urls w.

(** [main]: one run of the script. *)
Definition main : eff unit :=
  os_call (Makedirs DOWNLOAD_DIR) ;;;
  (fun w => (sleep 2000 (fst (login w)), Some tt)) ;;;
  crawl_download_page DOWNLOAD_PAGE_URL ;;;
  crawl_download_page COMPLETE_DOWNLOAD_URL ;;;
  (fun w =>
     (crawl_additional
        ["https://loinc.org/download/";
         "https://loinc.org/download/loinc-complete/";
         "https://loinc.org/downloads/"] w, Some tt)).

End Loinc.
End Loinc.

(** ** download_all_loinc.py *)

Module AllLoinc.
Section AllLoinc.
Context {P : Platform}.

Definition BASE_URL : string := "https://loinc.org".
Definition DOWNLOAD_DIR : string := "loinc".
Definition USERNAME : string := "cze".

(** The three ways [login_and_get_session] ends when nothing raises: it
    returns [None] without a form, and otherwise the session, after
    printing that the login succeeded or that it may have failed. *)
Inductive login_report : Type :=
| NoForm
| LoginSuccessful
| LoginMayHaveFailed.

Definition login_succeeded (response : response) : bool :=
  Py.contains (Py.lower (body response)) (Py.lower USERNAME)
  || Py.contains (final_url response) "downloads".

(** [login_and_get_session]; nothing is caught here. *)
Definition login_and_get_session : eff login_report :=
  let login_url := "https://loinc.org/wp-login.php" in
  response <- http_get login_url 30 false ;;
  match html_parser (body response) with
  | None => raise
  | Some s =>
      match forms s with
      | [] => ret NoForm
      | _ :: _ =>
          response <- http_post login_url 30 ;;
          if login_succeeded response then ret LoginSuccessful
          else ret LoginMayHaveFailed
      end
  end.

(** [download_file(session, url, filename)], with [None] for a missing
    [filename]. *)
Definition download_file (url : string) (filename : option string) (w : world)
    : world * bool :=
  let filename :=
    match filename with
    | Some filename => filename
    | None =>
        let filename := Py.basename (hd EmptyString (Py.split url "?")) in
        if String.eqb filename EmptyString || String.eqb filename "/"
        then "file_" +:+ pretty (time_now (length (log w)))
        else filename
    end in
  let filepath := Py.join DOWNLOAD_DIR [filename] in
  if path_exists (length (log w)) filepath then (w, false)
  else
    match (response <- http_get url 300 true ;;
           raise_for_status response ;;;
           let content_type := Py.lower (content_type response) in
           cs <- (if Py.contains content_type "text/html" then
                    match content response with
                    | None => raise
                    | Some c =>
                        if (Py.len c <? 50000)%Z then ret None
                        else ret (Some (Py.iter_slices c 8192, false))
                    end
                  else ret (Some (chunks response, broken response))) ;;
           match cs with
           | None => ret false
           | Some (cs, breaks) =>
               os_call (FileOpen filepath) ;;;
               write_all filepath cs ;;;
               (if breaks then raise else ret tt) ;;;
               os_call (Getsize filepath) ;;;
               ret true
           end) w with
    | (w1, Some b) => (w1, b)
    | (w1, None) => (w1, false)
    end.

End AllLoinc.
End AllLoinc.

(** ** download_nlm_genes.py *)

Module Genes.
Section Genes.
Context {P : Platform}.

(** The query parameters, [urllib.parse.urlencode] and the decoding of a
    JSON body ([response.json()], which raises on a body that is not
    JSON) are the libraries'. *)
Variable params : Type.
Variable urlencode : params -> string.
Variable json : Type.
Variable json_of : string -> option json.

Definition BASE_URL : string :=
  "https://clinicaltables.nlm.nih.gov/api/genes/v4/search".

Fixpoint make_request_loop (n : nat) (attempt retries : Z) (ps : params)
    (w : world) : world * option json :=
  match n with
  | O => (w, None)
  | S n' =>
      match (let url := BASE_URL +:+ "?" +:+ urlencode ps in
             response <- http_get url 30 false ;;
             raise_for_status response ;;;
             match json_of (body response) with
             | Some j => ret j
             | None => raise
             end) w with
      | (w1, Some j) => (w1, Some j)
      | (w1, None) =>
          if (attempt <? retries - 1)%Z
          then make_request_loop n' (attempt + 1) retries ps (sleep 2000 w1)
          else (w1, None)
      end
  end.

Definition make_request (ps : params) (retries : Z) (w : world)
    : world * option json :=
  make_request_loop (Z.to_nat retries) 0 retries ps w.

End Genes.
End Genes.

(** ** download_all_loinc.py: the run *)

Module AllLoincRun.
Section AllLoincRun.
Context {P : Platform}.

(** [tag.get_text(strip=True)] of the anchor number [i] of a page, in the
    order of [anchors]. *)
Variable anchor_text : soup -> nat -> string.

Definition DOWNLOAD_URLS : list string :=
  ["https://loinc.org/file-access/download-id/470626/";
   "https://loinc.org/downloads/"].

(** The body of the loop of [find_download_links]: what the anchor number
    [i] appends to [links]; the file name is [None] for a page that has to
    be visited. *)
Definition scan_anchor (url : string) (s : soup) (i : nat) (href : string)
    : list (string * option string) :=
  if String.eqb href EmptyString then []
  else
    let full_url := urljoin url href in
    let text := Py.lower (anchor_text s i) in
    let href_lower := Py.lower href in
    if existsb (Py.endswith href_lower)
         [".zip"; ".csv"; ".txt"; ".xlsx"; ".xls"; ".pdf"; ".db"; ".sqlite"]
    then [(full_url, Some (Py.basename (hd EmptyString (Py.split href "?"))))]
    else if existsb (Py.contains text) ["download"; "loinc"; "file"]
            || existsb (Py.contains href_lower) ["download"; "file-access"; "file_id"]
    then if Py.contains href_lower "file-access"
            || Py.contains href_lower "download-id"
         then [(full_url, None)]
         else []
    else [].

(** [find_download_links]: every exception gives the empty list. *)
Definition find_download_links (url : string) (w : world)
    : world * list (string * option string) :=
  match (response <- http_get url 60 false ;;
         raise_for_status response ;;;
         match html_parser (body response) with
         | None => raise
         | Some s => ret (List.concat (imap (scan_anchor url s) (anchors s)))
         end) w with
  | (w1, Some links) => (w1, links)
  | (w1, None) => (w1, [])
  end.

(** The anchors of the answer to the terms form that are files. *)
Definition answer_links (response : response) (s : soup) : list (string * string) :=
  flat_map
    (fun href =>
       let full_url := urljoin (final_url response) href in
       if existsb (Py.endswith (Py.lower full_url))
            [".zip"; ".csv"; ".txt"; ".xlsx"; ".xls"; ".pdf"]
       then [(full_url, Py.basename (hd EmptyString (Py.split href "?")))]
       else [])
    (anchors s).

(** [accept_terms_and_download]: every exception gives the empty list.  As
    in [download_loinc.py] the fields of the form are not computed. *)
Definition accept_terms_and_download (url : string) (w : world)
    : world * list (string * string) :=
  match (response <- http_get url 60 false ;;
         match html_parser (body response) with
         | None => raise
         | Some s =>
             match forms s with
             | [] => ret []
             | form_action :: _ =>
                 let submit_url :=
                   if String.eqb form_action EmptyString then url
                   else urljoin url form_action in
                 response <- http_post submit_url 60 ;;
                 match html_parser (body response) with
                 | None => raise
                 | Some s2 =>
                     let download_links := answer_links response s2 in
                     let content_type := Py.lower (content_type response) in
                     if Py.contains content_type "application/"
                        || Py.contains content_type "zip"
                        || Py.contains content_type "octet-stream"
                     then
                       fun w =>
                         (w, Some (download_links
                                   ++ [(final_url response,
                                        "loinc_file_"
                                        +:+ pretty (time_now (length (log w)))
                                        +:+ ".zip")]))
                     else ret download_links
                 end
             end
         end) w with
  | (w1, Some links) => (w1, links)
  | (w1, None) => (w1, [])
  end.

(** The state of the loops of [main]: the world and the local set
    [downloaded]. *)
Definition run_state : Type := world * gset string.

(** [download_file(...); downloaded.add(url); time.sleep(1)] *)
Definition try_download (url : string) (filename : option string) (st : run_state)
    : run_state :=
  let (w, downloaded) := st in
  (sleep 1000 (fst (AllLoinc.download_file url filename w)), {[url]} ∪ downloaded).

(** The loop over the links the terms flow returned. *)
Definition download_answers (file_links : list (string * string)) (st : run_state)
    : run_state :=
  fold_left
    (fun st link =>
       let '(file_url, file_name) := link in
       if decide (file_url ∈ snd st) then st
       else try_download file_url (Some file_name) st)
    file_links st.

(** The body of the loop over the links of a page. *)
Definition process_link (link : string * option string) (st : run_state)
    : run_state :=
  let '(link_url, filename) := link in
  if decide (link_url ∈ snd st) then st
  else if Py.contains link_url "file-access" || Py.contains link_url "download-id"
  then
    let (w1, file_links) := accept_terms_and_download link_url (fst st) in
    download_answers file_links (w1, snd st)
  else try_download link_url filename st.

Definition process_page (url : string) (st : run_state) : run_state :=
  let (w1, links) := find_download_links url (fst st) in
  fold_left (fun st link => process_link link st) links (w1, snd st).

(** The loop over [direct_urls]. *)
Definition download_direct (direct_urls : list (string * string)) (st : run_state)
    : run_state :=
  fold_left
    (fun st link =>
       let '(url, filename) := link in
       if decide (url ∈ snd st) then st
       else try_download url (Some filename) st)
    direct_urls st.

(** What [main] does once it is logged in; the result holds the set
    [downloaded] whose size [main] prints. *)
Definition download_all (w : world) : run_state :=
  let st := fold_left (fun st url => process_page url st) DOWNLOAD_URLS (w, ∅) in
  download_direct
    [("https://loinc.org/download/loinc-complete/", "Loinc_2.81.zip")] st.

(** [main]; without a login form it stops before any download. *)
Definition main : eff unit :=
  makedirs AllLoinc.DOWNLOAD_DIR ;;;
  session <- AllLoinc.login_and_get_session ;;
  match session with
  | AllLoinc.NoForm => ret tt
  | _ => fun w => (fst (download_all (sleep 2000 w)), Some tt)
  end.

End AllLoincRun.
End AllLoincRun.

(** ** convert_icd10_to_csv.py *)

Module Icd10.

(** A row of the table: the dictionary with the keys ['code'] and
    ['description']. *)
Record entry := { code : string; description : string }.

(** [s.strip()]: without the white space at both ends. *)
Fixpoint lstrip (s : string) : string :=
  match s with
  | String c r => if Re.space_char c then lstrip r else s
  | EmptyString => EmptyString
  end.

Definition rstrip (s : string) : string := String.rev (lstrip (String.rev s)).

Definition strip (s : string) : string := rstrip (lstrip s).

(** The classes [[A-Z]] and [\d] of the pattern. *)
Definition upper_char (c : ascii) : bool := Py.code_in c 65 90.
Definition digit_char (c : ascii) : bool := Py.code_in c 48 57.

(** [re.match(r'^([A-Z]\d{2}(?:\.\d+)?)\s+(.+)', line)].

    [line_run s] is what the final [.+] takes at the head of [s]: all
    the characters up to the first line feed. *)
Fixpoint line_run (s : string) : string :=
  match s with
  | String c r => if Ascii.eqb c "010" then EmptyString else String c (line_run r)
  | EmptyString => EmptyString
  end.

(** [\s+(.+)] after one white-space character has been taken: the
    matcher first takes more white space, and only when that fails lets
    the group start here, where it needs one character that is no line
    feed. *)
Fixpoint match_spaces (s : string) : option string :=
  match s with
  | EmptyString => None
  | String c r =>
      let here := if Ascii.eqb c "010" then None else Some (line_run s) in
      if Re.space_char c then
        match match_spaces r with
        | Some g => Some g
        | None => here
        end
      else here
  end.

(** [\s+(.+)] at the head of [s]. *)
Definition after_code (s : string) : option string :=
  match s with
  | String c r => if Re.space_char c then match_spaces r else None
  | EmptyString => None
  end.

(** The greedy [\d+]: the digits at the head of [s] and what follows. *)
Fixpoint digits (s : string) : string * string :=
  match s with
  | String c r =>
      if digit_char c then let (ds, rest) := digits r in (String c ds, rest)
      else (EmptyString, s)
  | EmptyString => (EmptyString, EmptyString)
  end.

(** The whole pattern; the result is the pair of its two groups.  The
    optional decimal part is tried first; giving back digits of [\d+]
    never helps, since a digit would then have to match [\s]. *)
Definition code_match (line : string) : option (string * string) :=
  match line with
  | String a (String b (String c rest)) =>
      if upper_char a && digit_char b && digit_char c then
        let head := String a (String b (String c EmptyString)) in
        let decimal :=
          match rest with
          | String "." r =>
              let (ds, r') := digits r in
              if String.eqb ds EmptyString then None
              else option_map (fun g => (head +:+ "." +:+ ds, g)) (after_code r')
          | _ => None
          end in
        match decimal with
        | Some m => Some m
        | None => option_map (fun g => (head, g)) (after_code rest)
        end
      else None
  | _ => None
  end.

(** [if current_code:] on a value that is [None] or a string. *)
Definition truthy (current_code : option string) : bool :=
  match current_code with
  | Some c => negb (String.eqb c EmptyString)
  | None => false
  end.

(** The block that saves the code read so far (lines 60-66 and 75-81). *)
Definition save (current_code : option string) (current_desc : list string)
    (codes : list entry) : list entry :=
  match current_code with
  | Some c =>
      if truthy current_code then
        let desc := strip (String.concat " " current_desc) in
        if String.eqb desc EmptyString then codes
        else codes ++ [{| code := c; description := desc |}]
      else codes
  | None => codes
  end.

(** The variables of the loop over the lines: [codes], [current_code]
    and [current_desc]. *)
Definition line_state : Type := list entry * option string * list string.

(** One turn of the loop over the lines of a page. *)
Definition read_line (st : line_state) (line : string) : line_state :=
  let '(codes, current_code, current_desc) := st in
  let line := strip line in
  if String.eqb line EmptyString then st
  else
    match code_match line with
    | Some (c, d) => (save current_code current_desc codes, Some c, [d])
    | None =>
        if truthy current_code then (codes, current_code, current_desc ++ [line])
        else st
    end.

(** One turn of the loop over the pages; [text] is what
    [page.extract_text()] returned. *)
Definition read_page (codes : list entry) (text : option string) : list entry :=
  match text with
  | None => codes
  | Some t =>
      if String.eqb t EmptyString then codes
      else
        let '(codes, current_code, current_desc) :=
          fold_left read_line (Py.split t (String "010" EmptyString))
                    (codes, None, []) in
        save current_code current_desc codes
  end.

(** [extract_icd10_codes(pdf_path)], as a function of the texts of the
    pages of the document. *)
Definition extract_icd10_codes (pages : list (option string)) : list entry :=
  fold_left read_page pages [].

End Icd10.

(** ** A platform for the examples

    [urllib.parse] on URLs of the shape [scheme://host/path?query], which
    is what the examples use, and servers given by a table. *)

Module Demo.

Fixpoint span (stop : ascii -> bool) (s : string) : string * string :=
  match s with
  | EmptyString => (EmptyString, EmptyString)
  | String c r =>
      if stop c then (EmptyString, s)
      else let (a, b) := span stop r in (String c a, b)
  end.

Definition after_scheme (url : string) : string :=
  match Py.split url "://" with
  | _ :: rest :: _ => rest
  | _ => url
  end.

Definition is_slash_or_mark (c : ascii) : bool :=
  Ascii.eqb c "/" || Ascii.eqb c "?".

Definition netloc (url : string) : string :=
  fst (span is_slash_or_mark (after_scheme url)).

Definition path (url : string) : string :=
  fst (span (Ascii.eqb "?") (snd (span is_slash_or_mark (after_scheme url)))).

Definition query (url : string) : string :=
  match snd (span (Ascii.eqb "?") (after_scheme url)) with
  | String _ q => q
  | EmptyString => EmptyString
  end.

Definition join (base href : string) : string :=
  if Py.contains href "://" then href
  else hd EmptyString (Py.split base "://") +:+ "://" +:+ netloc base +:+ href.

(** An HTML page served at [url]. *)
Definition html (url text : string) : response :=
  {| status := 200; final_url := url; content_type := "text/html";
     chunks := [text]; broken := false |}.

(** A file served at [url] in two chunks. *)
Definition archive (url : string) : response :=
  {| status := 200; final_url := url; content_type := "application/zip";
     chunks := ["PK"; "data"]; broken := false |}.

(** The same file when the connection is lost after the first chunk. *)
Definition cut_off (url : string) : response :=
  {| status := 200; final_url := url; content_type := "application/zip";
     chunks := ["PK"]; broken := true |}.

(** A platform whose parser reads a page through [pages] and whose server
    answers through [srv]; the file system never refuses. *)
Definition platform (pages : string -> option soup)
    (srv : nat -> http_method -> string -> http_result) : Platform :=
  {| urlparse_path := path;
     urlparse_netloc := netloc;
     urlparse_query := query;
     urljoin := join;
     html_parser := pages;
     server := srv;
     os_error := fun _ _ => false;
     path_exists := fun _ _ => false;
     time_now := fun _ => 0%Z |}.

(** The server that is down. *)
Definition down : Platform := platform (fun _ => None) (fun _ _ _ => Raises).

Definition empty_page : soup :=
  {| anchors := []; forms := []; page_text := EmptyString |}.

(** The site on which every URL is an empty HTML page. *)
Definition blank : Platform :=
  platform (fun _ => Some empty_page) (fun _ _ url => Responds (html url EmptyString)).

(** The site that answers every URL with a small HTML page asking to log
    in. *)
Definition wall : Platform :=
  platform (fun _ => Some empty_page)
           (fun _ _ url => Responds (html url "<html>Please log in</html>")).

(** The site of a login that sends the user to the home page, whatever
    the credentials. *)
Definition home_redirect : Platform :=
  platform
    (fun text =>
       Some {| anchors := []; forms := ["https://loinc.org/wp-login.php"];
               page_text := text |})
    (fun _ m url =>
       match m with
       | GET => Responds (html url "<form id=loginform></form>")
       | POST => Responds (html "https://loinc.org/" "<html>Welcome</html>")
       end).

(** A page without anchors whose script names an archive. *)
Definition script_page : soup :=
  {| anchors := [];
     forms := [];
     page_text := "<script>var u = 'https://www.cms.gov/files/a.zip';</script>" |}.

(** A URL whose file name has the letter e with acute accent, code 233,
    twice. *)
Definition accented : string :=
  "https://www.cms.gov/files/r" +:+ String "233" "sum" +:+ String "233" ".pdf".

Definition seed : string := "https://www.cms.gov/seed".
Definition zip : string := "https://www.cms.gov/hcpcs/a.zip".

(** The site whose seed page links to one archive, under a path with a
    topical keyword; the answer to the request issued at time 2, the first
    download of the archive, is cut off. *)
Definition flaky : Platform :=
  platform
    (fun text => Some {| anchors := ["/hcpcs/a.zip"]; forms := []; page_text := text |})
    (fun t _ url =>
       if String.eqb url seed then Responds (html url "<a href=/hcpcs/a.zip>")
       else if Nat.eqb t 2 then Responds (cut_off url)
       else Responds (archive url)).

End Demo.

(** ** Further examples *)

Module Sample.

(** The site that serves an archive at every URL and whose pages the
    parser cannot read. *)
Definition archives : Platform :=
  Demo.platform (fun _ => None) (fun _ _ url => Responds (Demo.archive url)).

(** A URL without a file name whose query mentions [file] without
    [file=]. *)
Definition listing : string := "https://loinc.org/?files".

(** A URL without a file name whose query names the file. *)
Definition attachment : string := "https://loinc.org/?file=Loinc_2.81.zip&x=1".

(** An archive whose name has a space and brackets. *)
Definition spaced : string := "https://loinc.org/files/My File (1).zip".

(** A page on a host that has [cms.gov] in its name without being a host
    of CMS, and the site every page of which links to it. *)
Definition lookalike : string := "https://www.cms.gov.example.org/hcpcs".

Definition mirror : Platform :=
  Demo.platform
    (fun text => Some {| anchors := [lookalike]; forms := []; page_text := text |})
    (fun _ _ url => Responds (Demo.html url EmptyString)).

(** A page with a form that posts to a download address. *)
Definition form_page : soup :=
  {| anchors := []; forms := ["/download/latest"]; page_text := EmptyString |}.

(** Two pages of a table: an introduction and two codes, the first with
    a description that runs over two lines; then a page that starts with
    text that belongs to no code. *)
Definition table : list (option string) :=
  [Some ("Chapter 1" +:+ String "010" " A00  Cholera "
           +:+ String "010" "  due to Vibrio" +:+ String "010" "A00.1 Cholera eltor");
   None;
   Some ("continued" +:+ String "010" "Z99.9   Dependence")].

End Sample.

(** ** Vocabulary of the properties *)

(** The URLs fetched as pages, in the order of the fetches. *)
Fixpoint page_fetches (l : list event) : list string :=
  match l with
  | [] => []
  | PageFetch url :: l' => url :: page_fetches l'
  | _ :: l' => page_fetches l'
  end.

(** The URLs requested as files, that is with [stream=True]. *)
Fixpoint file_requests (l : list event) : list string :=
  match l with
  | [] => []
  | HttpGet url _ true :: l' => url :: file_requests l'
  | _ :: l' => file_requests l'
  end.

(** The writes of a log. *)
Definition is_write (e : event) : bool :=
  match e with
  | FileWrite _ _ => true
  | _ => false
  end.

(** The pauses of a log. *)
Fixpoint sleeps (l : list event) : list Z :=
  match l with
  | [] => []
  | Sleep d :: l' => d :: sleeps l'
  | _ :: l' => sleeps l'
  end.

(** A step that fetches no page and leaves the Visited Set alone. *)
Definition quiet (w w' : world) : Prop :=
  VISITED_URLS w' = VISITED_URLS w
  /\ page_fetches (log w') = page_fetches (log w).

(** Code that is quiet whatever the world it starts from. *)
Definition quiet_eff {A} (m : eff A) : Prop := forall w, quiet w (fst (m w)).

(** What holds of the pages fetched since a run started with the Visited
    Set [V0] and an empty log. *)
Definition fetched_once (V0 : gset string) (w : world) : Prop :=
  V0 ⊆ VISITED_URLS w
  /\ NoDup (page_fetches (log w))
  /\ forall u, u ∈ page_fetches (log w) -> u ∈ VISITED_URLS w /\ u ∉ V0.

(** How often a URL was fetched as a page. *)
Definition fetch_count (url : string) (l : list event) : nat :=
  length (List.filter (String.eqb url) (page_fetches l)).

(** What holds of the pages [download_loinc.py] fetches: a page is
    fetched when it is visited and at most once more. *)
Definition fetched_twice_at_most (w : world) : Prop :=
  forall u,
    fetch_count u (log w) <= 2
    /\ (u ∉ VISITED_URLS w -> fetch_count u (log w) = 0).

(** [n] pauses of one second. *)
Definition pauses (n : nat) (w : world) : world := Nat.iter n (sleep 1000) w.

(** The shape the three retrying functions share: [block] is one attempt,
    [delay attempt] the pause after a failed attempt that is not the last;
    [n] iterations of [range(retries)] are left. *)
Fixpoint retry_loop {A} (block : eff A) (delay : Z -> Z) (n : nat)
    (attempt retries : Z) (w : world) : world * option A :=
  match n with
  | O => (w, None)
  | S n' =>
      match block w with
      | (w1, Some a) => (w1, Some a)
      | (w1, None) =>
          if (attempt <? retries - 1)%Z
          then retry_loop block delay n' (attempt + 1) retries
                 (sleep (delay attempt) w1)
          else (w1, None)
      end
  end.

(** The events of [k] attempts [e], the first of them being attempt number
    [a]: between two attempts comes the pause of the earlier one. *)
Fixpoint attempts (e : event) (delay : Z -> Z) (a : Z) (k : nat) : list event :=
  match k with
  | O => []
  | S k' =>
      e :: match k' with
           | O => []
           | S _ => Sleep (delay a) :: attempts e delay (a + 1) k'
           end
  end.

(** What a page request issued at time [t] gives: the response, unless the
    request raised, the body broke or the status is an error. *)
Definition fetch {P : Platform} (url : string) (t : nat) : option response :=
  match server t GET url with
  | Raises => None
  | Responds r =>
      if broken r then None
      else if ((400 <=? status r) && (status r <? 600))%Z then None
      else Some r
  end.

(** What a plain request for [url] issued at time [t] gives, and what a
    form submission to [url] gives: the response, unless the request raised
    or the body broke. *)
Definition answered {P : Platform} (url : string) (t : nat) : option response :=
  match server t GET url with
  | Raises => None
  | Responds r => if broken r then None else Some r
  end.

Definition posted {P : Platform} (url : string) (t : nat) : option response :=
  match server t POST url with
  | Raises => None
  | Responds r => if broken r then None else Some r
  end.

(** What an attempt of [make_request] gives at time [t]: the decoded body
    of what [fetch] gives. *)
Definition genes_outcome {P : Platform} {json : Type}
    (json_of : string -> option json) (url : string) (t : nat) : option json :=
  match fetch url t with
  | Some r => json_of (body r)
  | None => None
  end.

(** [w'] and [res] are what a retrying function leaves and returns when it
    starts in [w] with [retries] attempts allowed: it made [k] attempts
    [e], never more than [retries], pausing [delay i] after the failed
    attempt [i]; attempt [i] was made at time [length (log w) + 2 * i], all
    attempts but the last failed, and the last gave the result; without a
    result, all [retries] attempts were made. *)
Definition retried {A} (e : event) (delay : Z -> Z) (outcome : nat -> option A)
    (retries : Z) (w w' : world) (res : option A) : Prop :=
  exists k,
    k <= Z.to_nat retries
    /\ VISITED_URLS w' = VISITED_URLS w
    /\ DOWNLOADED_FILES w' = DOWNLOADED_FILES w
    /\ log w' = log w ++ attempts e delay 0 k
    /\ sleeps (log w') =
         sleeps (log w) ++ map (fun i => delay (Z.of_nat i)) (seq 0 (k - 1))
    /\ (forall i, i < k ->
          outcome (length (log w) + 2 * i) = if S i =? k then res else None)
    /\ (res = None -> k = Z.to_nat retries)
    /\ (res <> None -> 1 <= k).

(** Pauses that grow by a fixed step from one to the next. *)
Definition grows_by_fixed_step (ds : list Z) : Prop :=
  exists step, (0 < step)%Z
    /\ forall i d1 d2, ds !! i = Some d1 -> ds !! S i = Some d2 -> d2 = (d1 + step)%Z.

(** A download that went through: the server answered [url] with a
    response whose body arrived whole, and after the request the directory
    was made, the file opened, the body written to it chunk by chunk, to
    its end, and the size read. *)
Definition saved {P : Platform} (url filepath : string) (timeout : Z)
    (w w' : world) : Prop :=
  exists r cs,
    server (length (log w)) GET url = Responds r
    /\ broken r = false
    /\ String.concat EmptyString cs = body r
    /\ log w' =
         log w
         ++ [HttpGet url timeout true; Makedirs (Py.dirname filepath);
             FileOpen filepath]
         ++ map (FileWrite filepath) cs ++ [Getsize filepath].

(** What [w'] did after [w] starts with a request for [url] as a file. *)
Definition requested_again (url : string) (timeout : Z) (w w' : world) : Prop :=
  exists rest, log w' = log w ++ HttpGet url timeout true :: rest.

(** A sequence of calls of a downloader, each with its URL and its path;
    the result lists the URLs whose call returned [True]. *)
Fixpoint run_downloads (download : string -> string -> world -> world * bool)
    (calls : list (string * string)) (w : world) : world * list string :=
  match calls with
  | [] => (w, [])
  | (url, filepath) :: rest =>
      let (w1, ok) := download url filepath w in
      let (w2, done) := run_downloads download rest w1 in
      (w2, if ok then url :: done else done)
  end.

(** The characters of a string. *)
Definition chars (s : string) : list ascii := list_ascii_of_string s.

(** The characters [A-Za-z0-9._-]. *)
Definition safe_char (c : ascii) : bool :=
  Py.code_in c 65 90 || Py.code_in c 97 122 || Py.code_in c 48 57
  || Ascii.eqb c "." || Ascii.eqb c "_" || Ascii.eqb c "-".

(** A character is sound for a file name when it is one of
    [A-Za-z0-9._-] or a letter or digit beyond ASCII. *)
Definition sound_char (c : ascii) : Prop :=
  safe_char c = true \/ ((128 <= N_of_ascii c)%N /\ Re.word_char c = true).

(** The world with another Visited Set, and code that neither reads nor
    changes that set: in a world with another Visited Set it does the same
    and returns the same. *)
Definition with_visited (V : gset string) (w : world) : world :=
  {| VISITED_URLS := V; DOWNLOADED_FILES := DOWNLOADED_FILES w; log := log w |}.

Definition blind {A} (m : eff A) : Prop :=
  forall V w, m (with_visited V w) = (with_visited V (fst (m w)), snd (m w)).

(** What a piece of code may have done between [w] and [w']: it logged
    events, it visited URLs, every one of which it fetched as a page, and it
    added URLs to the Downloaded Set, every one of which it requested as a
    file; it took nothing away. *)
Definition advance (w w' : world) : Prop :=
  exists l,
    log w' = log w ++ l
    /\ VISITED_URLS w ⊆ VISITED_URLS w'
    /\ (forall u, u ∈ VISITED_URLS w' -> u ∈ VISITED_URLS w \/ u ∈ page_fetches l)
    /\ DOWNLOADED_FILES w ⊆ DOWNLOADED_FILES w'
    /\ (forall u, u ∈ DOWNLOADED_FILES w' ->
                  u ∈ DOWNLOADED_FILES w \/ u ∈ file_requests l).

(** Code that advances whatever the world it starts from. *)
Definition advance_eff {A} (m : eff A) : Prop := forall w, advance w (fst (m w)).

(** The pages fetched up to [w] are those of [before], the [seed] and
    pages whose host has [cms.gov] in it. *)
Definition cms_pages {P : Platform} (seed : string) (before : list string)
    (w : world) : Prop :=
  forall u, u ∈ page_fetches (log w) ->
    u ∈ before \/ u = seed \/ Py.contains (urlparse_netloc u) "cms.gov" = true.

(** Extensions as the scripts list them: a dot and then characters that
    are no slash. *)
Definition plain_extensions (exts : list string) : bool :=
  forallb (fun e => negb (Py.contains e "/") && String.prefix "." e
                    && negb (Py.endswith "/" e) && negb (String.eqb e EmptyString))
          exts.

(** Code that touches neither set and logs only events that [allowed]
    accepts. *)
Definition within (allowed : event -> bool) (w w' : world) : Prop :=
  VISITED_URLS w' = VISITED_URLS w
  /\ DOWNLOADED_FILES w' = DOWNLOADED_FILES w
  /\ exists l, log w' = log w ++ l /\ forallb allowed l = true.

(** Code that stays within [allowed] whatever the world it starts from. *)
Definition within_eff {A} (allowed : event -> bool) (m : eff A) : Prop :=
  forall w, within allowed w (fst (m w)).



(** Digits only. *)
Definition all_digits (s : string) : bool :=
  forallb Icd10.digit_char (list_ascii_of_string s).

(** The shape of an ICD-10 code: a capital letter, two digits and,
    optionally, a dot and at least one digit. *)
Definition code_shape (c : string) : bool :=
  match c with
  | String a (String b (String d rest)) =>
      Icd10.upper_char a && Icd10.digit_char b && Icd10.digit_char d
      && match rest with
         | EmptyString => true
         | String "." ds => negb (String.eqb ds EmptyString) && all_digits ds
         | _ => false
         end
  | _ => false
  end.

(** The code a line of a page announces, if it announces one: the first
    group of the pattern on the stripped line. *)
Definition announced (line : string) : option string :=
  option_map fst (Icd10.code_match (Icd10.strip line)).

(** The codes a page announces, in the order of its lines. *)
Definition code_lines (text : option string) : list string :=
  match text with
  | None => []
  | Some t => omap announced (Py.split t (String "010" EmptyString))
  end.

(** A string without a line feed. *)
Definition single_line (s : string) : Prop :=
  ~ In "010"%char (list_ascii_of_string s).

(** A row as the table should hold it: a code of the right shape and a
    description that is not empty, has no white space at its ends and
    stays on one line. *)
Definition well_formed (e : Icd10.entry) : Prop :=
  code_shape (Icd10.code e) = true
  /\ Icd10.description e <> EmptyString
  /\ Icd10.strip (Icd10.description e) = Icd10.description e
  /\ single_line (Icd10.description e).

(** The code that is being read, as a list. *)
Definition pending (current_code : option string) : list string :=
  match current_code with
  | Some c => [c]
  | None => []
  end.

(** What the loop over the lines keeps true: the table holds well-formed
    rows only, a code being read is well-formed, and the pieces of its
    description hold no line feed. *)
Definition sound_state (st : Icd10.line_state) : Prop :=
  let '(codes, cc, cd) := st in
  Forall well_formed codes
  /\ (forall c, cc = Some c -> code_shape c = true)
  /\ Forall single_line cd.

(** What the loop keeps true of the code being read: it is not empty and
    its description starts with a piece that is not all white space. *)
Definition live_state (st : Icd10.line_state) : Prop :=
  let '(_, cc, cd) := st in
  forall c, cc = Some c ->
    c <> EmptyString
    /\ exists g rest, cd = g :: rest /\ Icd10.lstrip g <> EmptyString.

(** The test by which [crawl_download_page] takes the URL it fetched for a
    file: the extension of its path or the content type of the answer. *)
Definition loinc_served_as_file {P : Platform} (url : string) (response : response)
    : bool :=
  Loinc.is_download_path (Py.lower (urlparse_path url))
  || Py.contains (Py.lower (content_type response)) "application/"
  || Py.contains (Py.lower (content_type response)) "pdf"
  || Py.contains (Py.lower (content_type response)) "zip"
  || Py.contains (Py.lower (content_type response)) "octet-stream".

(** The paths a log opens for writing. *)
Fixpoint opened (l : list event) : list string :=
  match l with
  | [] => []
  | FileOpen path :: l' => path :: opened l'
  | _ :: l' => opened l'
  end.

(** The events that open no file. *)
Definition no_file_open (e : event) : bool :=
  match e with
  | FileOpen _ => false
  | _ => true
  end.

(** * Properties *)

Section Frames.
Context {P : Platform}.

Lemma page_fetches_app l1 l2 :
  page_fetches (l1 ++ l2) = page_fetches l1 ++ page_fetches l2.
Proof.
  induction l1 as [|e l1 IH]; simpl; [reflexivity|].
  destruct e; simpl; rewrite ?IH; reflexivity.
Qed.

Lemma quiet_refl w : quiet w w.
Proof. split; reflexivity. Qed.

Lemma quiet_trans w1 w2 w3 : quiet w1 w2 -> quiet w2 w3 -> quiet w1 w3.
Proof. intros [A B] [C D]. split; congruence. Qed.

Lemma quiet_emit e w :
  (forall u, e <> PageFetch u) -> quiet w (emit e w).
Proof.
  intros He. split; [reflexivity|]. simpl. rewrite page_fetches_app.
  destruct e; simpl; rewrite ?app_nil_r; try reflexivity.
  exfalso. eapply He. reflexivity.
Qed.

Lemma quiet_record url w : quiet w (record_download url w).
Proof. split; reflexivity. Qed.

Lemma quiet_ret {A} (a : A) : quiet_eff (ret a).
Proof. intros w. apply quiet_refl. Qed.

Lemma quiet_raise {A} : quiet_eff (@raise A).
Proof. intros w. apply quiet_refl. Qed.

Lemma quiet_bind {A B} (m : eff A) (k : A -> eff B) :
  quiet_eff m -> (forall a, quiet_eff (k a)) -> quiet_eff (bind m k).
Proof.
  intros Hm Hk w. unfold bind. specialize (Hm w).
  destruct (m w) as [w1 [a|]]; simpl in *; [|assumption].
  eapply quiet_trans; [exact Hm|apply Hk].
Qed.

Lemma quiet_http_get url t st : quiet_eff (http_get url t st).
Proof.
  intros w. unfold http_get.
  assert (Q : quiet w (emit (HttpGet url t st) w)) by (apply quiet_emit; discriminate).
  destruct (server _ _ _); [exact Q|]. destruct (negb st && broken r); exact Q.
Qed.

Lemma quiet_http_post url t : quiet_eff (http_post url t).
Proof.
  intros w. unfold http_post.
  assert (Q : quiet w (emit (HttpPost url t) w)) by (apply quiet_emit; discriminate).
  destruct (server _ _ _); [exact Q|]. destruct (broken r); exact Q.
Qed.

Lemma quiet_raise_for_status r : quiet_eff (raise_for_status r).
Proof.
  unfold raise_for_status. destruct (_ && _); [apply quiet_raise|apply quiet_ret].
Qed.

Lemma quiet_os_call e : (forall u, e <> PageFetch u) -> quiet_eff (os_call e).
Proof. intros He w. apply quiet_emit, He. Qed.

Lemma quiet_makedirs d : quiet_eff (makedirs d).
Proof.
  unfold makedirs. destruct (String.eqb d EmptyString).
  - apply quiet_bind; [apply quiet_os_call; discriminate|intros; apply quiet_raise].
  - apply quiet_os_call; discriminate.
Qed.

Lemma quiet_write_all path cs : quiet_eff (write_all path cs).
Proof.
  induction cs as [|c cs IH]; simpl; [apply quiet_ret|].
  apply quiet_bind; [apply quiet_os_call; discriminate|intros; exact IH].
Qed.

Lemma quiet_sleep d w : quiet w (sleep d w).
Proof. apply quiet_emit; discriminate. Qed.

(** A quiet step keeps what is known of the pages fetched. *)
Lemma fetched_once_quiet V0 w w' :
  quiet w w' -> fetched_once V0 w -> fetched_once V0 w'.
Proof.
  intros [HV HP] (A & B & C). unfold fetched_once. rewrite HV, HP. auto.
Qed.

End Frames.

Create HintDb quiet.

#[local] Hint Resolve quiet_refl quiet_ret quiet_raise quiet_http_get
  quiet_http_post quiet_raise_for_status quiet_makedirs quiet_write_all
  quiet_sleep quiet_record : quiet.

(** Splits a quiet goal along the binds of the code. *)
Ltac quiet_steps :=
  repeat first
    [ apply quiet_bind; [|intros]
    | apply quiet_os_call; discriminate
    | progress eauto with quiet ].

(** Names the world and the result a block of code leaves, with the fact
    that the block is quiet once [tac] has shown it. *)
Ltac run_block Q tac :=
  match goal with
  | |- context [match ?m ?w with _ => _ end] =>
      assert (Q : quiet_eff m) by tac;
      specialize (Q w); destruct (m w) as [? [?|]]; simpl in Q |- *
  end.

(** ** crawl_cms_hcpcs.py: what the functions leave unchanged *)

Section CmsFrames.
Context {P : Platform}.

Lemma cms_download_file_quiet url filepath w :
  quiet w (fst (Cms.download_file url filepath w)).
Proof.
  unfold Cms.download_file. destruct (decide _); [apply quiet_refl|].
  run_block Q ltac:(quiet_steps;
    [destruct (broken _); eauto with quiet|intros w0; apply quiet_record]);
    exact Q.
Qed.

Lemma cms_download_link_quiet link w : quiet w (Cms.download_link link w).
Proof.
  unfold Cms.download_link. destruct (Cms.is_download_path _); [|apply quiet_refl].
  eapply quiet_trans; [apply cms_download_file_quiet|apply quiet_sleep].
Qed.

Lemma cms_download_links_quiet links w : quiet w (Cms.download_links links w).
Proof.
  unfold Cms.download_links. revert w.
  induction links as [|l links IH]; intros w; simpl; [apply quiet_refl|].
  eapply quiet_trans; [apply cms_download_link_quiet|apply IH].
Qed.

(** An attempt of [get_page] is quiet, and so is its loop. *)
Lemma cms_get_page_loop_quiet n attempt retries url w :
  quiet w (fst (Cms.get_page_loop n attempt retries url w)).
Proof.
  revert attempt w. induction n as [|n IH]; intros attempt w; simpl;
    [apply quiet_refl|].
  run_block Q ltac:(quiet_steps); [exact Q|].
  destruct (_ <? _)%Z; [|exact Q].
  eapply quiet_trans; [exact Q|].
  eapply quiet_trans; [apply quiet_sleep|apply IH].
Qed.

(** [get_page] fetches its page, once, and touches neither set. *)
Lemma cms_get_page_fetches url retries w :
  let w' := fst (Cms.get_page url retries w) in
  VISITED_URLS w' = VISITED_URLS w
  /\ page_fetches (log w') = page_fetches (log w) ++ [url].
Proof.
  unfold Cms.get_page.
  destruct (cms_get_page_loop_quiet (Z.to_nat retries) 0 retries url
              (emit (PageFetch url) w)) as [HV HP].
  simpl. rewrite HV, HP. simpl. rewrite page_fetches_app. auto.
Qed.

End CmsFrames.

(** ** crawl_cms_hcpcs.py: the traversal *)

Section CmsCrawl.
Context {P : Platform}.

Lemma fetched_once_sleep V0 d w :
  fetched_once V0 w -> fetched_once V0 (sleep d w).
Proof. apply fetched_once_quiet, quiet_sleep. Qed.

(** Fetching a page that was not visited keeps the fetches distinct. *)
Lemma fetched_once_get_page V0 url retries w :
  url ∉ VISITED_URLS w ->
  fetched_once V0 w ->
  fetched_once V0 (fst (Cms.get_page url retries (visit url w))).
Proof.
  intros Hnew (HV & Hnd & Hin).
  destruct (cms_get_page_fetches url retries (visit url w)) as [EV EP].
  unfold fetched_once. rewrite EV, EP. simpl. split; [|split].
  - intros u Hu. apply elem_of_union_r, HV, Hu.
  - apply NoDup_app. repeat split; [assumption| |apply NoDup_singleton].
    intros u Hu Hu'. apply list_elem_of_singleton in Hu'. subst u.
    apply Hnew, Hin, Hu.
  - intros u Hu. apply elem_of_app in Hu as [Hu|Hu].
    + destruct (Hin u Hu) as [Hv Hn]. split; [apply elem_of_union_r, Hv|exact Hn].
    + apply list_elem_of_singleton in Hu. subst u.
      split; [apply elem_of_union_l, elem_of_singleton; reflexivity|].
      intros H0. apply Hnew, HV, H0.
Qed.

(** The loop over the links keeps what the nested calls keep. *)
Lemma crawl_links_keeps (I : world -> Prop) crawl links :
  (forall d w, I w -> I (sleep d w)) ->
  (forall link w w', crawl link w = Some w' -> I w -> I w') ->
  forall w w', Cms.crawl_links crawl links w = Some w' -> I w -> I w'.
Proof.
  intros Hsleep Hcrawl. induction links as [|l links IH]; intros w w' E HI; simpl in E.
  - congruence.
  - destruct (decide _); [eauto|].
    destruct (Py.contains _ _); [|eauto].
    destruct (crawl l w) as [w1|] eqn:E1; [|discriminate].
    eapply IH; [exact E|]. eauto.
Qed.

Lemma process_page_keeps (I : world -> Prop) crawl url r :
  (forall w w', quiet w w' -> I w -> I w') ->
  (forall link w w', crawl link w = Some w' -> I w -> I w') ->
  forall w w', Cms.process_page crawl url r w = Some w' -> I w -> I w'.
Proof.
  intros Hq Hcrawl w w' E HI. unfold Cms.process_page in E.
  destruct (_ || _).
  - injection E as <-. eapply Hq; [apply cms_download_file_quiet|exact HI].
  - destruct (html_parser _) as [s|]; [|congruence].
    eapply crawl_links_keeps; [| exact Hcrawl | exact E |].
    + intros d w0. apply Hq, quiet_sleep.
    + eapply Hq; [apply cms_download_links_quiet|exact HI].
Qed.

(** Every page [crawl_page] fetches is new, and fetched once. *)
Lemma crawl_page_rec_fetched_once V0 fuel :
  forall url depth max_depth w w',
    Cms.crawl_page_rec fuel url depth max_depth w = Some w' ->
    fetched_once V0 w -> fetched_once V0 w'.
Proof.
  induction fuel as [|fuel IH]; intros url depth max_depth w w' E HI; simpl in E.
  - destruct (_ >? _)%Z; [congruence|]. destruct (decide _); congruence.
  - destruct (_ >? _)%Z; [congruence|].
    destruct (decide _) as [|Hnew]; [congruence|].
    pose proof (fetched_once_get_page V0 url 3 w Hnew HI) as HI1.
    destruct (Cms.get_page url 3 (visit url w)) as [w1 [r|]]; simpl in HI1.
    + eapply process_page_keeps; [| |exact E|exact HI1].
      * intros ? ?. apply fetched_once_quiet.
      * intros link w2 w3. apply IH.
    + congruence.
Qed.

(** The nested calls a traversal may need are bounded by the depth that
    is left: [crawl_page] always returns. *)
Lemma crawl_links_total crawl links :
  (forall link w, exists w', crawl link w = Some w') ->
  forall w, exists w', Cms.crawl_links crawl links w = Some w'.
Proof.
  intros Hc. induction links as [|l links IH]; intros w; simpl; [eauto|].
  destruct (decide _); [apply IH|].
  destruct (Py.contains _ _); [|apply IH].
  destruct (Hc l w) as [w1 ->]. apply IH.
Qed.

Lemma crawl_page_rec_total fuel :
  forall url depth max_depth w,
    (max_depth - depth + 1 <= Z.of_nat fuel)%Z ->
    exists w', Cms.crawl_page_rec fuel url depth max_depth w = Some w'.
Proof.
  induction fuel as [|fuel IH]; intros url depth max_depth w Hfuel; simpl.
  - destruct (Z.gtb_spec depth max_depth); [eauto|lia].
  - destruct (_ >? _)%Z; [eauto|]. destruct (decide _); [eauto|].
    destruct (Cms.get_page _ _ _) as [w1 [r|]]; [|eauto].
    unfold Cms.process_page. destruct (_ || _); [eauto|].
    destruct (html_parser _); [|eauto].
    apply crawl_links_total. intros link w2. apply IH. lia.
Qed.

Lemma crawl_page_total url depth max_depth w :
  exists w', Cms.crawl_page url depth max_depth w = Some w'.
Proof. apply crawl_page_rec_total. lia. Qed.

(** More nested calls than needed change nothing. *)
Lemma crawl_links_ext crawl1 crawl2 links :
  (forall link w w', crawl1 link w = Some w' -> crawl2 link w = Some w') ->
  forall w w', Cms.crawl_links crawl1 links w = Some w' ->
               Cms.crawl_links crawl2 links w = Some w'.
Proof.
  intros Hc. induction links as [|l links IH]; intros w w' E; simpl in *; [exact E|].
  destruct (decide _); [eauto|]. destruct (Py.contains _ _); [|eauto].
  destruct (crawl1 l w) as [w1|] eqn:E1; [|discriminate].
  rewrite (Hc _ _ _ E1). eauto.
Qed.

Lemma crawl_page_rec_more fuel :
  forall url depth max_depth w w',
    Cms.crawl_page_rec fuel url depth max_depth w = Some w' ->
    Cms.crawl_page_rec (S fuel) url depth max_depth w = Some w'.
Proof.
  induction fuel as [|fuel IH]; intros url depth max_depth w w' E.
  - simpl in *. destruct (_ >? _)%Z; [exact E|]. destruct (decide _); congruence.
  - remember (S fuel) as n. simpl. subst n. simpl in E.
    destruct (_ >? _)%Z; [exact E|]. destruct (decide _); [exact E|].
    destruct (Cms.get_page _ _ _) as [w1 [r|]]; [|exact E].
    unfold Cms.process_page in *. destruct (_ || _); [exact E|].
    destruct (html_parser _); [|exact E].
    eapply crawl_links_ext; [|exact E]. intros link w2 w3. apply IH.
Qed.

End CmsCrawl.

(** ** download_loinc.py: what the functions leave unchanged *)

Section LoincFrames.
Context {P : Platform}.

Lemma loinc_save_quiet url filepath cs breaks :
  quiet_eff (Loinc.save url filepath cs breaks).
Proof.
  unfold Loinc.save. quiet_steps.
  - destruct breaks; eauto with quiet.
  - intros w. apply quiet_record.
Qed.

Lemma loinc_download_file_quiet url filepath w :
  quiet w (fst (Loinc.download_file url filepath w)).
Proof.
  unfold Loinc.download_file. destruct (decide _); [apply quiet_refl|].
  run_block Q ltac:(quiet_steps;
    destruct (Py.contains _ _); [|apply loinc_save_quiet];
    destruct (content _); [|apply quiet_raise];
    destruct (_ <? _)%Z; [apply quiet_ret|apply loinc_save_quiet]);
    exact Q.
Qed.

Lemma loinc_download_link_quiet link : quiet_eff (Loinc.download_link link).
Proof.
  unfold Loinc.download_link. destruct (Loinc.is_download_path _); [|apply quiet_ret].
  destruct (Loinc.get_filename_from_url _ _); [|apply quiet_raise].
  intros w. simpl.
  eapply quiet_trans; [apply loinc_download_file_quiet|apply quiet_sleep].
Qed.

Lemma loinc_download_links_quiet links : quiet_eff (Loinc.download_links links).
Proof.
  induction links as [|l links IH]; simpl; [apply quiet_ret|].
  apply quiet_bind; [apply loinc_download_link_quiet|intros; exact IH].
Qed.

Lemma loinc_login_quiet w : quiet w (fst (Loinc.login w)).
Proof.
  unfold Loinc.login.
  run_block Q ltac:(quiet_steps;
    destruct (html_parser _); [|apply quiet_raise];
    destruct (forms _); [apply quiet_ret|];
    quiet_steps; destruct (Loinc.login_succeeded _); quiet_steps);
    exact Q.
Qed.

Lemma loinc_get_page_loop_quiet n attempt retries url w :
  quiet w (fst (Loinc.get_page_loop n attempt retries url w)).
Proof.
  revert attempt w. induction n as [|n IH]; intros attempt w; simpl;
    [apply quiet_refl|].
  run_block Q ltac:(quiet_steps); [exact Q|].
  destruct (_ <? _)%Z; [|exact Q].
  eapply quiet_trans; [exact Q|].
  eapply quiet_trans; [apply quiet_sleep|apply IH].
Qed.

Lemma loinc_get_page_fetches url retries w :
  let w' := fst (Loinc.get_page url retries w) in
  VISITED_URLS w' = VISITED_URLS w
  /\ page_fetches (log w') = page_fetches (log w) ++ [url].
Proof.
  unfold Loinc.get_page.
  destruct (loinc_get_page_loop_quiet (Z.to_nat retries) 0 retries url
              (emit (PageFetch url) w)) as [HV HP].
  simpl. rewrite HV, HP. simpl. rewrite page_fetches_app. auto.
Qed.

(** The terms-acceptance flow fetches the page it is given. *)
Lemma loinc_accept_terms_fetches page_url w :
  let w' := fst (Loinc.accept_terms_and_download page_url w) in
  VISITED_URLS w' = VISITED_URLS w
  /\ page_fetches (log w') = page_fetches (log w) ++ [page_url].
Proof.
  unfold Loinc.accept_terms_and_download.
  pose proof (loinc_get_page_fetches page_url 3 w) as G.
  destruct (Loinc.get_page page_url 3 w) as [w1 [r|]]; simpl in G; [|exact G].
  destruct (html_parser _) as [s|]; [|exact G].
  destruct (forms s) as [|a fs]; [exact G|].
  match goal with |- context [http_post ?u ?t w1] =>
    pose proof (quiet_http_post u t w1) as [QV QP];
    destruct (http_post u t w1) as [w2 [r2|]] end; simpl in *.
  - destruct (html_parser _); simpl; rewrite QV, QP; exact G.
  - rewrite QV, QP; exact G.
Qed.

(** [crawl_download_page] on a page not yet visited: it is visited, and
    fetched once or twice; on a visited page nothing happens. *)
Lemma loinc_crawl_fetches url w :
  let w' := fst (Loinc.crawl_download_page url w) in
  (url ∈ VISITED_URLS w -> w' = w)
  /\ (url ∉ VISITED_URLS w ->
      VISITED_URLS w' = {[url]} ∪ VISITED_URLS w
      /\ (page_fetches (log w') = page_fetches (log w) ++ [url]
          \/ page_fetches (log w') = page_fetches (log w) ++ [url; url])).
Proof.
  unfold Loinc.crawl_download_page. simpl.
  destruct (decide _) as [Hin|Hnew]; [split; [reflexivity|contradiction]|].
  split; [contradiction|intros _].
  destruct (loinc_get_page_fetches url 3 (visit url w)) as [GV GP].
  destruct (Loinc.get_page url 3 (visit url w)) as [w1 [r|]]; simpl in GV, GP;
    [|simpl; auto].
  destruct (_ || _).
  - destruct (Loinc.get_filename_from_url _ _); simpl; [|auto].
    match goal with |- context [Loinc.download_file url ?fp w1] =>
      destruct (loinc_download_file_quiet url fp w1) as [QV QP] end.
    rewrite QV, QP. auto.
  - destruct (html_parser _) as [s|]; simpl; [|auto].
    unfold bind.
    pose proof (loinc_download_links_quiet
                  (Loinc.find_downloadable_links s url w1) w1) as [QV QP].
    destruct (Loinc.download_links _ w1) as [w2 [[]|]]; cbn [fst] in *;
      [|rewrite QV, QP; auto].
    destruct (_ || _); [|cbn [ret fst]; rewrite QV, QP; auto].
    destruct (loinc_accept_terms_fetches url w2) as [AV AP].
    destruct (Loinc.accept_terms_and_download url w2) as [w3 [ls|]];
      cbn [fst] in *.
    + destruct (loinc_download_links_quiet ls w3) as [RV RP].
      rewrite RV, RP, AV, AP, QV, QP, GV, GP. split; [reflexivity|].
      right. rewrite <- app_assoc. reflexivity.
    + rewrite AV, AP, QV, QP, GV, GP. split; [reflexivity|].
      right. rewrite <- app_assoc. reflexivity.
Qed.

End LoincFrames.

(** ** download_loinc.py: the pages of a run *)

Section LoincCrawl.
Context {P : Platform}.

Lemma fetch_count_app u l1 l2 :
  page_fetches l2 = page_fetches l1 ++ [u] ->
  forall v, fetch_count v l2 = fetch_count v l1 + (if String.eqb v u then 1 else 0).
Proof.
  intros E v. unfold fetch_count. rewrite E, List.filter_app, length_app. simpl.
  destruct (String.eqb v u); reflexivity.
Qed.

Lemma fetched_twice_quiet w w' :
  quiet w w' -> fetched_twice_at_most w -> fetched_twice_at_most w'.
Proof.
  intros [HV HP] H u. unfold fetch_count. rewrite HV, HP. apply H.
Qed.

Lemma fetched_twice_crawl url w :
  fetched_twice_at_most w ->
  fetched_twice_at_most (fst (Loinc.crawl_download_page url w)).
Proof.
  intros H. destruct (loinc_crawl_fetches url w) as [Hold Hnew].
  destruct (decide (url ∈ VISITED_URLS w)) as [Hin|Hout].
  { rewrite (Hold Hin). exact H. }
  destruct (Hnew Hout) as [EV EP]. clear Hold Hnew.
  assert (Hc : forall v, fetch_count v (log (Loinc.crawl_download_page url w).1)
               <= fetch_count v (log w) + (if String.eqb v url then 2 else 0)).
  { intros v. destruct EP as [EP|EP].
    - rewrite (fetch_count_app _ _ _ EP). destruct (String.eqb v url); lia.
    - unfold fetch_count. rewrite EP, List.filter_app, length_app. simpl.
      destruct (String.eqb v url); simpl; lia. }
  intros u. specialize (Hc u). destruct (H u) as [H2 H0].
  destruct (String.eqb u url) eqn:Eu.
  - apply String.eqb_eq in Eu. subst u.
    rewrite (H0 Hout) in Hc. split; [lia|].
    intros Hu. exfalso. apply Hu. rewrite EV.
    apply elem_of_union_l, elem_of_singleton. reflexivity.
  - split; [lia|]. intros Hu.
    assert (Hw : u ∉ VISITED_URLS w).
    { intros Hv. apply Hu. rewrite EV. apply elem_of_union_r, Hv. }
    specialize (H0 Hw). lia.
Qed.

Lemma fetched_twice_additional urls w :
  fetched_twice_at_most w ->
  fetched_twice_at_most (Loinc.crawl_additional urls w).
Proof.
  unfold Loinc.crawl_additional. revert w.
  induction urls as [|u urls IH]; intros w H; simpl; [exact H|].
  apply IH. pose proof (fetched_twice_crawl u w H) as H1.
  destruct (Loinc.crawl_download_page u w) as [w1 [[]|]]; simpl in H1; [|exact H1].
  eapply fetched_twice_quiet; [apply quiet_sleep|exact H1].
Qed.

(** What a block keeps, its continuation keeping it too, the whole
    keeps. *)
Lemma bind_keeps (I : world -> Prop) {A B} (m : eff A) (k : A -> eff B) :
  (forall w, I w -> I (fst (m w))) ->
  (forall a w, I w -> I (fst (k a w))) ->
  forall w, I w -> I (fst (bind m k w)).
Proof.
  intros Hm Hk w H. unfold bind. specialize (Hm w H).
  destruct (m w) as [w1 [a|]]; simpl in *; [apply Hk, Hm|exact Hm].
Qed.

Lemma fetched_twice_main w :
  fetched_twice_at_most w -> fetched_twice_at_most (fst (Loinc.main w)).
Proof.
  unfold Loinc.main. revert w.
  apply bind_keeps.
  { intros w. apply fetched_twice_quiet. apply quiet_os_call. discriminate. }
  intros _. apply bind_keeps.
  { intros w. apply fetched_twice_quiet. simpl.
    eapply quiet_trans; [apply loinc_login_quiet|apply quiet_sleep]. }
  intros _. apply bind_keeps; [apply fetched_twice_crawl|].
  intros _. apply bind_keeps; [apply fetched_twice_crawl|].
  intros _ w H. exact (fetched_twice_additional _ w H).
Qed.

Lemma fetched_twice_start : fetched_twice_at_most start.
Proof. intros u. split; [apply Nat.le_0_l|reflexivity]. Qed.

End LoincCrawl.

(** ** The Visited Set *)

(** C1, as the code has it.  A URL that is in the Visited Set when
    [crawl_page] or [crawl_download_page] is entered with it makes the call
    return at once: the world, and with it the log, is what it was, so no
    request was issued, and the test came before any fetch.  In
    [crawl_cms_hcpcs.py] the pages fetched by a traversal are therefore
    pairwise distinct and were not in the Visited Set before.  In
    [download_loinc.py] a page is fetched when it is visited and once more
    by the terms-acceptance flow, which does not consult the set: no URL is
    fetched as a page more than twice in a run. *)
Theorem C1_visited_pages_are_skipped (P : Platform) :
  (forall url depth max_depth w,
      url ∈ VISITED_URLS w -> Cms.crawl_page url depth max_depth w = Some w)
  /\ (forall url w,
        url ∈ VISITED_URLS w -> Loinc.crawl_download_page url w = (w, Some tt))
  /\ (forall url depth max_depth V D,
        exists w',
          Cms.crawl_page url depth max_depth
            {| VISITED_URLS := V; DOWNLOADED_FILES := D; log := [] |} = Some w'
          /\ NoDup (page_fetches (log w'))
          /\ forall u, u ∈ page_fetches (log w') -> u ∉ V)
  /\ (forall u, fetch_count u (log (fst (Loinc.main start))) <= 2).
Proof.
  split; [|split; [|split]].
  - intros url depth max_depth w Hin. unfold Cms.crawl_page.
    destruct (Z.to_nat _); simpl; destruct (_ >? _)%Z; try reflexivity;
      destruct (decide _); try reflexivity; contradiction.
  - intros url w Hin. unfold Loinc.crawl_download_page.
    destruct (decide _); [reflexivity|contradiction].
  - intros url depth max_depth V D.
    destruct (crawl_page_total url depth max_depth
                {| VISITED_URLS := V; DOWNLOADED_FILES := D; log := [] |})
      as [w' E].
    exists w'. split; [exact E|].
    assert (H0 : fetched_once V {| VISITED_URLS := V; DOWNLOADED_FILES := D; log := [] |}).
    { split; [reflexivity|]. split; [apply NoDup_nil_2|].
      intros u Hu. simpl in Hu. apply elem_of_nil in Hu. contradiction. }
    destruct (crawl_page_rec_fetched_once V _ _ _ _ _ _ E H0) as (_ & Hnd & Hin).
    split; [exact Hnd|]. intros u Hu. apply Hin, Hu.
  - intros u. apply (fetched_twice_main start fetched_twice_start).
Qed.

(** An instance of C1: a visited seed is left alone. *)
Lemma C1_visited_pages_are_skipped_witness :
  Cms.crawl_page (P := Demo.blank) "https://www.cms.gov/seed" 0 3
    (visit "https://www.cms.gov/seed" start)
  = Some (visit "https://www.cms.gov/seed" start).
Proof.
  apply (proj1 (C1_visited_pages_are_skipped Demo.blank)).
  apply elem_of_union_l, elem_of_singleton. reflexivity.
Defined.

(** C1 as stated fails on [download_loinc.py]: in a run on a site of empty
    pages the download page is fetched as a page twice. *)
Lemma C1_page_fetched_twice :
  fetch_count Loinc.DOWNLOAD_PAGE_URL (log (fst (Loinc.main (P := Demo.blank) start))) = 2.
Proof. vm_compute. reflexivity. Qed.

(** ** The depth bound *)

Section DepthBound.
Context {P : Platform}.

Lemma crawl_page_rec_too_deep fuel url depth max_depth w :
  (depth > max_depth)%Z ->
  Cms.crawl_page_rec fuel url depth max_depth w = Some w.
Proof.
  intros H. destruct fuel; simpl;
    destruct (Z.gtb_spec depth max_depth); reflexivity || lia.
Qed.

(** One step of the recursion. *)
Lemma crawl_page_rec_step fuel url depth max_depth w :
  Cms.crawl_page_rec (S fuel) url depth max_depth w =
  if (depth >? max_depth)%Z then Some w
  else if decide (url ∈ VISITED_URLS w) then Some w
  else match Cms.get_page url 3 (visit url w) with
       | (w1, None) => Some w1
       | (w1, Some response) =>
           Cms.process_page
             (fun link => Cms.crawl_page_rec fuel link (depth + 1) max_depth)
             url response w1
       end.
Proof. reflexivity. Qed.

(** When the nested calls return at once, the second loop only pauses. *)
Lemma crawl_links_idle crawl links :
  (forall link w, crawl link w = Some w) ->
  forall w, exists n,
    n <= length links /\ Cms.crawl_links crawl links w = Some (pauses n w).
Proof.
  intros Hc. induction links as [|l links IH]; intros w; simpl.
  - exists 0. split; [lia|reflexivity].
  - destruct (decide _) as [_|_].
    { destruct (IH w) as (n & Hn & ->). exists n. split; [lia|reflexivity]. }
    destruct (Py.contains _ _).
    + rewrite Hc. destruct (IH (sleep 1000 w)) as (n & Hn & ->).
      exists (S n). split; [lia|]. unfold pauses. rewrite Nat.iter_succ_r. reflexivity.
    + destruct (IH w) as (n & Hn & ->). exists n. split; [lia|reflexivity].
Qed.

Lemma quiet_pauses n w : quiet w (pauses n w).
Proof.
  induction n as [|n IH]; simpl; [apply quiet_refl|].
  eapply quiet_trans; [exact IH|apply quiet_sleep].
Qed.

End DepthBound.

(** ** Retrying requests *)

Section Retries.
Context {P : Platform}.

Lemma sleeps_app l1 l2 : sleeps (l1 ++ l2) = sleeps l1 ++ sleeps l2.
Proof.
  induction l1 as [|e l1 IH]; simpl; [reflexivity|].
  destruct e; simpl; rewrite ?IH; reflexivity.
Qed.

(** The loop, started at attempt number [a] with the iterations that are
    left to it. *)
Lemma retry_loop_spec {A} (block : eff A) e delay outcome retries :
  (forall w, block w = (emit e w, outcome (length (log w)))) ->
  sleeps [e] = [] ->
  forall n a w w' res,
    n = Z.to_nat (retries - a) ->
    retry_loop block delay n a retries w = (w', res) ->
    exists k,
      k <= n
      /\ VISITED_URLS w' = VISITED_URLS w
      /\ DOWNLOADED_FILES w' = DOWNLOADED_FILES w
      /\ log w' = log w ++ attempts e delay a k
      /\ sleeps (log w') =
           sleeps (log w)
           ++ map (fun i => delay (a + Z.of_nat i)%Z) (seq 0 (k - 1))
      /\ (forall i, i < k ->
            outcome (length (log w) + 2 * i) = if S i =? k then res else None)
      /\ (res = None -> k = n)
      /\ (res <> None -> 1 <= k).
Proof.
  intros Hblock He. induction n as [|n IH]; intros a w w' res Hn E; simpl in E.
  - injection E as <- <-. exists 0. rewrite !app_nil_r.
    repeat split; try reflexivity; try lia. congruence.
  - rewrite Hblock in E. destruct (outcome (length (log w))) as [x|] eqn:Eo.
    + injection E as <- <-. exists 1. simpl. rewrite sleeps_app, He.
      repeat split; try reflexivity; try lia.
      * intros i Hi. assert (i = 0) as -> by lia. simpl. rewrite Nat.add_0_r. exact Eo.
      * discriminate.
    + destruct (Z.ltb_spec a (retries - 1)).
      * apply IH in E; [|lia].
        destruct E as (k & Hk & EV & ED & EL & ES & EO & EN & EP).
        assert (Hk1 : 1 <= k).
        { destruct res; [apply EP; discriminate|]. rewrite EN by reflexivity. lia. }
        exists (S k). destruct k as [|k]; [lia|].
        split; [lia|]. split; [exact EV|]. split; [exact ED|].
        split; [|split; [|split; [|split]]].
        -- rewrite EL. simpl. rewrite <- !app_assoc. reflexivity.
        -- rewrite ES. simpl. rewrite !sleeps_app, He. simpl.
           rewrite <- !app_assoc. simpl. rewrite Nat.sub_0_r, Z.add_0_r.
           do 2 f_equal. rewrite <- seq_shift, map_map.
           apply map_ext. intros i. f_equal. lia.
        -- intros i Hi. destruct i as [|i].
           ++ simpl. rewrite Nat.add_0_r. exact Eo.
           ++ specialize (EO i ltac:(lia)). simpl in EO.
              rewrite !length_app in EO. simpl in EO.
              replace (length (log w) + 2 * S i)
                with (length (log w) + 1 + 1 + (i + (i + 0))) by lia.
              rewrite EO. reflexivity.
        -- intros Hr. rewrite (EN Hr). reflexivity.
        -- intros _. lia.
      * injection E as <- <-. exists 1. simpl. rewrite sleeps_app, He.
        repeat split; try reflexivity; try lia.
        intros i Hi. assert (i = 0) as -> by lia. simpl. rewrite Nat.add_0_r. exact Eo.
Qed.

(** The whole loop. *)
Lemma retry_loop_retried {A} (block : eff A) e delay outcome retries w :
  (forall w, block w = (emit e w, outcome (length (log w)))) ->
  sleeps [e] = [] ->
  retried e delay outcome retries w
    (fst (retry_loop block delay (Z.to_nat retries) 0 retries w))
    (snd (retry_loop block delay (Z.to_nat retries) 0 retries w)).
Proof.
  intros Hblock He.
  destruct (retry_loop block delay (Z.to_nat retries) 0 retries w)
    as [w' res] eqn:E.
  eapply retry_loop_spec in E; [|exact Hblock|exact He|f_equal; lia].
  destruct E as (k & Hk & EV & ED & EL & ES & EO & EN & EP).
  exists k. simpl. repeat split; assumption.
Qed.

(** One attempt of the two [get_page]. *)
Lemma page_attempt url timeout w :
  (response <- http_get url timeout false ;;
   raise_for_status response ;;;
   ret response) w
  = (emit (HttpGet url timeout false) w, fetch url (length (log w))).
Proof.
  unfold bind, http_get, fetch, raise_for_status. simpl.
  destruct (server _ _ _) as [|r]; [reflexivity|].
  destruct (broken r); [reflexivity|].
  destruct (_ && _); reflexivity.
Qed.

Lemma cms_get_page_loop_retry n a retries url w :
  Cms.get_page_loop n a retries url w
  = retry_loop (response <- http_get url 30 false ;;
                raise_for_status response ;;;
                ret response)
      (fun _ => 2000%Z) n a retries w.
Proof.
  revert a w. induction n as [|n IH]; intros a w; simpl; [reflexivity|].
  destruct (bind _ _ w) as [w1 [r|]]; [reflexivity|].
  destruct (_ <? _)%Z; [apply IH|reflexivity].
Qed.

Lemma loinc_get_page_loop_retry n a retries url w :
  Loinc.get_page_loop n a retries url w
  = retry_loop (response <- http_get url 60 false ;;
                raise_for_status response ;;;
                ret response)
      (fun attempt => (1000 * 2 ^ attempt)%Z) n a retries w.
Proof.
  revert a w. induction n as [|n IH]; intros a w; simpl; [reflexivity|].
  destruct (bind _ _ w) as [w1 [r|]]; [reflexivity|].
  destruct (_ <? _)%Z; [apply IH|reflexivity].
Qed.

End Retries.

Section GenesRetries.
Context {P : Platform}.
Variable params : Type.
Variable urlencode : params -> string.
Variable json : Type.
Variable json_of : string -> option json.

Lemma genes_attempt url w :
  (response <- http_get url 30 false ;;
   raise_for_status response ;;;
   match json_of (body response) with
   | Some j => ret j
   | None => raise
   end) w
  = (emit (HttpGet url 30 false) w, genes_outcome json_of url (length (log w))).
Proof.
  unfold bind, http_get, genes_outcome, fetch, raise_for_status. simpl.
  destruct (server _ _ _) as [|r]; [reflexivity|].
  destruct (broken r); [reflexivity|].
  destruct (_ && _); [reflexivity|]. simpl.
  destruct (json_of _); reflexivity.
Qed.

Lemma genes_loop_retry n a retries ps w :
  Genes.make_request_loop params urlencode json json_of n a retries ps w
  = retry_loop
      (response <- http_get (Genes.BASE_URL +:+ "?" +:+ urlencode ps) 30 false ;;
       raise_for_status response ;;;
       match json_of (body response) with
       | Some j => ret j
       | None => raise
       end)
      (fun _ => 2000%Z) n a retries w.
Proof.
  revert a w. induction n as [|n IH]; intros a w; simpl; [reflexivity|].
  destruct (bind _ _ w) as [w1 [r|]]; [reflexivity|].
  destruct (_ <? _)%Z; [apply IH|reflexivity].
Qed.

End GenesRetries.

(** C4, as the code has it.  The three retrying functions make at most
    [retries] attempts, three unless the caller says otherwise, and return
    [None], without raising, only when every one of them has failed.  The
    pause after a failed attempt is two seconds whatever the attempt in
    [crawl_cms_hcpcs.get_page] and in [download_nlm_genes.make_request];
    in [download_loinc.get_page] it is [2 ** attempt] seconds, one second
    and then two with three attempts. *)
Theorem C4_bounded_retries (P : Platform) :
  (forall url retries w,
      retried (HttpGet url 30 false) (fun _ => 2000%Z) (fetch url) retries
        (emit (PageFetch url) w)
        (fst (Cms.get_page url retries w)) (snd (Cms.get_page url retries w)))
  /\ (forall url retries w,
        retried (HttpGet url 60 false) (fun attempt => (1000 * 2 ^ attempt)%Z)
          (fetch url) retries
          (emit (PageFetch url) w)
          (fst (Loinc.get_page url retries w)) (snd (Loinc.get_page url retries w)))
  /\ (forall params urlencode json json_of ps retries w,
        let url := Genes.BASE_URL +:+ "?" +:+ urlencode ps in
        retried (HttpGet url 30 false) (fun _ => 2000%Z)
          (genes_outcome json_of url) retries w
          (fst (Genes.make_request params urlencode json json_of ps retries w))
          (snd (Genes.make_request params urlencode json json_of ps retries w))).
Proof.
  split; [|split].
  - intros url retries w. unfold Cms.get_page.
    rewrite cms_get_page_loop_retry.
    apply retry_loop_retried; [apply page_attempt|reflexivity].
  - intros url retries w. unfold Loinc.get_page.
    rewrite loinc_get_page_loop_retry.
    apply retry_loop_retried; [apply page_attempt|reflexivity].
  - intros params urlencode json json_of ps retries w url.
    unfold Genes.make_request. rewrite genes_loop_retry.
    apply retry_loop_retried; [apply genes_attempt|reflexivity].
Qed.

(** C4 as stated fails on [crawl_cms_hcpcs.get_page]: against a server that
    is down it pauses two seconds twice, so the pause does not grow. *)
Lemma C4_pause_does_not_grow :
  ~ grows_by_fixed_step
      (sleeps (log (fst (Cms.get_page (P := Demo.down)
                           "https://www.cms.gov/seed" 3 start)))).
Proof.
  intros (step & Hpos & H).
  specialize (H 0 2000%Z 2000%Z eq_refl eq_refl). lia.
Qed.

(** Takes the code in [H] apart, one test after the other. *)
Ltac crack H :=
  repeat match type of H with
  | context [match ?x with _ => _ end] =>
      lazymatch x with
      | context [match _ with _ => _ end] => fail
      | _ => destruct x eqn:?; simpl in H; try discriminate H
      end
  end.

(** ** The downloader *)

Section Downloads.
Context {P : Platform}.

Lemma write_all_sets path cs w :
  VISITED_URLS (fst (write_all path cs w)) = VISITED_URLS w
  /\ DOWNLOADED_FILES (fst (write_all path cs w)) = DOWNLOADED_FILES w.
Proof.
  revert w. induction cs as [|c cs IH]; intros w; simpl; [auto|].
  unfold bind, os_call. destruct (os_error _ _); simpl; [auto|].
  destruct (IH (emit (FileWrite path c) w)) as [-> ->]. auto.
Qed.

Lemma write_all_log path cs w w' u :
  write_all path cs w = (w', Some u) ->
  log w' = log w ++ map (FileWrite path) cs.
Proof.
  revert w. induction cs as [|c cs IH]; intros w E; simpl in E.
  - injection E as <- _. simpl. rewrite app_nil_r. reflexivity.
  - unfold bind, os_call in E. destruct (os_error _ _); [discriminate|].
    apply IH in E. rewrite E. simpl. rewrite <- app_assoc. reflexivity.
Qed.

Lemma write_all_extends path cs w :
  exists l, log (fst (write_all path cs w)) = log w ++ l.
Proof.
  revert w. induction cs as [|c cs IH]; intros w; simpl.
  - exists []. rewrite app_nil_r. reflexivity.
  - unfold bind, os_call. destruct (os_error _ _); simpl.
    + eexists. reflexivity.
    + destruct (IH (emit (FileWrite path c) w)) as [l ->]. simpl.
      eexists. rewrite <- app_assoc. reflexivity.
Qed.

(** Closes the case of a download that stopped: the world is a chain of
    events on the one the download started from, or what [write_all]
    left. *)
Ltac stopped H :=
  injection H as <-;
  repeat match goal with
  | E : write_all ?p ?cs ?w0 = (_, _) |- _ =>
      let SV := fresh "SV" in let SD := fresh "SD" in let l := fresh "l" in
      let SL := fresh "SL" in
      destruct (write_all_sets p cs w0) as [SV SD];
      destruct (write_all_extends p cs w0) as [l SL];
      rewrite E in SV, SD, SL; clear E; simpl in SV, SD, SL
  end.

Lemma cms_download_file_true url filepath w w' :
  Cms.download_file url filepath w = (w', true) ->
  (url ∉ DOWNLOADED_FILES w)
  /\ DOWNLOADED_FILES w' = {[url]} ∪ DOWNLOADED_FILES w
  /\ saved url filepath 60 w w'.
Proof.
  unfold Cms.download_file. destruct (decide _) as [|Hnew]; [discriminate|].
  unfold http_get, raise_for_status, makedirs, os_call, raise, ret.
  unfold bind. intros H. simpl in H. crack H. injection H as <-.
  split; [exact Hnew|].
  match goal with E : write_all ?p ?cs ?w0 = _ |- _ =>
    destruct (write_all_sets p cs w0) as [_ SD]; rewrite E in SD;
    apply write_all_log in E end.
  simpl in *. split; [rewrite SD; reflexivity|].
  exists r, (chunks r). repeat split; try assumption.
  simpl. rewrite Heqp. simpl. rewrite <- !app_assoc. reflexivity.
Qed.

Lemma cms_download_file_false url filepath w w' :
  Cms.download_file url filepath w = (w', false) ->
  DOWNLOADED_FILES w' = DOWNLOADED_FILES w.
Proof.
  unfold Cms.download_file. destruct (decide _) as [|Hnew].
  { intros H. injection H as <-. reflexivity. }
  unfold http_get, raise_for_status, makedirs, os_call, raise, ret.
  unfold bind. intros H. simpl in H. crack H; stopped H; simpl; auto.
Qed.

Lemma cms_download_file_requests url filepath w :
  url ∉ DOWNLOADED_FILES w ->
  requested_again url 60 w (fst (Cms.download_file url filepath w)).
Proof.
  intros Hnew. destruct (Cms.download_file url filepath w) as [w' b] eqn:H.
  revert H. unfold Cms.download_file. destruct (decide _); [contradiction|].
  unfold http_get, raise_for_status, makedirs, os_call, raise, ret.
  unfold bind. intros H. simpl in H. crack H; injection H as <- <-.
  all: repeat match goal with
  | E : write_all ?p ?cs ?w0 = (_, _) |- _ =>
      let l := fresh "l" in let SL := fresh "SL" in
      destruct (write_all_extends p cs w0) as [l SL];
      rewrite E in SL; clear E; simpl in SL
  end.
  all: unfold requested_again; simpl; rewrite ?SL; simpl;
    rewrite <- ?app_assoc; simpl; eexists; reflexivity.
Qed.

Lemma concat_cons x l :
  String.concat EmptyString (x :: l) = x +:+ String.concat EmptyString l.
Proof.
  destruct l; [|reflexivity].
  change (x = x +:+ EmptyString).
  induction x as [|c x IH]; [reflexivity|].
  change (String c x = String c (x +:+ EmptyString)). rewrite <- IH. reflexivity.
Qed.

Lemma concat_iter_slices size room s :
  String.concat EmptyString (Py.iter_slices_go size room s) = s.
Proof.
  revert room. induction s as [|c s IH]; intros room; [reflexivity|].
  cbn [Py.iter_slices_go]. destruct (_ <=? _)%N.
  - rewrite concat_cons, IH. reflexivity.
  - specialize (IH (room - 1)%N).
    destruct (Py.iter_slices_go size (room - 1) s) as [|h t].
    + simpl in *. rewrite <- IH. reflexivity.
    + rewrite concat_cons in *.
      change (String c (h +:+ String.concat EmptyString t) = String c s).
      rewrite IH. reflexivity.
Qed.

Lemma loinc_download_file_true url filepath w w' :
  Loinc.download_file url filepath w = (w', true) ->
  (url ∉ DOWNLOADED_FILES w)
  /\ DOWNLOADED_FILES w' = {[url]} ∪ DOWNLOADED_FILES w
  /\ saved url filepath 300 w w'.
Proof.
  unfold Loinc.download_file. destruct (decide _) as [|Hnew]; [discriminate|].
  unfold Loinc.save, content, http_get, raise_for_status, makedirs, os_call, raise, ret.
  unfold bind. intros H. simpl in H. crack H; injection H as <-.
  all: split; [exact Hnew|].
  all: match goal with E : write_all ?p ?cs ?w0 = _ |- _ =>
    destruct (write_all_sets p cs w0) as [_ SD]; rewrite E in SD;
    apply write_all_log in E end.
  all: simpl in *; (split; [rewrite SD; reflexivity|]).
  - exists r, (Py.iter_slices (body r) 8192). repeat split; try assumption.
    + apply concat_iter_slices.
    + simpl. rewrite Heqp. simpl. rewrite <- !app_assoc. reflexivity.
  - exists r, (chunks r). repeat split; try assumption.
    simpl. rewrite Heqp. simpl. rewrite <- !app_assoc. reflexivity.
Qed.

Lemma loinc_download_file_false url filepath w w' :
  Loinc.download_file url filepath w = (w', false) ->
  DOWNLOADED_FILES w' = DOWNLOADED_FILES w.
Proof.
  unfold Loinc.download_file. destruct (decide _) as [|Hnew].
  { intros H. injection H as <-. reflexivity. }
  unfold Loinc.save, content, http_get, raise_for_status, makedirs, os_call, raise, ret.
  unfold bind. intros H. simpl in H. crack H; stopped H; simpl; auto.
Qed.

Lemma loinc_download_file_requests url filepath w :
  url ∉ DOWNLOADED_FILES w ->
  requested_again url 300 w (fst (Loinc.download_file url filepath w)).
Proof.
  intros Hnew. destruct (Loinc.download_file url filepath w) as [w' b] eqn:H.
  revert H. unfold Loinc.download_file. destruct (decide _); [contradiction|].
  unfold Loinc.save, content, http_get, raise_for_status, makedirs, os_call, raise, ret.
  unfold bind. intros H. simpl in H. crack H; injection H as <- <-.
  all: repeat match goal with
  | E : write_all ?p ?cs ?w0 = (_, _) |- _ =>
      let l := fresh "l" in let SL := fresh "SL" in
      destruct (write_all_extends p cs w0) as [l SL];
      rewrite E in SL; clear E; simpl in SL
  end.
  all: unfold requested_again; simpl; rewrite ?SL; simpl;
    rewrite <- ?app_assoc; simpl; eexists; reflexivity.
Qed.
End Downloads.

(** The URLs a downloader returns [True] for, in a sequence of calls, are
    pairwise distinct and were not downloaded before, provided a call that
    returns [True] adds a new URL to the Downloaded Set and one that
    returns [False] leaves the set alone. *)
Lemma run_downloads_once download :
  (forall url fp w w', download url fp w = (w', true) ->
     (url ∉ DOWNLOADED_FILES w)
     /\ DOWNLOADED_FILES w' = {[url]} ∪ DOWNLOADED_FILES w) ->
  (forall url fp w w', download url fp w = (w', false) ->
     DOWNLOADED_FILES w' = DOWNLOADED_FILES w) ->
  forall calls w,
    NoDup (snd (run_downloads download calls w))
    /\ forall u, u ∈ snd (run_downloads download calls w) ->
                 u ∉ DOWNLOADED_FILES w.
Proof.
  intros Htrue Hfalse. induction calls as [|[url fp] calls IH]; intros w; simpl.
  - split; [apply NoDup_nil_2|]. intros u Hu. apply elem_of_nil in Hu. contradiction.
  - destruct (download url fp w) as [w1 ok] eqn:E.
    specialize (IH w1). destruct (run_downloads download calls w1) as [w2 done].
    simpl in *. destruct IH as [Hnd Hnew]. destruct ok.
    + destruct (Htrue _ _ _ _ E) as [Hu ED]. split.
      * apply NoDup_cons. split; [|exact Hnd].
        intros Hin. apply (Hnew _ Hin). rewrite ED.
        apply elem_of_union_l, elem_of_singleton. reflexivity.
      * intros u Hin. apply elem_of_cons in Hin as [->|Hin]; [exact Hu|].
        intros Hd. apply (Hnew _ Hin). rewrite ED. apply elem_of_union_r, Hd.
    + rewrite (Hfalse _ _ _ _ E) in Hnew. split; assumption.
Qed.



(** ** The Downloaded Set *)

Section Blind.
Context {P : Platform}.

Lemma blind_ret {A} (a : A) : blind (ret a).
Proof. intros V w. reflexivity. Qed.

Lemma blind_raise {A} : blind (@raise A).
Proof. intros V w. reflexivity. Qed.

Lemma blind_bind {A B} (m : eff A) (k : A -> eff B) :
  blind m -> (forall a, blind (k a)) -> blind (bind m k).
Proof.
  intros Hm Hk V w. unfold bind. rewrite Hm.
  destruct (m w) as [w1 [a|]]; simpl; [apply Hk|reflexivity].
Qed.

Lemma blind_http_get url t st : blind (http_get url t st).
Proof.
  intros V w. unfold http_get. simpl.
  destruct (server _ _ _) as [|r]; [reflexivity|].
  destruct (negb st && broken r); reflexivity.
Qed.

Lemma blind_raise_for_status r : blind (raise_for_status r).
Proof.
  unfold raise_for_status. destruct (_ && _); [apply blind_raise|apply blind_ret].
Qed.

Lemma blind_os_call e : blind (os_call e).
Proof. intros V w. reflexivity. Qed.

Lemma blind_makedirs d : blind (makedirs d).
Proof.
  unfold makedirs. destruct (String.eqb d EmptyString); [|apply blind_os_call].
  apply blind_bind; [apply blind_os_call|intros; apply blind_raise].
Qed.

Lemma blind_write_all path cs : blind (write_all path cs).
Proof.
  induction cs as [|c cs IH]; simpl; [apply blind_ret|].
  apply blind_bind; [apply blind_os_call|intros; exact IH].
Qed.

Lemma blind_record {A} url (a : A) :
  blind (fun w => (record_download url w, Some a)).
Proof. intros V w. reflexivity. Qed.

Lemma cms_download_file_blind url filepath V w :
  Cms.download_file url filepath (with_visited V w)
  = (with_visited V (fst (Cms.download_file url filepath w)),
     snd (Cms.download_file url filepath w)).
Proof.
  unfold Cms.download_file. simpl. destruct (decide _); [reflexivity|].
  match goal with |- context [match ?m w with _ => _ end] =>
    assert (Hm : blind m);
      [|rewrite Hm; destruct (m w) as [w1 [x|]]; reflexivity]
  end.
  repeat first [apply blind_bind; [|intros]
               | apply blind_http_get | apply blind_raise_for_status
               | apply blind_makedirs | apply blind_os_call
               | apply blind_write_all | apply blind_record ].
  destruct (broken _); [apply blind_raise|apply blind_ret].
Qed.

Lemma loinc_save_blind url filepath cs breaks :
  blind (Loinc.save url filepath cs breaks).
Proof.
  unfold Loinc.save.
  repeat first [apply blind_bind; [|intros]
               | apply blind_makedirs | apply blind_os_call
               | apply blind_write_all | apply blind_record ].
  destruct breaks; [apply blind_raise|apply blind_ret].
Qed.

Lemma loinc_download_file_blind url filepath V w :
  Loinc.download_file url filepath (with_visited V w)
  = (with_visited V (fst (Loinc.download_file url filepath w)),
     snd (Loinc.download_file url filepath w)).
Proof.
  unfold Loinc.download_file. simpl. destruct (decide _); [reflexivity|].
  match goal with |- context [match ?m w with _ => _ end] =>
    assert (Hm : blind m);
      [|rewrite Hm; destruct (m w) as [w1 [x|]]; reflexivity]
  end.
  repeat first [apply blind_bind; [|intros]
               | apply blind_http_get | apply blind_raise_for_status ].
  destruct (Py.contains _ _); [|apply loinc_save_blind].
  destruct (content _); [|apply blind_raise].
  destruct (_ <? _)%Z; [apply blind_ret|apply loinc_save_blind].
Qed.
End Blind.

(** C2, as the code has it.  Called on a URL of the Downloaded Set,
    [download_file] returns [False] and leaves the world as it was, so it
    requested and wrote nothing; and what the call does never depends on
    the Visited Set, which it does not change either.  In any
    sequence of calls the URLs whose download went through are therefore
    pairwise distinct: no URL is downloaded twice.  A URL whose download
    failed or was skipped is not in the set and is requested again (C10). *)
Theorem C2_downloaded_files_are_skipped (P : Platform) :
  (forall url filepath w,
      url ∈ DOWNLOADED_FILES w -> Cms.download_file url filepath w = (w, false))
  /\ (forall url filepath w,
        url ∈ DOWNLOADED_FILES w -> Loinc.download_file url filepath w = (w, false))
  /\ (forall url filepath V w,
        Cms.download_file url filepath (with_visited V w)
        = (with_visited V (fst (Cms.download_file url filepath w)),
           snd (Cms.download_file url filepath w)))
  /\ (forall url filepath V w,
        Loinc.download_file url filepath (with_visited V w)
        = (with_visited V (fst (Loinc.download_file url filepath w)),
           snd (Loinc.download_file url filepath w)))
  /\ (forall calls w,
        NoDup (snd (run_downloads Cms.download_file calls w))
        /\ forall u, u ∈ snd (run_downloads Cms.download_file calls w) ->
                     u ∉ DOWNLOADED_FILES w)
  /\ (forall calls w,
        NoDup (snd (run_downloads Loinc.download_file calls w))
        /\ forall u, u ∈ snd (run_downloads Loinc.download_file calls w) ->
                     u ∉ DOWNLOADED_FILES w).
Proof.
  split; [|split; [|split; [|split; [|split]]]].
  - intros url filepath w Hin. unfold Cms.download_file.
    destruct (decide _); [reflexivity|contradiction].
  - intros url filepath w Hin. unfold Loinc.download_file.
    destruct (decide _); [reflexivity|contradiction].
  - apply cms_download_file_blind.
  - apply loinc_download_file_blind.
  - apply run_downloads_once.
    + intros url fp w w' E. apply cms_download_file_true in E. tauto.
    + apply cms_download_file_false.
  - apply run_downloads_once.
    + intros url fp w w' E. apply loinc_download_file_true in E. tauto.
    + apply loinc_download_file_false.
Qed.

(** An instance of C2: a second call on a downloaded archive. *)
Lemma C2_downloaded_files_are_skipped_witness :
  Cms.download_file (P := Demo.blank) Demo.zip "cms.gov/hcpcs/a.zip"
    (record_download Demo.zip start)
  = (record_download Demo.zip start, false).
Proof.
  apply (proj1 (C2_downloaded_files_are_skipped Demo.blank)).
  apply elem_of_union_l, elem_of_singleton. reflexivity.
Defined.

(** C2 as stated fails: in the traversal of a site whose archive is cut off
    at the first download, the archive is fetched as a file again when the
    traversal comes to its URL, twice in one run. *)
Lemma C2_file_fetched_twice :
  option_map (fun w => file_requests (log w))
             (Cms.crawl_page (P := Demo.flaky) Demo.seed 0 3 start)
  = Some [Demo.zip; Demo.zip].
Proof. vm_compute. reflexivity. Qed.

(** ** Small HTML answers *)

(** C5, as the code has it.  When the server answers a download with a
    content type that mentions [text/html] and a body below the threshold,
    10000 bytes in [download_loinc.py] and 50000 in [download_all_loinc.py],
    [download_file] returns [False] and has done nothing but the request:
    nothing is written.  [crawl_cms_hcpcs.py] has no such test. *)
Theorem C5_small_html_is_skipped (P : Platform) :
  (forall url filepath w r,
      url ∉ DOWNLOADED_FILES w ->
      server (length (log w)) GET url = Responds r ->
      Py.contains (Py.lower (content_type r)) "text/html" = true ->
      broken r = false ->
      (Py.len (body r) < 10000)%Z ->
      Loinc.download_file url filepath w = (emit (HttpGet url 300 true) w, false))
  /\ (forall url filename w r,
        server (length (log w)) GET url = Responds r ->
        Py.contains (Py.lower (content_type r)) "text/html" = true ->
        broken r = false ->
        (Py.len (body r) < 50000)%Z ->
        AllLoinc.download_file url filename w = (w, false)
        \/ AllLoinc.download_file url filename w
           = (emit (HttpGet url 300 true) w, false)).
Proof.
  split.
  - intros url filepath w r Hnew Hr Hhtml Hb Hlen.
    unfold Loinc.download_file. destruct (decide _); [contradiction|].
    unfold bind, http_get, raise_for_status, content. rewrite Hr. simpl.
    destruct (_ && _); [reflexivity|]. simpl. rewrite Hhtml, Hb.
    fold (body r). destruct (Z.ltb_spec (Py.len (body r)) 10000); [reflexivity|lia].
  - intros url filename w r Hr Hhtml Hb Hlen.
    unfold AllLoinc.download_file. destruct (path_exists _ _); [left; reflexivity|].
    right. unfold bind, http_get, raise_for_status, content. rewrite Hr. simpl.
    destruct (_ && _); [reflexivity|]. simpl. rewrite Hhtml, Hb.
    fold (body r). destruct (Z.ltb_spec (Py.len (body r)) 50000); [reflexivity|lia].
Qed.

(** An instance of C5: the page that asks to log in, served for an
    archive. *)
Lemma C5_small_html_is_skipped_witness :
  Loinc.download_file (P := Demo.wall) "https://loinc.org/files/Loinc.zip"
    "loinc/Loinc.zip" start
  = (emit (HttpGet "https://loinc.org/files/Loinc.zip" 300 true) start, false).
Proof.
  apply (proj1 (C5_small_html_is_skipped Demo.wall)) with
    (r := Demo.html "https://loinc.org/files/Loinc.zip" "<html>Please log in</html>").
  - apply not_elem_of_empty.
  - reflexivity.
  - reflexivity.
  - reflexivity.
  - vm_compute. reflexivity.
Defined.

(** C5 as stated fails on [crawl_cms_hcpcs.py]: the same small HTML page is
    written to disk and the download reported as done. *)
Lemma C5_small_html_is_written :
  let result :=
    Cms.download_file (P := Demo.wall) Demo.zip "cms.gov/hcpcs/a.zip" start in
  snd result = true
  /\ List.filter is_write (log (fst result))
     = [FileWrite "cms.gov/hcpcs/a.zip" "<html>Please log in</html>"].
Proof. vm_compute. split; reflexivity. Qed.

(** ** The login *)

Section Login.
Context {P : Platform}.

Lemma loinc_login_true w :
  snd (Loinc.login w) = true <->
  exists page s response,
    fetch Loinc.LOGIN_URL (length (log w)) = Some page
    /\ html_parser (body page) = Some s
    /\ forms s <> []
    /\ posted Loinc.LOGIN_URL (S (length (log w))) = Some response
    /\ Loinc.login_succeeded response = true.
Proof.
  unfold Loinc.login, fetch, posted.
  unfold http_get, http_post, raise_for_status, os_call, raise, ret.
  unfold bind. simpl.
  destruct (server (length (log w)) GET Loinc.LOGIN_URL) as [|page].
  { simpl. split; [discriminate|]. intros (? & ? & ? & ? & _). discriminate. }
  destruct (broken page).
  { simpl. split; [discriminate|]. intros (? & ? & ? & ? & _). discriminate. }
  destruct (_ && _).
  { simpl. split; [discriminate|]. intros (? & ? & ? & ? & _). discriminate. }
  destruct (html_parser (body page)) as [s|] eqn:Ep.
  2:{ simpl. split; [discriminate|]. intros (? & ? & ? & E & E' & _).
      injection E as <-. congruence. }
  destruct (forms s) as [|f fs] eqn:Ef.
  { simpl. split; [discriminate|]. intros (? & ? & ? & E & E' & Hf & _).
    injection E as <-. rewrite E' in *. congruence. }
  simpl. rewrite length_app, Nat.add_1_r.
  destruct (server _ POST _) as [|response].
  { simpl. split; [discriminate|]. intros (? & ? & ? & _ & _ & _ & ? & _). discriminate. }
  destruct (broken response).
  { simpl. split; [discriminate|]. intros (? & ? & ? & _ & _ & _ & ? & _). discriminate. }
  destruct (Loinc.login_succeeded response) eqn:Es; simpl.
  - split; [intros _|reflexivity]. exists page, s, response.
    repeat split; try assumption. rewrite Ef. discriminate.
  - split.
    + destruct (os_error _ _); simpl; [discriminate|].
      destruct (os_error _ _); simpl; discriminate.
    + intros (? & ? & ? & _ & _ & _ & E & E'). injection E as <-. congruence.
Qed.

Lemma loinc_login_unchanged_url_fails response :
  final_url response = Loinc.LOGIN_URL ->
  Py.contains (Py.lower (body response)) (Py.lower Loinc.USERNAME) = false ->
  Loinc.login_succeeded response = false.
Proof.
  intros Eu Eb. unfold Loinc.login_succeeded. rewrite Eu, Eb. reflexivity.
Qed.

Lemma all_loinc_login_successful w :
  snd (AllLoinc.login_and_get_session w) = Some AllLoinc.LoginSuccessful <->
  exists page s response,
    answered "https://loinc.org/wp-login.php" (length (log w)) = Some page
    /\ html_parser (body page) = Some s
    /\ forms s <> []
    /\ posted "https://loinc.org/wp-login.php" (S (length (log w))) = Some response
    /\ AllLoinc.login_succeeded response = true.
Proof.
  unfold AllLoinc.login_and_get_session, answered, posted.
  unfold http_get, http_post, raise, ret.
  unfold bind. simpl.
  destruct (server (length (log w)) GET _) as [|page].
  { simpl. split; [discriminate|]. intros (? & ? & ? & ? & _). discriminate. }
  destruct (broken page).
  { simpl. split; [discriminate|]. intros (? & ? & ? & ? & _). discriminate. }
  destruct (html_parser (body page)) as [s|] eqn:Ep.
  2:{ simpl. split; [discriminate|]. intros (? & ? & ? & E & E' & _).
      injection E as <-. congruence. }
  destruct (forms s) as [|f fs] eqn:Ef.
  { simpl. split; [discriminate|]. intros (? & ? & ? & E & E' & Hf & _).
    injection E as <-. rewrite E' in *. congruence. }
  simpl. rewrite length_app, Nat.add_1_r.
  destruct (server _ POST _) as [|response].
  { simpl. split; [discriminate|]. intros (? & ? & ? & _ & _ & _ & ? & _). discriminate. }
  destruct (broken response).
  { simpl. split; [discriminate|]. intros (? & ? & ? & _ & _ & _ & ? & _). discriminate. }
  destruct (AllLoinc.login_succeeded response) eqn:Es; simpl.
  - split; [intros _|reflexivity]. exists page, s, response.
    repeat split; try assumption. rewrite Ef. discriminate.
  - split; [discriminate|].
    intros (? & ? & ? & _ & _ & _ & E & E'). injection E as <-. congruence.
Qed.
End Login.

(** C6, as the code has it.  [login] of [download_loinc.py] returns [True]
    exactly when the login page was fetched and has a form, the form was
    submitted, and the URL of the answer contains [wp-admin] or
    [file-access] or its body mentions the user name, in whatever case;
    that the URL of the answer differs from the login URL is not part of
    the test.  In particular an answer at the login URL itself that does
    not mention the user name is a failure.  [login_and_get_session] of
    [download_all_loinc.py] reports a login as successful exactly when the
    body mentions the user name or the URL of the answer contains
    [downloads]. *)
Theorem C6_login_heuristic (P : Platform) :
  (forall w,
      snd (Loinc.login w) = true <->
      exists page s response,
        fetch Loinc.LOGIN_URL (length (log w)) = Some page
        /\ html_parser (body page) = Some s
        /\ forms s <> []
        /\ posted Loinc.LOGIN_URL (S (length (log w))) = Some response
        /\ Loinc.login_succeeded response = true)
  /\ (forall response,
        Loinc.login_succeeded response = true <->
        Py.contains (final_url response) "wp-admin" = true
        \/ Py.contains (final_url response) "file-access" = true
        \/ Py.contains (Py.lower (body response)) "cze" = true)
  /\ (forall response,
        final_url response = Loinc.LOGIN_URL ->
        Py.contains (Py.lower (body response)) (Py.lower Loinc.USERNAME) = false ->
        Loinc.login_succeeded response = false)
  /\ (forall w,
        snd (AllLoinc.login_and_get_session w) = Some AllLoinc.LoginSuccessful <->
        exists page s response,
          answered "https://loinc.org/wp-login.php" (length (log w)) = Some page
          /\ html_parser (body page) = Some s
          /\ forms s <> []
          /\ posted "https://loinc.org/wp-login.php" (S (length (log w)))
             = Some response
          /\ AllLoinc.login_succeeded response = true)
  /\ (forall response,
        AllLoinc.login_succeeded response = true <->
        Py.contains (Py.lower (body response)) "cze" = true
        \/ Py.contains (final_url response) "downloads" = true).
Proof.
  split; [|split; [|split; [|split]]].
  - apply loinc_login_true.
  - intros response. unfold Loinc.login_succeeded.
    rewrite !orb_true_iff. change (Py.lower Loinc.USERNAME) with "cze". tauto.
  - apply loinc_login_unchanged_url_fails.
  - apply all_loinc_login_successful.
  - intros response. unfold AllLoinc.login_succeeded.
    rewrite !orb_true_iff. change (Py.lower AllLoinc.USERNAME) with "cze". tauto.
Qed.

(** An instance of C6: the login page served again. *)
Lemma C6_login_heuristic_witness :
  Loinc.login_succeeded
    (Demo.html Loinc.LOGIN_URL "<html>Please log in</html>") = false.
Proof.
  apply (proj1 (proj2 (proj2 (C6_login_heuristic Demo.wall)))); reflexivity.
Defined.

(** C6 as stated fails: the answer to the form comes from a URL that is
    not the login URL, and yet [login] returns [False]. *)
Lemma C6_other_url_is_not_success :
  let response := Demo.html "https://loinc.org/" "<html>Welcome</html>" in
  posted (P := Demo.home_redirect) Loinc.LOGIN_URL 1 = Some response
  /\ final_url response <> Loinc.LOGIN_URL
  /\ snd (Loinc.login (P := Demo.home_redirect) start) = false.
Proof.
  split; [reflexivity|]. split; [discriminate|]. vm_compute. reflexivity.
Qed.

(** ** The link extractor *)

Section Extractor.
Context {P : Platform}.

Lemma lower_prefix_cut a : forall r,
  String.prefix a (Py.lower r) = true ->
  Py.lower (String.substring 0 (String.length a) r) = a.
Proof.
  induction a as [|c a IH]; intros r H.
  - destruct r; reflexivity.
  - destruct r as [|d r]; simpl in H; [discriminate|].
    destruct (ascii_dec c (Py.lower_char d)) as [->|]; [|discriminate].
    simpl. rewrite (IH _ H). reflexivity.
Qed.

Lemma match_ext_group alts s g :
  Re.match_ext alts s = Some g -> In (Py.lower g) alts.
Proof.
  unfold Re.match_ext. destruct s as [|c r]; [discriminate|].
  destruct (ascii_dec c "."%char) as [->|Hc].
  - destruct (find _ alts) as [a|] eqn:Ef; simpl; [|discriminate].
    intros E. injection E as <-. apply find_some in Ef as [Hin Hp].
    rewrite (lower_prefix_cut _ _ Hp). exact Hin.
  - destruct c as [[] [] [] [] [] [] [] []]; try discriminate. contradiction.
Qed.

Lemma match_run_group alts s : forall g n,
  Re.match_run alts s = Some (g, n) -> In (Py.lower g) alts.
Proof.
  induction s as [|c r IH]; intros g n E; simpl in E; [discriminate|].
  assert (Hhere : forall g n,
            option_map (fun g => (g, S (String.length g))) (Re.match_ext alts (String c r))
            = Some (g, n) -> In (Py.lower g) alts).
  { intros g0 n0 E0. destruct (Re.match_ext alts (String c r)) as [g1|] eqn:E1;
      [|discriminate]. injection E0 as <- _. eapply match_ext_group, E1. }
  destruct (Re.url_char c); [|eauto].
  destruct (Re.match_run alts r) as [[g1 n1]|]; [|eauto].
  injection E as <- _. eauto.
Qed.

Lemma match_here_group alts s g n :
  Re.match_here alts s = Some (g, n) -> In (Py.lower g) alts.
Proof.
  unfold Re.match_here.
  destruct (if String.prefix "https://" (Py.lower s) then _ else _) as [k|];
    [|discriminate].
  destruct (String.substring _ _ _) as [|c r]; [discriminate|].
  destruct (Re.url_char c); [|discriminate].
  destruct (Re.match_run alts r) as [[g1 n1]|] eqn:E; [|discriminate].
  intros E'. injection E' as <- _. eapply match_run_group, E.
Qed.

Lemma findall_go_group alts s : forall skip g,
  In g (Re.findall_go alts skip s) -> In (Py.lower g) alts.
Proof.
  induction s as [|c r IH]; intros skip g H; simpl in H; [contradiction|].
  destruct skip as [|k]; [|eauto].
  destruct (Re.match_here alts (String c r)) as [[g1 n1]|] eqn:E; [|eauto].
  destruct H as [<-|H]; [|eauto]. eapply match_here_group, E.
Qed.

Lemma lower_prefix p s :
  String.prefix p s = true -> String.prefix (Py.lower p) (Py.lower s) = true.
Proof.
  revert s. induction p as [|c p IH]; intros s H; [destruct s; reflexivity|].
  destruct s as [|d s]; simpl in *; [discriminate|].
  destruct (ascii_dec c d) as [->|]; [|discriminate].
  destruct (ascii_dec _ _); [auto|contradiction].
Qed.

(** No text a group matched starts with [http]. *)
Lemma group_is_no_url alts text :
  forallb (fun a => negb (String.prefix "http" a)) alts = true ->
  List.filter (fun m => Py.startswith m "http") (Re.findall alts text) = [].
Proof.
  intros Halts. unfold Re.findall.
  assert (H : forall g, In g (Re.findall_go alts 0 text) ->
                        Py.startswith g "http" = false).
  { intros g Hg. apply findall_go_group in Hg.
    rewrite forallb_forall in Halts. specialize (Halts _ Hg).
    destruct (Py.startswith g "http") eqn:E; [|reflexivity].
    apply lower_prefix in E. change (Py.lower "http") with "http" in E.
    rewrite E in Halts. discriminate. }
  induction (Re.findall_go alts 0 text) as [|g l IH]; [reflexivity|].
  simpl. rewrite (H g (or_introl eq_refl)). apply IH.
  intros g' Hg'. apply H. right. exact Hg'.
Qed.

Lemma cms_text_links_nil s : Cms.text_links s = [].
Proof. apply group_is_no_url. reflexivity. Qed.

Lemma loinc_text_links_nil s : Loinc.text_links s = [].
Proof. apply group_is_no_url. reflexivity. Qed.

Lemma elem_of_list_set x l : x ∈ list_set l <-> x ∈ l.
Proof. unfold list_set. rewrite elem_of_elements, elem_of_list_to_set. reflexivity. Qed.

End Extractor.

(** C8 fails on the code.  The URL pattern has one group, the extension,
    so [re.findall] returns the extensions of the matches and not the URLs;
    none of them starts with [http], and the second pass appends nothing,
    whatever the document.  On a page without anchors whose script names
    an archive both extractors return no link at all. *)
Theorem C8_text_pass_finds_nothing (P : Platform) :
  (forall s, Cms.text_links s = [])
  /\ (forall s, Loinc.text_links s = [])
  /\ Py.contains (page_text Demo.script_page) "https://www.cms.gov/files/a.zip"
     = true
  /\ Re.findall Cms.url_pattern_group (page_text Demo.script_page) = ["zip"]
  /\ (forall base w, Cms.find_downloadable_links Demo.script_page base w = [])
  /\ (forall base w, Loinc.find_downloadable_links Demo.script_page base w = []).
Proof.
  split; [apply cms_text_links_nil|]. split; [apply loinc_text_links_nil|].
  split; [reflexivity|]. split; [reflexivity|]. split.
  - intros base w. unfold Cms.find_downloadable_links.
    rewrite cms_text_links_nil. reflexivity.
  - intros base w. unfold Loinc.find_downloadable_links.
    rewrite loinc_text_links_nil. reflexivity.
Qed.

(** C7, as the code has it.  An anchor whose resolved URL has a path
    ending, in lower case, in an extension of the list is among the links
    the extractor returns, whatever else the page holds and whatever was
    visited.  The keyword test is made on the same path whether or not the
    extension test passed: an anchor whose path holds a keyword, and whose
    URL was not visited, is returned as well. *)
Theorem C7_file_links_are_extracted (P : Platform) :
  (forall s base w href,
      href ∈ anchors s ->
      Cms.is_download_path (Py.lower (urlparse_path (urljoin base href))) = true ->
      urljoin base href ∈ Cms.find_downloadable_links s base w)
  /\ (forall s base w href,
        href ∈ anchors s ->
        Cms.has_keyword (Py.lower (urlparse_path (urljoin base href))) = true ->
        urljoin base href ∉ VISITED_URLS w ->
        urljoin base href ∈ Cms.find_downloadable_links s base w)
  /\ (forall s base w href,
        href ∈ anchors s ->
        href <> EmptyString ->
        Loinc.is_download_path (Py.lower (urlparse_path (urljoin base href))) = true ->
        urljoin base href ∈ Loinc.find_downloadable_links s base w)
  /\ (forall s base w href,
        href ∈ anchors s ->
        href <> EmptyString ->
        Loinc.has_keyword (Py.lower (urlparse_path (urljoin base href))) = true ->
        urljoin base href ∉ VISITED_URLS w ->
        urljoin base href ∈ Loinc.find_downloadable_links s base w).
Proof.
  split; [|split; [|split]].
  - intros s base w href Hin Hext. apply elem_of_list_set, elem_of_app. left.
    apply list_elem_of_In, in_flat_map. exists href.
    split; [apply list_elem_of_In, Hin|].
    unfold Cms.anchor_links. rewrite Hext. left. reflexivity.
  - intros s base w href Hin Hkey Hnew. apply elem_of_list_set, elem_of_app. left.
    apply list_elem_of_In, in_flat_map. exists href.
    split; [apply list_elem_of_In, Hin|].
    unfold Cms.anchor_links. rewrite Hkey. apply in_or_app. right.
    destruct (decide _); [contradiction|]. left. reflexivity.
  - intros s base w href Hin Hne Hext. apply elem_of_list_set, elem_of_app. left.
    apply list_elem_of_In, in_flat_map. exists href.
    split; [apply list_elem_of_In, Hin|].
    unfold Loinc.anchor_links. destruct (String.eqb_spec href EmptyString);
      [contradiction|].
    rewrite Hext. left. reflexivity.
  - intros s base w href Hin Hne Hkey Hnew. apply elem_of_list_set, elem_of_app. left.
    apply list_elem_of_In, in_flat_map. exists href.
    split; [apply list_elem_of_In, Hin|].
    unfold Loinc.anchor_links. destruct (String.eqb_spec href EmptyString);
      [contradiction|].
    rewrite Hkey. apply in_or_app. right.
    destruct (decide _); [contradiction|]. left. reflexivity.
Qed.

(** An instance of C7: the archive of the seed page. *)
Lemma C7_file_links_are_extracted_witness :
  Demo.zip ∈
    Cms.find_downloadable_links (P := Demo.flaky)
      {| anchors := ["/hcpcs/a.zip"]; forms := []; page_text := EmptyString |}
      Demo.seed start.
Proof.
  apply (proj1 (C7_file_links_are_extracted Demo.flaky)
           {| anchors := ["/hcpcs/a.zip"]; forms := []; page_text := EmptyString |}
           Demo.seed start "/hcpcs/a.zip").
  - apply list_elem_of_In. left. reflexivity.
  - reflexivity.
Defined.

(** C7 as stated fails: the two tests do not exclude each other.  The
    archive of the seed page passes both, so its anchor appends it twice,
    and the traversal downloads it and then fetches it as a page as
    well. *)
Lemma C7_archive_is_also_a_page :
  Cms.is_download_path "/hcpcs/a.zip" = true
  /\ Cms.has_keyword "/hcpcs/a.zip" = true
  /\ Cms.anchor_links (P := Demo.flaky) Demo.seed start "/hcpcs/a.zip"
     = [Demo.zip; Demo.zip]
  /\ option_map (fun w => page_fetches (log w))
                (Cms.crawl_page (P := Demo.flaky) Demo.seed 0 3 start)
     = Some [Demo.seed; Demo.zip].
Proof.
  split; [reflexivity|]. split; [reflexivity|]. split; vm_compute; reflexivity.
Qed.

(** ** File names *)

Section FileNames.
Context {P : Platform}.

Lemma keep_char_sound c : Re.keep_char c = true -> sound_char c.
Proof.
  destruct c as [[] [] [] [] [] [] [] []]; intros H;
    try discriminate H;
    first [ left; reflexivity
          | right; split; [vm_compute; discriminate|reflexivity] ].
Qed.

Lemma keep_char_ascii c :
  (N_of_ascii c < 128)%N -> Re.keep_char c = true -> safe_char c = true.
Proof.
  intros Hc H. destruct (keep_char_sound c H) as [|[Hn _]]; [assumption|lia].
Qed.

Lemma sub_unsafe_sound s c : c ∈ chars (Re.sub_unsafe s) -> sound_char c.
Proof.
  induction s as [|d s IH]; simpl; intros H.
  - apply elem_of_nil in H. contradiction.
  - apply elem_of_cons in H as [->|H]; [|exact (IH H)].
    destruct (Re.keep_char d) eqn:E; [apply keep_char_sound, E|left; reflexivity].
Qed.

Lemma sub_unsafe_ascii s :
  (forall c, c ∈ chars s -> (N_of_ascii c < 128)%N) ->
  forall c, c ∈ chars (Re.sub_unsafe s) -> safe_char c = true.
Proof.
  induction s as [|d s IH]; simpl; intros Hs c H.
  - apply elem_of_nil in H. contradiction.
  - apply elem_of_cons in H as [->|H].
    + destruct (Re.keep_char d) eqn:E; [|reflexivity].
      apply keep_char_ascii; [|exact E]. apply Hs, elem_of_cons. left. reflexivity.
    + apply IH; [|exact H]. intros c' Hc'. apply Hs, elem_of_cons. right. exact Hc'.
Qed.

End FileNames.

(** ** Strings and paths *)

Section Strings.

Lemma split_go_nonempty sep s : forall skip, Py.split_go sep skip s <> [].
Proof.
  induction s as [|c r IH]; intros skip; cbn [Py.split_go];
    [intros H; discriminate H|].
  destruct skip; [|apply IH].
  destruct (String.prefix sep (String c r)); [intros H; discriminate H|].
  destruct (Py.split_go sep 0 r); intros H; discriminate H.
Qed.

Lemma prefix_empty s : String.prefix EmptyString s = true.
Proof. destruct s; reflexivity. Qed.

(** A string without the separator is one piece, and a string with it is
    at least two. *)
Lemma split_without sep s :
  sep <> EmptyString -> Py.contains s sep = false -> Py.split s sep = [s].
Proof.
  intros Hsep. unfold Py.split. induction s as [|c r IH]; intros H; [reflexivity|].
  cbn [Py.contains] in H. apply orb_false_iff in H as [Hp Hc].
  cbn [Py.split_go]. rewrite Hp, (IH Hc). reflexivity.
Qed.

Lemma split_with sep s :
  sep <> EmptyString ->
  Py.contains s sep = true ->
  exists a b rest, Py.split s sep = a :: b :: rest.
Proof.
  intros Hsep. unfold Py.split. induction s as [|c r IH]; intros H.
  - simpl in H. rewrite orb_false_r in H. destruct sep; [contradiction|].
    discriminate.
  - cbn [Py.split_go]. destruct (String.prefix sep (String c r)) eqn:Hp.
    + destruct (Py.split_go sep (String.length sep - 1) r) as [|b rest] eqn:E.
      * exfalso. eapply split_go_nonempty, E.
      * eauto.
    + cbn [Py.contains] in H. rewrite Hp in H. simpl in H.
      destruct (IH H) as (a & b & rest & ->). eauto.
Qed.

Lemma split_slash_cons c r :
  Py.split (String c r) "/" =
  if Ascii.eqb c "/" then EmptyString :: Py.split r "/"
  else match Py.split r "/" with
       | h :: t => String c h :: t
       | [] => [String c EmptyString]
       end.
Proof.
  unfold Py.split. cbn [Py.split_go String.prefix].
  destruct (ascii_dec "/" c) as [<-|Hc].
  - rewrite prefix_empty. reflexivity.
  - destruct (Ascii.eqb_spec c "/"); [congruence|reflexivity].
Qed.

Lemma last_cons_nonempty (x : string) l d : l <> [] -> List.last (x :: l) d = List.last l d.
Proof. destruct l; [contradiction|reflexivity]. Qed.

Lemma basename_slash r : Py.basename (String "/" r) = Py.basename r.
Proof.
  unfold Py.basename, Py.last_item. rewrite split_slash_cons. simpl.
  destruct (Py.split r "/") eqn:E; [|reflexivity].
  exfalso. eapply split_go_nonempty, E.
Qed.

Lemma basename_plain s : Py.contains s "/" = false -> Py.basename s = s.
Proof.
  intros H. unfold Py.basename. rewrite split_without; [reflexivity|discriminate|exact H].
Qed.

Lemma contains_slash_cons c r :
  Py.contains (String c r) "/" = Ascii.eqb c "/" || Py.contains r "/".
Proof.
  cbn [Py.contains String.prefix]. destruct (ascii_dec "/" c) as [<-|Hc].
  - rewrite prefix_empty. reflexivity.
  - destruct (Ascii.eqb_spec c "/"); [congruence|reflexivity].
Qed.

Lemma basename_inner c r :
  c <> "/"%char -> Py.contains r "/" = true ->
  Py.basename (String c r) = Py.basename r.
Proof.
  intros Hc Hr. unfold Py.basename, Py.last_item. rewrite split_slash_cons.
  destruct (Ascii.eqb_spec c "/"); [contradiction|].
  destruct (split_with "/" r ltac:(discriminate) Hr) as (a & b & rest & ->).
  reflexivity.
Qed.

Lemma lower_char_slash c : Ascii.eqb (Py.lower_char c) "/" = Ascii.eqb c "/".
Proof. destruct c as [[] [] [] [] [] [] [] []]; reflexivity. Qed.

Lemma lower_char_dot c : Ascii.eqb (Py.lower_char c) "." = Ascii.eqb c ".".
Proof. destruct c as [[] [] [] [] [] [] [] []]; reflexivity. Qed.

Lemma contains_slash_lower s : Py.contains (Py.lower s) "/" = Py.contains s "/".
Proof.
  induction s as [|c r IH]; [reflexivity|].
  cbn [Py.lower]. rewrite !contains_slash_cons, lower_char_slash, IH. reflexivity.
Qed.

(** The extension a path ends in is the one its last segment ends in. *)
Lemma endswith_basename ext p :
  Py.contains ext "/" = false ->
  Py.endswith (Py.lower p) ext = true ->
  Py.endswith (Py.lower (Py.basename p)) ext = true.
Proof.
  intros Hext. induction p as [|c r IH]; intros H; [exact H|].
  destruct (Py.contains r "/") eqn:Hr.
  - assert (Hne : String.eqb (Py.lower (String c r)) ext = false).
    { destruct (String.eqb_spec (Py.lower (String c r)) ext) as [E|]; [|reflexivity].
      rewrite <- E, contains_slash_lower, contains_slash_cons, Hr, orb_true_r in Hext.
      discriminate. }
    cbn [Py.lower Py.endswith] in H. cbn [Py.lower] in Hne. rewrite Hne in H.
    simpl in H. specialize (IH H).
    destruct (Ascii.eqb_spec c "/") as [->|Hc].
    + rewrite basename_slash. exact IH.
    + rewrite basename_inner; assumption.
  - destruct (Ascii.eqb_spec c "/") as [->|Hc].
    + rewrite basename_slash.
      assert (Hne : String.eqb (Py.lower (String "/" r)) ext = false).
      { destruct (String.eqb_spec (Py.lower (String "/" r)) ext) as [E|]; [|reflexivity].
        rewrite <- E, contains_slash_lower, contains_slash_cons in Hext. discriminate. }
      cbn [Py.lower Py.endswith] in H. cbn [Py.lower] in Hne. rewrite Hne in H.
      apply IH, H.
    + rewrite basename_plain; [exact H|].
      rewrite contains_slash_cons, Hr. destruct (Ascii.eqb_spec c "/"); [contradiction|reflexivity].
Qed.

Lemma prefix_refl s : String.prefix s s = true.
Proof.
  induction s as [|c s IH]; [reflexivity|]. simpl.
  destruct (ascii_dec c c); [exact IH|contradiction].
Qed.

Lemma endswith_contains s suf : Py.endswith s suf = true -> Py.contains s suf = true.
Proof.
  induction s as [|c r IH]; cbn [Py.endswith Py.contains]; intros H.
  - rewrite orb_false_r in *. apply String.eqb_eq in H. subst suf. reflexivity.
  - apply orb_true_iff in H as [H|H].
    + apply String.eqb_eq in H. subst suf. rewrite prefix_refl. reflexivity.
    + rewrite (IH H). apply orb_true_r.
Qed.

Lemma contains_dot_cons c r :
  Py.contains (String c r) "." = Ascii.eqb c "." || Py.contains r ".".
Proof.
  cbn [Py.contains String.prefix]. destruct (ascii_dec "." c) as [<-|Hc].
  - rewrite prefix_empty. reflexivity.
  - destruct (Ascii.eqb_spec c "."); [congruence|reflexivity].
Qed.

Lemma contains_dot_lower s : Py.contains (Py.lower s) "." = Py.contains s ".".
Proof.
  induction s as [|c r IH]; [reflexivity|].
  cbn [Py.lower]. rewrite !contains_dot_cons, lower_char_dot, IH. reflexivity.
Qed.

Lemma contains_head s e : Py.contains s (String "." e) = true -> Py.contains s "." = true.
Proof.
  induction s as [|c r IH]; cbn [Py.contains]; intros H.
  - simpl in H. discriminate.
  - apply orb_true_iff in H as [H|H].
    + cbn [String.prefix] in *. destruct (ascii_dec "." c); [|discriminate].
      rewrite prefix_empty. reflexivity.
    + rewrite (IH H). apply orb_true_r.
Qed.

(** The last segment of a path that ends in an extension: it is not empty,
    it is not a slash, and it has a dot. *)
Lemma basename_of_file exts p :
  plain_extensions exts = true ->
  existsb (Py.endswith (Py.lower p)) exts = true ->
  Py.basename p <> EmptyString
  /\ Py.basename p <> "/"
  /\ Py.contains (Py.basename p) "." = true.
Proof.
  intros Hexts H. apply existsb_exists in H as (ext & Hin & Hend).
  unfold plain_extensions in Hexts. rewrite forallb_forall in Hexts.
  specialize (Hexts _ Hin).
  apply andb_true_iff in Hexts as [Hexts Hne].
  apply andb_true_iff in Hexts as [Hexts Hsl].
  apply andb_true_iff in Hexts as [Hns Hdot].
  apply negb_true_iff in Hns, Hsl, Hne.
  apply endswith_basename in Hend; [|exact Hns].
  split; [|split].
  - intros E. rewrite E in Hend. destruct ext; simpl in *; discriminate.
  - intros E. rewrite E in Hend. change (Py.lower "/") with "/" in Hend.
    rewrite Hend in Hsl. discriminate.
  - rewrite <- contains_dot_lower. apply endswith_contains in Hend.
    destruct ext as [|d e]; [discriminate|].
    cbn [String.prefix] in Hdot. destruct (ascii_dec "." d) as [<-|]; [|discriminate].
    eapply contains_head, Hend.
Qed.
End Strings.

(** ** What a run changes *)

Section Advance.
Context {P : Platform}.

Lemma file_requests_app l1 l2 :
  file_requests (l1 ++ l2) = file_requests l1 ++ file_requests l2.
Proof.
  induction l1 as [|e l1 IH]; simpl; [reflexivity|].
  destruct e as [| ? ? []| | | | | |]; simpl; rewrite ?IH; reflexivity.
Qed.

Lemma advance_refl w : advance w w.
Proof.
  exists []. rewrite app_nil_r. repeat split; auto.
Qed.

Lemma advance_trans w1 w2 w3 : advance w1 w2 -> advance w2 w3 -> advance w1 w3.
Proof.
  intros (l1 & L1 & V1 & F1 & D1 & R1) (l2 & L2 & V2 & F2 & D2 & R2).
  exists (l1 ++ l2). rewrite L2, L1, <- app_assoc.
  rewrite page_fetches_app, file_requests_app.
  split; [reflexivity|]. split; [etransitivity; eassumption|]. split; [|split].
  - intros u Hu. destruct (F2 u Hu) as [Hu'|Hu'].
    + destruct (F1 u Hu'); [left|right; apply elem_of_app; left]; assumption.
    + right. apply elem_of_app. right. assumption.
  - etransitivity; eassumption.
  - intros u Hu. destruct (R2 u Hu) as [Hu'|Hu'].
    + destruct (R1 u Hu'); [left|right; apply elem_of_app; left]; assumption.
    + right. apply elem_of_app. right. assumption.
Qed.

Lemma advance_emit e w : advance w (emit e w).
Proof.
  exists [e]. repeat split; auto.
Qed.

Lemma advance_visit_fetch url w :
  advance w (emit (PageFetch url) (visit url w)).
Proof.
  exists [PageFetch url]. simpl. split; [reflexivity|].
  split; [apply union_subseteq_r|]. split; [|split; [reflexivity|auto]].
  intros u Hu. apply elem_of_union in Hu as [Hu|Hu]; [|left; exact Hu].
  apply elem_of_singleton in Hu. subst u. right. apply elem_of_cons. left. reflexivity.
Qed.

Lemma advance_ret {A} (a : A) : advance_eff (ret a).
Proof. intros w. apply advance_refl. Qed.

Lemma advance_raise {A} : advance_eff (@raise A).
Proof. intros w. apply advance_refl. Qed.

Lemma advance_bind {A B} (m : eff A) (k : A -> eff B) :
  advance_eff m -> (forall a, advance_eff (k a)) -> advance_eff (bind m k).
Proof.
  intros Hm Hk w. unfold bind. specialize (Hm w).
  destruct (m w) as [w1 [a|]]; simpl in *; [|assumption].
  eapply advance_trans; [exact Hm|apply Hk].
Qed.

Lemma advance_http_get url t st : advance_eff (http_get url t st).
Proof.
  intros w. unfold http_get.
  pose proof (advance_emit (HttpGet url t st) w) as Q.
  destruct (server _ _ _); [exact Q|]. destruct (negb st && broken r); exact Q.
Qed.

Lemma advance_http_post url t : advance_eff (http_post url t).
Proof.
  intros w. unfold http_post.
  pose proof (advance_emit (HttpPost url t) w) as Q.
  destruct (server _ _ _); [exact Q|]. destruct (broken r); exact Q.
Qed.

Lemma advance_raise_for_status r : advance_eff (raise_for_status r).
Proof.
  unfold raise_for_status. destruct (_ && _); [apply advance_raise|apply advance_ret].
Qed.

Lemma advance_os_call e : advance_eff (os_call e).
Proof. intros w. apply advance_emit. Qed.

Lemma advance_makedirs d : advance_eff (makedirs d).
Proof.
  unfold makedirs. destruct (String.eqb d EmptyString); [|apply advance_os_call].
  apply advance_bind; [apply advance_os_call|intros; apply advance_raise].
Qed.

Lemma advance_write_all path cs : advance_eff (write_all path cs).
Proof.
  induction cs as [|c cs IH]; simpl; [apply advance_ret|].
  apply advance_bind; [apply advance_os_call|intros; exact IH].
Qed.

Lemma advance_sleep d w : advance w (sleep d w).
Proof. apply advance_emit. Qed.

(** A download adds at most its URL to the Downloaded Set, and only after
    it requested it. *)
Lemma advance_download url timeout w w' :
  VISITED_URLS w' = VISITED_URLS w ->
  (DOWNLOADED_FILES w' = DOWNLOADED_FILES w
   \/ DOWNLOADED_FILES w' = {[url]} ∪ DOWNLOADED_FILES w) ->
  (exists rest, log w' = log w ++ HttpGet url timeout true :: rest) ->
  advance w w'.
Proof.
  intros HV HD [rest HL]. exists (HttpGet url timeout true :: rest).
  split; [exact HL|]. rewrite HV. split; [reflexivity|].
  split; [auto|]. destruct HD as [->| ->].
  - split; [reflexivity|auto].
  - split; [apply union_subseteq_r|]. intros u Hu.
    apply elem_of_union in Hu as [Hu|Hu]; [|left; exact Hu].
    apply elem_of_singleton in Hu. subst u. right. simpl.
    apply elem_of_cons. left. reflexivity.
Qed.

Lemma cms_download_file_advance url filepath w :
  advance w (fst (Cms.download_file url filepath w)).
Proof.
  destruct (decide (url ∈ DOWNLOADED_FILES w)) as [Hin|Hnew].
  { unfold Cms.download_file. destruct (decide _); [apply advance_refl|contradiction]. }
  destruct (cms_download_file_quiet url filepath w) as [HV _].
  pose proof (cms_download_file_requests url filepath w Hnew) as HR.
  destruct (Cms.download_file url filepath w) as [w' []] eqn:E; simpl in *.
  - apply cms_download_file_true in E as (_ & HD & _).
    eapply advance_download; eauto.
  - apply cms_download_file_false in E.
    eapply advance_download; eauto.
Qed.

Lemma loinc_download_file_advance url filepath w :
  advance w (fst (Loinc.download_file url filepath w)).
Proof.
  destruct (decide (url ∈ DOWNLOADED_FILES w)) as [Hin|Hnew].
  { unfold Loinc.download_file. destruct (decide _); [apply advance_refl|contradiction]. }
  destruct (loinc_download_file_quiet url filepath w) as [HV _].
  pose proof (loinc_download_file_requests url filepath w Hnew) as HR.
  destruct (Loinc.download_file url filepath w) as [w' []] eqn:E; simpl in *.
  - apply loinc_download_file_true in E as (_ & HD & _).
    eapply advance_download; eauto.
  - apply loinc_download_file_false in E.
    eapply advance_download; eauto.
Qed.

Lemma cms_download_links_advance links w :
  advance w (Cms.download_links links w).
Proof.
  unfold Cms.download_links. revert w.
  induction links as [|l links IH]; intros w; simpl; [apply advance_refl|].
  eapply advance_trans; [|apply IH].
  unfold Cms.download_link. destruct (Cms.is_download_path _); [|apply advance_refl].
  eapply advance_trans; [apply cms_download_file_advance|apply advance_sleep].
Qed.

Lemma cms_get_page_loop_advance n a retries url w :
  advance w (fst (Cms.get_page_loop n a retries url w)).
Proof.
  revert a w. induction n as [|n IH]; intros a w; simpl; [apply advance_refl|].
  rewrite page_attempt. destruct (fetch _ _); simpl; [apply advance_emit|].
  destruct (_ <? _)%Z; [|apply advance_emit].
  eapply advance_trans; [apply advance_emit|].
  eapply advance_trans; [apply advance_sleep|apply IH].
Qed.

Lemma cms_visit_get_page_advance url retries w :
  advance w (fst (Cms.get_page url retries (visit url w))).
Proof.
  unfold Cms.get_page.
  eapply advance_trans; [apply advance_visit_fetch|apply cms_get_page_loop_advance].
Qed.

Lemma cms_process_page_advance crawl url r :
  (forall link w w', crawl link w = Some w' -> advance w w') ->
  forall w w', Cms.process_page crawl url r w = Some w' -> advance w w'.
Proof.
  intros Hc w w' E. unfold Cms.process_page in E. destruct (_ || _).
  - injection E as <-. apply cms_download_file_advance.
  - destruct (html_parser _) as [s|]; [|injection E as <-; apply advance_refl].
    eapply advance_trans; [apply cms_download_links_advance|].
    eapply (crawl_links_keeps (advance (Cms.download_links _ w)));
      [| |exact E|apply advance_refl].
    + intros d w0 H0. eapply advance_trans; [exact H0|apply advance_sleep].
    + intros link w1 w2 E1 H1. eapply advance_trans; [exact H1|eapply Hc, E1].
Qed.

Lemma cms_crawl_page_rec_advance fuel :
  forall url depth max_depth w w',
    Cms.crawl_page_rec fuel url depth max_depth w = Some w' -> advance w w'.
Proof.
  induction fuel as [|fuel IH]; intros url depth max_depth w w' E; simpl in E.
  - destruct (_ >? _)%Z; [injection E as <-; apply advance_refl|].
    destruct (decide _); [injection E as <-; apply advance_refl|discriminate].
  - destruct (_ >? _)%Z; [injection E as <-; apply advance_refl|].
    destruct (decide _); [injection E as <-; apply advance_refl|].
    pose proof (cms_visit_get_page_advance url 3 w) as G.
    destruct (Cms.get_page url 3 (visit url w)) as [w1 [r|]]; simpl in G.
    + eapply advance_trans; [exact G|].
      eapply cms_process_page_advance; [|exact E]. intros link w2 w3. apply IH.
    + injection E as <-. exact G.
Qed.

End Advance.

(** ** The depth bound: the files of the deepest pages *)

Section DepthBoundFiles.
Context {P : Platform}.

(** A download of a link adds at most the link to the Downloaded Set. *)
Lemma cms_download_link_downloaded link w :
  DOWNLOADED_FILES (Cms.download_link link w) ⊆ {[link]} ∪ DOWNLOADED_FILES w.
Proof.
  unfold Cms.download_link. destruct (Cms.is_download_path _); [|apply union_subseteq_r].
  match goal with |- context [Cms.download_file link ?fp w] =>
    destruct (Cms.download_file link fp w) as [w' []] eqn:E end; simpl.
  - apply cms_download_file_true in E as (_ & -> & _). reflexivity.
  - apply cms_download_file_false in E. rewrite E. apply union_subseteq_r.
Qed.

(** The first loop of [crawl_page] requests, as a file, every file link
    that is not yet in the Downloaded Set. *)
Lemma cms_download_links_requests links link :
  link ∈ links ->
  Cms.is_download_path (Py.lower (urlparse_path link)) = true ->
  forall w,
    link ∉ DOWNLOADED_FILES w ->
    exists l,
      log (Cms.download_links links w) = log w ++ l /\ link ∈ file_requests l.
Proof.
  intros Hin Hext. unfold Cms.download_links.
  induction links as [|a links IH]; intros w Hnew; [apply elem_of_nil in Hin; contradiction|].
  cbn [fold_left].
  destruct (decide (a = link)) as [->|Hne].
  - destruct (cms_download_links_advance links (Cms.download_link link w))
      as (l2 & L2 & _).
    unfold Cms.download_links in L2. rewrite L2.
    unfold Cms.download_link. rewrite Hext.
    match goal with |- context [Cms.download_file link ?fp w] =>
      destruct (cms_download_file_requests link fp w Hnew) as [rest HL] end.
    cbn [sleep emit log]. rewrite HL.
    eexists. rewrite <- !app_assoc. split; [reflexivity|].
    simpl. apply elem_of_cons. left. reflexivity.
  - apply elem_of_cons in Hin as [Heq|Hin]; [congruence|].
    destruct (cms_download_links_advance [a] w) as (l1 & L1 & _).
    unfold Cms.download_links in L1. cbn [fold_left] in L1.
    destruct (IH Hin (Cms.download_link a w)) as (l2 & L2 & H2).
    + intros Hd. apply cms_download_link_downloaded in Hd.
      apply elem_of_union in Hd as [Hd|Hd]; [|contradiction].
      apply elem_of_singleton in Hd. congruence.
    + exists (l1 ++ l2). rewrite L2, L1, <- app_assoc. split; [reflexivity|].
      rewrite file_requests_app. apply elem_of_app. right. exact H2.
Qed.

Lemma pauses_log n w : log (pauses n w) = log w ++ repeat (Sleep 1000) n.
Proof.
  induction n as [|n IH]; [simpl; rewrite app_nil_r; reflexivity|].
  change (log (pauses n w) ++ [Sleep 1000] = log w ++ repeat (Sleep 1000) (S n)).
  rewrite IH, <- app_assoc. f_equal. symmetry. apply repeat_cons.
Qed.

Lemma page_fetches_new w w' l :
  log w' = log w ++ l -> quiet w w' -> page_fetches l = [].
Proof.
  intros L [_ Q]. rewrite L, page_fetches_app in Q.
  rewrite <- (app_nil_r (page_fetches (log w))) in Q at 2.
  apply app_inv_head in Q. exact Q.
Qed.

End DepthBoundFiles.

(** C3.  Entered with a depth beyond [max_depth], [crawl_page] returns the
    world as it was: no request, no download, no nested call.  For an HTML
    page at depth [max_depth] this means that its links go through the
    download loop and that the loop over the page links then only pauses:
    the result is the world the download loop left, with pauses.  The
    download loop hands the file links to [download_file]: every file
    link of the page that is not yet in the Downloaded Set is requested
    as a file, and nothing is fetched as a page after the page itself.
    Whatever the page is, the only page fetched by a call at depth
    [max_depth] is its own. *)
Theorem C3_depth_bound (P : Platform) :
  (forall url depth max_depth w,
      (depth > max_depth)%Z -> Cms.crawl_page url depth max_depth w = Some w)
  /\ (forall link w,
        Cms.is_download_path (Py.lower (urlparse_path link)) = true ->
        exists filepath,
          Cms.download_link link w
          = sleep 500 (fst (Cms.download_file link filepath w)))
  /\ (forall url d w w1 r s,
        url ∉ VISITED_URLS w ->
        Cms.get_page url 3 (visit url w) = (w1, Some r) ->
        Cms.is_download_path (Py.lower (urlparse_path url))
        || Py.contains (Py.lower (content_type r)) "application/"
        || Py.contains (Py.lower (content_type r)) "pdf" = false ->
        html_parser (body r) = Some s ->
        exists n,
          n <= length (Cms.find_downloadable_links s url w1)
          /\ Cms.crawl_page url d d w
             = Some (pauses n (Cms.download_links
                                 (Cms.find_downloadable_links s url w1) w1)))
  /\ (forall url d w,
        url ∉ VISITED_URLS w ->
        exists w',
          Cms.crawl_page url d d w = Some w'
          /\ VISITED_URLS w' = {[url]} ∪ VISITED_URLS w
          /\ page_fetches (log w') = page_fetches (log w) ++ [url])
  /\ (forall url d w w1 r s link,
        url ∉ VISITED_URLS w ->
        Cms.get_page url 3 (visit url w) = (w1, Some r) ->
        Cms.is_download_path (Py.lower (urlparse_path url))
        || Py.contains (Py.lower (content_type r)) "application/"
        || Py.contains (Py.lower (content_type r)) "pdf" = false ->
        html_parser (body r) = Some s ->
        link ∈ Cms.find_downloadable_links s url w1 ->
        Cms.is_download_path (Py.lower (urlparse_path link)) = true ->
        link ∉ DOWNLOADED_FILES w1 ->
        exists w' l,
          Cms.crawl_page url d d w = Some w'
          /\ log w' = log w1 ++ l
          /\ link ∈ file_requests l
          /\ page_fetches l = []).
Proof.
  assert (forall url d w w1 r s,
        url ∉ VISITED_URLS w ->
        Cms.get_page url 3 (visit url w) = (w1, Some r) ->
        Cms.is_download_path (Py.lower (urlparse_path url))
        || Py.contains (Py.lower (content_type r)) "application/"
        || Py.contains (Py.lower (content_type r)) "pdf" = false ->
        html_parser (body r) = Some s ->
        exists n,
          n <= length (Cms.find_downloadable_links s url w1)
          /\ Cms.crawl_page url d d w
             = Some (pauses n (Cms.download_links
                                 (Cms.find_downloadable_links s url w1) w1)))
    as Hpage.
  { intros url d w w1 r s Hnew Hget Hfile Hparse.
    unfold Cms.crawl_page. replace (d - d + 1)%Z with 1%Z by lia.
    change (Z.to_nat 1) with 1. rewrite crawl_page_rec_step.
    destruct (Z.gtb_spec d d) as [|_]; [lia|].
    destruct (decide _) as [|_]; [contradiction|].
    rewrite Hget. unfold Cms.process_page. rewrite Hfile, Hparse.
    apply crawl_links_idle. intros link w0. apply crawl_page_rec_too_deep. lia. }
  split; [|split; [|split; [|split]]].
  - intros url depth max_depth w H. apply crawl_page_rec_too_deep, H.
  - intros link w Hext. unfold Cms.download_link. rewrite Hext.
    eexists. reflexivity.
  - exact Hpage.
  - intros url d w Hnew.
    unfold Cms.crawl_page. replace (d - d + 1)%Z with 1%Z by lia.
    change (Z.to_nat 1) with 1. rewrite crawl_page_rec_step.
    destruct (Z.gtb_spec d d) as [|_]; [lia|].
    destruct (decide _) as [|_]; [contradiction|].
    destruct (cms_get_page_fetches url 3 (visit url w)) as [GV GP].
    destruct (Cms.get_page url 3 (visit url w)) as [w1 [r|]]; simpl in GV, GP;
      [|eauto].
    unfold Cms.process_page. destruct (_ || _).
    + eexists. split; [reflexivity|].
      match goal with |- context [Cms.download_file url ?fp w1] =>
        destruct (cms_download_file_quiet url fp w1) as [QV QP] end.
      rewrite QV, QP. auto.
    + destruct (html_parser _) as [s|]; [|eauto].
      destruct (crawl_links_idle
                  (fun link => Cms.crawl_page_rec 0 link (d + 1) d)
                  (Cms.find_downloadable_links s url w1)
                  (fun link w0 => crawl_page_rec_too_deep 0 link (d + 1) d w0
                                    ltac:(lia))
                  (Cms.download_links (Cms.find_downloadable_links s url w1) w1))
        as (n & _ & ->).
      eexists. split; [reflexivity|].
      destruct (quiet_pauses n (Cms.download_links
                  (Cms.find_downloadable_links s url w1) w1)) as [QV QP].
      destruct (cms_download_links_quiet
                  (Cms.find_downloadable_links s url w1) w1) as [RV RP].
      rewrite QV, QP, RV, RP. auto.
  - intros url d w w1 r s link Hnew Hget Hfile Hparse Hin Hext Hd.
    destruct (Hpage url d w w1 r s Hnew Hget Hfile Hparse) as (n & _ & E).
    destruct (cms_download_links_requests _ link Hin Hext w1 Hd) as (l1 & L1 & H1).
    exists (pauses n (Cms.download_links (Cms.find_downloadable_links s url w1) w1)),
      (l1 ++ repeat (Sleep 1000) n).
    split; [exact E|].
    assert (log (pauses n (Cms.download_links
                             (Cms.find_downloadable_links s url w1) w1))
            = log w1 ++ l1 ++ repeat (Sleep 1000) n) as L
      by (rewrite pauses_log, L1, <- app_assoc; reflexivity).
    split; [exact L|]. split.
    + rewrite file_requests_app. apply elem_of_app. left. exact H1.
    + eapply page_fetches_new; [exact L|].
      eapply quiet_trans; [apply cms_download_links_quiet|apply quiet_pauses].
Qed.

(** An instance of C3: the seed of the examples crawled at the deepest
    level; its archive is requested and no page but the seed is
    fetched. *)
Lemma C3_depth_bound_witness :
  exists w' l,
    Cms.crawl_page (P := Demo.flaky) Demo.seed 3 3 start = Some w'
    /\ log w' = [PageFetch Demo.seed; HttpGet Demo.seed 30 false] ++ l
    /\ Demo.zip ∈ file_requests l
    /\ page_fetches l = [].
Proof.
  apply (proj2 (proj2 (proj2 (proj2 (C3_depth_bound Demo.flaky))))
           Demo.seed 3%Z start
           (emit (HttpGet Demo.seed 30 false)
              (emit (PageFetch Demo.seed) (visit Demo.seed start)))
           (Demo.html Demo.seed "<a href=/hcpcs/a.zip>")
           {| anchors := ["/hcpcs/a.zip"]; forms := [];
              page_text := "<a href=/hcpcs/a.zip>" |}
           Demo.zip).
  - apply not_elem_of_empty.
  - reflexivity.
  - vm_compute. reflexivity.
  - reflexivity.
  - apply elem_of_list_set, elem_of_app. left.
    apply list_elem_of_In, in_flat_map. exists "/hcpcs/a.zip".
    split; [left; reflexivity|]. left. vm_compute. reflexivity.
  - vm_compute. reflexivity.
  - apply not_elem_of_empty.
Defined.

(** ** The traversal of [crawl_cms_hcpcs.py] *)

Section CmsMore.
Context {P : Platform}.

(** [crawl_page] needs no more nested calls than the depth leaves. *)
Lemma crawl_page_rec_enough url depth max_depth w w' :
  Cms.crawl_page url depth max_depth w = Some w' ->
  forall fuel, Z.to_nat (max_depth - depth + 1) <= fuel ->
    Cms.crawl_page_rec fuel url depth max_depth w = Some w'.
Proof.
  intros E fuel Hf. induction Hf as [|fuel Hf IH]; [exact E|].
  apply crawl_page_rec_more, IH.
Qed.

Lemma crawl_links_keeps_cms (I : world -> Prop) crawl links :
  (forall d w, I w -> I (sleep d w)) ->
  (forall link w w',
      Py.contains (urlparse_netloc link) "cms.gov" = true ->
      crawl link w = Some w' -> I w -> I w') ->
  forall w w', Cms.crawl_links crawl links w = Some w' -> I w -> I w'.
Proof.
  intros Hsleep Hcrawl. induction links as [|l links IH]; intros w w' E HI; simpl in E.
  - injection E as <-. exact HI.
  - destruct (decide _); [eauto|].
    destruct (Py.contains _ _) eqn:Ec; [|eauto].
    destruct (crawl l w) as [w1|] eqn:E1; [|discriminate].
    eapply IH; [exact E|]. eauto.
Qed.

Lemma process_page_keeps_cms (I : world -> Prop) crawl url r :
  (forall w w', quiet w w' -> I w -> I w') ->
  (forall link w w',
      Py.contains (urlparse_netloc link) "cms.gov" = true ->
      crawl link w = Some w' -> I w -> I w') ->
  forall w w', Cms.process_page crawl url r w = Some w' -> I w -> I w'.
Proof.
  intros Hq Hcrawl w w' E HI. unfold Cms.process_page in E.
  destruct (_ || _).
  - injection E as <-. eapply Hq; [apply cms_download_file_quiet|exact HI].
  - destruct (html_parser _) as [s|]; [|injection E as <-; exact HI].
    eapply crawl_links_keeps_cms; [| exact Hcrawl | exact E |].
    + intros d w0. apply Hq, quiet_sleep.
    + eapply Hq; [apply cms_download_links_quiet|exact HI].
Qed.

Lemma cms_pages_rec seed before fuel :
  forall url depth max_depth w w',
    url = seed \/ Py.contains (urlparse_netloc url) "cms.gov" = true ->
    Cms.crawl_page_rec fuel url depth max_depth w = Some w' ->
    cms_pages seed before w -> cms_pages seed before w'.
Proof.
  induction fuel as [|fuel IH]; intros url depth max_depth w w' Hurl E HI; simpl in E.
  - destruct (_ >? _)%Z; [injection E as <-; exact HI|].
    destruct (decide _); [injection E as <-; exact HI|discriminate].
  - destruct (_ >? _)%Z; [injection E as <-; exact HI|].
    destruct (decide _) as [|Hnew]; [injection E as <-; exact HI|].
    destruct (cms_get_page_fetches url 3 (visit url w)) as [_ GP].
    assert (HI1 : cms_pages seed before (fst (Cms.get_page url 3 (visit url w)))).
    { intros u Hu. rewrite GP in Hu. simpl in Hu.
      apply elem_of_app in Hu as [Hu|Hu]; [apply HI, Hu|].
      apply list_elem_of_singleton in Hu. subst u. right. exact Hurl. }
    destruct (Cms.get_page url 3 (visit url w)) as [w1 [r|]]; simpl in HI1.
    + eapply process_page_keeps_cms; [| |exact E|exact HI1].
      * intros w2 w3 [_ Q] H2 u Hu. rewrite Q in Hu. apply H2, Hu.
      * intros link w2 w3 Hc. apply IH. right. exact Hc.
    + injection E as <-. exact HI1.
Qed.

(** When the three attempts to fetch a page fail, [crawl_page] gives up
    on it without raising: the URL stays in the Visited Set, nothing is
    downloaded, and the log shows the three requests with a pause of two
    seconds after the first and after the second. *)
Theorem cms_unreachable_page_is_given_up url depth max_depth w :
  url ∉ VISITED_URLS w ->
  (depth <= max_depth)%Z ->
  fetch url (length (log w) + 1) = None ->
  fetch url (length (log w) + 3) = None ->
  fetch url (length (log w) + 5) = None ->
  Cms.crawl_page url depth max_depth w
  = Some {| VISITED_URLS := {[url]} ∪ VISITED_URLS w;
            DOWNLOADED_FILES := DOWNLOADED_FILES w;
            log := log w ++ [PageFetch url;
                             HttpGet url 30 false; Sleep 2000;
                             HttpGet url 30 false; Sleep 2000;
                             HttpGet url 30 false] |}.
Proof.
  intros Hnew Hd H1 H3 H5. unfold Cms.crawl_page.
  destruct (Z.to_nat (max_depth - depth + 1)) as [|fuel] eqn:Ef; [lia|].
  rewrite crawl_page_rec_step.
  destruct (Z.gtb_spec depth max_depth) as [|_]; [lia|].
  destruct (decide _) as [|_]; [contradiction|].
  unfold Cms.get_page. change (Z.to_nat 3) with 3. simpl.
  rewrite page_attempt. simpl. rewrite length_app. simpl. rewrite H1. simpl.
  rewrite page_attempt. simpl. rewrite !length_app. simpl.
  replace (length (log w) + 1 + 1 + 1) with (length (log w) + 3) by lia.
  rewrite H3. simpl.
  rewrite page_attempt. simpl. rewrite !length_app. simpl.
  replace (length (log w) + 1 + 1 + 1 + 1 + 1) with (length (log w) + 5) by lia.
  rewrite H5. simpl. unfold emit, sleep, emit, visit. simpl.
  rewrite <- !app_assoc. reflexivity.
Qed.
(** Whenever [crawl_page] returns, what it did is only this: it added
    events to the log, it added to the Visited Set URLs that it fetched
    as pages, and it added to the Downloaded Set URLs that it requested
    as files.  Neither set loses an element. *)
Theorem cms_crawl_page_advances url depth max_depth w w' :
  Cms.crawl_page url depth max_depth w = Some w' -> advance w w'.
Proof. apply cms_crawl_page_rec_advance. Qed.

(** Whenever [crawl_page] returns, every page it fetched is its seed or
    a URL whose host has [cms.gov] somewhere in it.  The test is one for
    a substring: a host such as [www.cms.gov.example.org], which is not
    one of CMS, passes it and is crawled. *)
Theorem cms_crawl_page_stays_on_site :
  (forall seed depth max_depth w w',
      Cms.crawl_page seed depth max_depth w = Some w' ->
      forall u,
        u ∈ page_fetches (log w') ->
        u ∈ page_fetches (log w)
        \/ u = seed
        \/ Py.contains (urlparse_netloc u) "cms.gov" = true)
  /\ Py.contains (urlparse_netloc (Platform := Sample.mirror) Sample.lookalike)
       "cms.gov" = true
  /\ option_map (fun w => page_fetches (log w))
       (Cms.crawl_page (P := Sample.mirror) Demo.seed 0 3 start)
     = Some [Demo.seed; Sample.lookalike].
Proof.
  split; [|split; vm_compute; reflexivity].
  intros seed depth max_depth w w' E.
  assert (cms_pages seed (page_fetches (log w)) w') as H.
  { eapply cms_pages_rec; [left; reflexivity|exact E|].
    intros u Hu. left. exact Hu. }
  exact H.
Qed.

(** When [crawl_page] starts with an empty Visited Set and no page
    fetched, as it does in [main], the Visited Set ends up being the set
    of the URLs fetched as pages, and the number of pages visited that
    [main] prints, the size of the set, is the number of page fetches. *)
Theorem cms_visited_set_is_the_pages_fetched url depth max_depth w :
  VISITED_URLS w = ∅ ->
  page_fetches (log w) = [] ->
  exists w',
    Cms.crawl_page url depth max_depth w = Some w'
    /\ VISITED_URLS w' = list_to_set (page_fetches (log w'))
    /\ size (VISITED_URLS w') = length (page_fetches (log w')).
Proof.
  intros HV0 HP0.
  destruct (crawl_page_total url depth max_depth w) as [w' E].
  exists w'. split; [exact E|].
  assert (fetched_once ∅ w') as (_ & Hnd & Hin).
  { eapply crawl_page_rec_fetched_once; [exact E|].
    split; [apply empty_subseteq|]. rewrite HP0. split; [apply NoDup_nil_2|].
    intros u Hu. apply elem_of_nil in Hu. contradiction. }
  destruct (cms_crawl_page_rec_advance _ _ _ _ _ _ E) as (l & L & _ & Hv & _).
  assert (VISITED_URLS w' = list_to_set (page_fetches (log w'))) as HV.
  { apply set_eq. intros u. rewrite elem_of_list_to_set. split.
    - intros Hu. rewrite L, page_fetches_app, HP0. simpl.
      destruct (Hv u Hu) as [H0|H1]; [|exact H1].
      rewrite HV0 in H0. apply elem_of_empty in H0. contradiction.
    - intros Hu. apply Hin, Hu. }
  split; [exact HV|]. rewrite HV at 1. apply size_list_to_set, Hnd.
Qed.

(** When [crawl_page] is entered with a URL that is not in the Visited
    Set, the first attempt to fetch it succeeds, and the URL is found to
    be a file, by its extension or by the content type of the answer,
    then: if the URL is not in the Downloaded Set it is transferred
    twice, since [get_page] has fetched it, body included, when
    [download_file] requests it again as a stream; if it is in the
    Downloaded Set, the fetch by [get_page] is all that happens.  In
    both cases no other page is fetched: no link is followed. *)
Theorem cms_file_url_is_requested_twice url depth max_depth w r :
  url ∉ VISITED_URLS w ->
  (depth <= max_depth)%Z ->
  fetch url (length (log w) + 1) = Some r ->
  Cms.is_download_path (Py.lower (urlparse_path url))
  || Py.contains (Py.lower (content_type r)) "application/"
  || Py.contains (Py.lower (content_type r)) "pdf" = true ->
  (url ∉ DOWNLOADED_FILES w ->
   exists w' rest,
     Cms.crawl_page url depth max_depth w = Some w'
     /\ log w' = log w ++ [PageFetch url; HttpGet url 30 false; HttpGet url 60 true]
                      ++ rest
     /\ page_fetches (log w') = page_fetches (log w) ++ [url]
     /\ VISITED_URLS w' = {[url]} ∪ VISITED_URLS w)
  /\ (url ∈ DOWNLOADED_FILES w ->
      Cms.crawl_page url depth max_depth w
      = Some (emit (HttpGet url 30 false) (emit (PageFetch url) (visit url w)))).
Proof.
  intros Hnew Hdepth Hf Hfile. unfold Cms.crawl_page.
  destruct (Z.to_nat (max_depth - depth + 1)) as [|fuel] eqn:Ef; [lia|].
  rewrite crawl_page_rec_step.
  destruct (Z.gtb_spec depth max_depth) as [|_]; [lia|].
  destruct (decide _) as [|_]; [contradiction|].
  unfold Cms.get_page. change (Z.to_nat 3) with 3. cbn [Cms.get_page_loop].
  rewrite page_attempt. simpl. rewrite length_app. simpl. rewrite Hf.
  unfold Cms.process_page. rewrite Hfile. split.
  - intros Hd.
    match goal with |- context [Cms.download_file url ?fp ?w1] =>
      destruct (cms_download_file_requests url fp w1 Hd) as [rest HL];
      destruct (cms_download_file_quiet url fp w1) as [HV HP];
      exists (fst (Cms.download_file url fp w1)), rest
    end.
    split; [reflexivity|].
    split; [rewrite HL; simpl; rewrite <- !app_assoc; reflexivity|].
    split; [|rewrite HV; reflexivity].
    rewrite HP. simpl. rewrite !page_fetches_app. simpl.
    rewrite <- app_assoc. reflexivity.
  - intros Hd. unfold Cms.download_file. simpl.
    destruct (decide _) as [_|Hn]; [reflexivity|contradiction].
Qed.

End CmsMore.

(** ** File names *)

Section Names.
Context {P : Platform}.

Lemma sub_unsafe_length s : String.length (Re.sub_unsafe s) = String.length s.
Proof. induction s as [|c s IH]; simpl; [reflexivity|]. rewrite IH. reflexivity. Qed.

Lemma sub_unsafe_empty s : Re.sub_unsafe s = EmptyString -> s = EmptyString.
Proof. destruct s; [reflexivity|discriminate]. Qed.

Lemma sub_unsafe_no_slash s : Py.contains (Re.sub_unsafe s) "/" = false.
Proof.
  induction s as [|c s IH]; [reflexivity|].
  cbn [Re.sub_unsafe]. rewrite contains_slash_cons, IH, orb_false_r.
  destruct (Re.keep_char c) eqn:E; [|reflexivity].
  destruct (Ascii.eqb_spec c "/") as [->|]; [discriminate E|reflexivity].
Qed.

(** A name without a slash joined to a directory that is neither empty nor
    ends in a slash. *)
Lemma join_name dir name :
  Py.contains name "/" = false ->
  dir <> EmptyString -> Py.endswith dir "/" = false ->
  Py.join dir [name] = dir +:+ "/" +:+ name.
Proof.
  intros Hn Hd He. unfold Py.join. simpl. rewrite He.
  destruct (String.eqb_spec dir EmptyString); [contradiction|]. simpl.
  unfold Py.startswith. destruct name as [|c name]; [reflexivity|].
  rewrite contains_slash_cons in Hn. apply orb_false_iff in Hn as [Hc _].
  cbn [String.prefix]. destruct (ascii_dec "/" c) as [<-|]; [discriminate Hc|reflexivity].
Qed.

Lemma cms_file_link_name link default :
  Cms.is_download_path (Py.lower (urlparse_path link)) = true ->
  Cms.get_filename_from_url link default
  = Re.sub_unsafe (Py.basename (urlparse_path link)).
Proof.
  intros H.
  destruct (basename_of_file Cms.DOWNLOAD_EXTENSIONS _ eq_refl H) as (Hne & _ & Hdot).
  unfold Cms.get_filename_from_url. rewrite Hdot.
  destruct (String.eqb_spec (Py.basename (urlparse_path link)) EmptyString);
    [contradiction|reflexivity].
Qed.

(** The name [crawl_cms_hcpcs.get_filename_from_url] gives a link whose
    path ends in a download extension is the cleaned last segment of the
    path; the query and the default name play no part, the name is not
    empty and it has no slash. *)
Theorem cms_file_link_names link default :
  Cms.is_download_path (Py.lower (urlparse_path link)) = true ->
  Cms.get_filename_from_url link default
  = Re.sub_unsafe (Py.basename (urlparse_path link))
  /\ Cms.get_filename_from_url link default <> EmptyString
  /\ Py.contains (Cms.get_filename_from_url link default) "/" = false.
Proof.
  intros H. rewrite (cms_file_link_name link default H).
  split; [reflexivity|]. split; [|apply sub_unsafe_no_slash].
  intros E. apply sub_unsafe_empty in E.
  destruct (basename_of_file Cms.DOWNLOAD_EXTENSIONS _ eq_refl H) as (Hne & _).
  contradiction.
Qed.

Lemma loinc_file_link_name link default :
  Loinc.is_download_path (Py.lower (urlparse_path link)) = true ->
  Loinc.get_filename_from_url link default
  = Some (Re.sub_unsafe (Py.basename (urlparse_path link))).
Proof.
  intros H.
  destruct (basename_of_file Loinc.DOWNLOAD_EXTENSIONS _ eq_refl H) as (Hne & Hsl & _).
  unfold Loinc.get_filename_from_url.
  destruct (String.eqb_spec (Py.basename (urlparse_path link)) EmptyString);
    [contradiction|].
  destruct (String.eqb_spec (Py.basename (urlparse_path link)) "/");
    [contradiction|]. simpl.
  destruct (String.eqb_spec (Re.sub_unsafe (Py.basename (urlparse_path link)))
              EmptyString) as [E|]; [|reflexivity].
  apply sub_unsafe_empty in E. contradiction.
Qed.

(** [download_loinc.get_filename_from_url] raises, with the [IndexError]
    of [split('file=')[1]], exactly when the path of the URL has no last
    segment and the query mentions [file] without [file=]. *)
Theorem loinc_file_name_raises url default :
  Loinc.get_filename_from_url url default = None <->
  (Py.basename (urlparse_path url) = EmptyString
   \/ Py.basename (urlparse_path url) = "/")
  /\ Py.contains (urlparse_query url) "file" = true
  /\ Py.contains (urlparse_query url) "file=" = false.
Proof.
  unfold Loinc.get_filename_from_url.
  destruct (String.eqb_spec (Py.basename (urlparse_path url)) EmptyString) as [E1|E1];
  destruct (String.eqb_spec (Py.basename (urlparse_path url)) "/") as [E2|E2];
    simpl.
  4:{ split; [discriminate|]. intros [[?|?] _]; contradiction. }
  all: destruct (Py.contains (urlparse_query url) "file") eqn:Ef.
  all: try (split; [discriminate|intros (_ & ? & _); discriminate]).
  all: destruct (Py.contains (urlparse_query url) "file=") eqn:Eq.
  all: try (destruct (split_with "file=" _ ltac:(discriminate) Eq)
              as (a & b & rest & ->);
            split; [discriminate|intros (_ & _ & ?); discriminate]).
  all: rewrite (split_without "file=" _ ltac:(discriminate) Eq).
  all: split; [intros _|reflexivity]; repeat split; auto.
Qed.

(** A name [download_loinc.get_filename_from_url] returns, when the
    default name is not empty and has no slash, is not empty and has no
    slash, so that the file is written directly under the download
    directory. *)
Theorem loinc_file_names_stay_in_the_directory url default name :
  Loinc.get_filename_from_url url default = Some name ->
  default <> EmptyString ->
  Py.contains default "/" = false ->
  name <> EmptyString
  /\ Py.contains name "/" = false
  /\ Py.join Loinc.DOWNLOAD_DIR [name] = "loinc/" +:+ name.
Proof.
  intros E Hd Hs. unfold Loinc.get_filename_from_url in E.
  match type of E with
  | match ?x with _ => _ end = _ => destruct x as [f|]; [|discriminate]
  end.
  injection E as <-.
  assert (H : (if String.eqb (Re.sub_unsafe f) EmptyString then default
               else Re.sub_unsafe f) <> EmptyString
              /\ Py.contains (if String.eqb (Re.sub_unsafe f) EmptyString then default
                              else Re.sub_unsafe f) "/" = false).
  { destruct (String.eqb_spec (Re.sub_unsafe f) EmptyString); split;
      auto using sub_unsafe_no_slash. }
  destruct H as [H1 H2]. split; [exact H1|]. split; [exact H2|].
  apply (join_name "loinc"); [exact H2|discriminate|reflexivity].
Qed.

(** Whether [get_filename_from_url] raises does not depend on the default
    name. *)
Lemma loinc_filename_none_any url default default' :
  Loinc.get_filename_from_url url default = None ->
  Loinc.get_filename_from_url url default' = None.
Proof.
  unfold Loinc.get_filename_from_url.
  destruct (_ || _); [|discriminate].
  destruct (Py.contains _ _); [|discriminate].
  destruct (Py.split _ _) as [|a [|b rest]]; [reflexivity|reflexivity|discriminate].
Qed.

Lemma loinc_download_links_return links w :
  snd (Loinc.download_links links w) = Some tt.
Proof.
  revert w. induction links as [|l links IH]; intros w; [reflexivity|].
  cbn [Loinc.download_links]. unfold bind, Loinc.download_link.
  destruct (Loinc.is_download_path _) eqn:E; [|apply IH].
  rewrite (loinc_file_link_name l "file" E). apply IH.
Qed.
End Names.

(** ** The run of [download_loinc.py] *)

Section LoincMore.
Context {P : Platform}.

Lemma loinc_get_page_loop_advance n a retries url w :
  advance w (fst (Loinc.get_page_loop n a retries url w)).
Proof.
  revert a w. induction n as [|n IH]; intros a w; simpl; [apply advance_refl|].
  rewrite page_attempt. destruct (fetch _ _); simpl; [apply advance_emit|].
  destruct (_ <? _)%Z; [|apply advance_emit].
  eapply advance_trans; [apply advance_emit|].
  eapply advance_trans; [apply advance_sleep|apply IH].
Qed.

(** A page fetch by itself visits nothing. *)
Lemma loinc_get_page_advance url retries w :
  advance w (fst (Loinc.get_page url retries w)).
Proof.
  unfold Loinc.get_page.
  eapply advance_trans; [apply advance_emit|apply loinc_get_page_loop_advance].
Qed.

Lemma loinc_visit_get_page_advance url retries w :
  advance w (fst (Loinc.get_page url retries (visit url w))).
Proof.
  unfold Loinc.get_page.
  eapply advance_trans; [apply advance_visit_fetch|apply loinc_get_page_loop_advance].
Qed.

Lemma loinc_download_links_advance links : advance_eff (Loinc.download_links links).
Proof.
  induction links as [|l links IH]; simpl; [apply advance_ret|].
  apply advance_bind; [|intros; exact IH].
  unfold Loinc.download_link. destruct (Loinc.is_download_path _); [|apply advance_ret].
  destruct (Loinc.get_filename_from_url _ _); [|apply advance_raise].
  intros w. simpl.
  eapply advance_trans; [apply loinc_download_file_advance|apply advance_sleep].
Qed.

Lemma loinc_accept_terms_advance url : advance_eff (Loinc.accept_terms_and_download url).
Proof.
  intros w. unfold Loinc.accept_terms_and_download.
  pose proof (loinc_get_page_advance url 3 w) as G.
  destruct (Loinc.get_page url 3 w) as [w1 [r|]]; simpl in G; [|exact G].
  destruct (html_parser _) as [s|]; [|exact G].
  destruct (forms s) as [|a fs]; [exact G|].
  match goal with |- context [http_post ?u ?t w1] =>
    pose proof (advance_http_post u t w1) as Q;
    destruct (http_post u t w1) as [w2 [r2|]] end; simpl in *.
  - destruct (html_parser _); simpl; eapply advance_trans; eassumption.
  - eapply advance_trans; eassumption.
Qed.

Lemma loinc_login_advance w : advance w (fst (Loinc.login w)).
Proof.
  unfold Loinc.login.
  match goal with |- context [match ?m w with _ => _ end] =>
    assert (Q : advance_eff m);
      [|specialize (Q w); destruct (m w) as [w1 [b|]]; exact Q]
  end.
  apply advance_bind; [apply advance_http_get|intros page].
  apply advance_bind; [apply advance_raise_for_status|intros _].
  destruct (html_parser _); [|apply advance_raise].
  destruct (forms _); [apply advance_ret|].
  apply advance_bind; [apply advance_http_post|intros response].
  destruct (Loinc.login_succeeded _); [apply advance_ret|].
  apply advance_bind; [apply advance_os_call|intros _].
  apply advance_bind; [apply advance_os_call|intros _]. apply advance_ret.
Qed.

Lemma loinc_crawl_advance url : advance_eff (Loinc.crawl_download_page url).
Proof.
  intros w. unfold Loinc.crawl_download_page.
  destruct (decide _); [apply advance_refl|].
  pose proof (loinc_visit_get_page_advance url 3 w) as G.
  destruct (Loinc.get_page url 3 (visit url w)) as [w1 [r|]]; simpl in G; [|exact G].
  eapply advance_trans; [exact G|]. destruct (_ || _).
  - destruct (Loinc.get_filename_from_url _ _); simpl; [|apply advance_refl].
    apply loinc_download_file_advance.
  - destruct (html_parser _) as [s|]; simpl; [|apply advance_refl].
    match goal with |- advance w1 (fst (?m w1)) =>
      assert (Q : advance_eff m); [|apply Q] end.
    apply advance_bind; [intros w0; apply advance_refl|intros links].
    apply advance_bind; [apply loinc_download_links_advance|intros _].
    destruct (_ || _); [|apply advance_ret].
    apply advance_bind; [apply loinc_accept_terms_advance|intros].
    apply loinc_download_links_advance.
Qed.

Lemma loinc_crawl_additional_advance urls w :
  advance w (Loinc.crawl_additional urls w).
Proof.
  unfold Loinc.crawl_additional. revert w.
  induction urls as [|u urls IH]; intros w; simpl; [apply advance_refl|].
  eapply advance_trans; [|apply IH].
  pose proof (loinc_crawl_advance u w) as H.
  destruct (Loinc.crawl_download_page u w) as [w1 [[]|]]; simpl in H; [|exact H].
  eapply advance_trans; [exact H|apply advance_sleep].
Qed.

(** What [main] of [download_loinc.py] does is only this: it adds events
    to the log, it adds to the Visited Set URLs that it fetched as pages,
    and it adds to the Downloaded Set URLs that it requested as files. *)
Theorem loinc_main_advances w : advance w (fst (Loinc.main w)).
Proof.
  revert w. change (advance_eff Loinc.main). unfold Loinc.main.
  apply advance_bind; [apply advance_os_call|intros _].
  apply advance_bind.
  { intros w. simpl. eapply advance_trans; [apply loinc_login_advance|apply advance_sleep]. }
  intros _. apply advance_bind; [apply loinc_crawl_advance|intros _].
  apply advance_bind; [apply loinc_crawl_advance|intros _].
  intros w. apply loinc_crawl_additional_advance.
Qed.

(** What [login] of [download_loinc.py] does: it leaves both sets alone;
    it requests the login page once and submits the form at most once;
    when it returns [True] these two requests are all it did, and the
    debugging file [login_response.html] is opened only after a
    submission whose answer does not look like a success. *)
Theorem loinc_login_requests w :
  let w' := fst (Loinc.login w) in
  let get := HttpGet Loinc.LOGIN_URL 30 false in
  let post := HttpPost Loinc.LOGIN_URL 30 in
  VISITED_URLS w' = VISITED_URLS w
  /\ DOWNLOADED_FILES w' = DOWNLOADED_FILES w
  /\ (if snd (Loinc.login w) then log w' = log w ++ [get; post]
      else log w' = log w ++ [get]
           \/ log w' = log w ++ [get; post]
           \/ log w' = log w ++ [get; post; FileOpen "login_response.html"]
           \/ exists text,
                log w' = log w ++ [get; post; FileOpen "login_response.html";
                                   FileWrite "login_response.html" text]).
Proof.
  destruct (Loinc.login w) as [w' b] eqn:E. simpl. revert E.
  unfold Loinc.login.
  unfold http_get, http_post, raise_for_status, os_call, raise, ret.
  unfold bind. intros H. simpl in H. crack H; injection H as <- <-; simpl;
    rewrite <- ?app_assoc; simpl; eauto 10.
Qed.

(** Errors of [urllib.parse] on malformed URLs aside, which the model
    leaves out, [crawl_download_page] raises in two cases only.  In both
    the URL was not visited and [get_page] fetched it.  Either the URL
    was taken for a file and has no name: [get_filename_from_url] raises
    on it, whatever the default.  Or it was taken for a page that the
    parser could read, it is a download page, and the parser raises on
    the page that [accept_terms_and_download] fetched for the same URL
    after the links were downloaded.  In particular the loop that
    downloads the links never raises. *)
Theorem loinc_crawl_raises_only url w :
  snd (Loinc.crawl_download_page url w) = None ->
  (url ∉ VISITED_URLS w)
  /\ exists w1 response,
       Loinc.get_page url 3 (visit url w) = (w1, Some response)
       /\ ((loinc_served_as_file url response = true
            /\ forall default, Loinc.get_filename_from_url url default = None)
           \/ (loinc_served_as_file url response = false
               /\ Py.contains url "file-access"
                  || Py.contains (Py.lower url) "download" = true
               /\ exists s w3 page,
                    html_parser (body response) = Some s
                    /\ Loinc.get_page url 3
                         (fst (Loinc.download_links
                                 (Loinc.find_downloadable_links s url w1) w1))
                       = (w3, Some page)
                    /\ html_parser (body page) = None)).
Proof.
  unfold Loinc.crawl_download_page, loinc_served_as_file.
  destruct (decide _) as [|Hnew]; [discriminate|].
  destruct (Loinc.get_page url 3 (visit url w)) as [w1 [r|]]; [|discriminate].
  intros H. split; [exact Hnew|]. exists w1, r. split; [reflexivity|].
  destruct (_ || _).
  - left. split; [reflexivity|].
    destruct (Loinc.get_filename_from_url _ _) eqn:E; [discriminate|].
    intros default. eapply loinc_filename_none_any, E.
  - right. split; [reflexivity|].
    destruct (html_parser (body r)) as [s|]; [|discriminate].
    revert H. unfold bind. simpl.
    pose proof (loinc_download_links_return (Loinc.find_downloadable_links s url w1) w1) as R.
    destruct (Loinc.download_links _ w1) as [w2 [[]|]] eqn:E2; simpl in R; [|discriminate].
    destruct (_ || _) eqn:Et; [|discriminate]. intros H. split; [reflexivity|].
    exists s. rewrite E2. simpl.
    revert H. unfold Loinc.accept_terms_and_download. simpl.
    destruct (Loinc.get_page url 3 w2) as [w3 [r3|]].
    2:{ simpl. intros H.
        pose proof (loinc_download_links_return [] w3) as R3. congruence. }
    destruct (html_parser (body r3)) as [s3|] eqn:E3;
      [|intros _; exists w3, r3; simpl; auto].
    destruct (forms s3) as [|f3 fs3].
    { simpl. discriminate. }
    destruct (http_post _ _ w3) as [w4 [r4|]].
    2:{ simpl. discriminate. }
    destruct (html_parser (body r4)) as [s4|]; simpl; intros H.
    + pose proof (loinc_download_links_return
                    (Loinc.find_downloadable_links s4 Loinc.BASE_URL w4) w4) as R4.
      congruence.
    + discriminate.
Qed.

(** The two cases in which [crawl_download_page] raises: the exception
    of [get_filename_from_url] on a URL taken for a file, and that of
    the parser on the page [accept_terms_and_download] fetched, are not
    caught. *)
Theorem loinc_crawl_raises_when url w w1 response :
  url ∉ VISITED_URLS w ->
  Loinc.get_page url 3 (visit url w) = (w1, Some response) ->
  (loinc_served_as_file url response = true ->
   forall default,
     Loinc.get_filename_from_url url default = None ->
     snd (Loinc.crawl_download_page url w) = None)
  /\ (loinc_served_as_file url response = false ->
      Py.contains url "file-access" || Py.contains (Py.lower url) "download" = true ->
      forall s w3 page,
        html_parser (body response) = Some s ->
        Loinc.get_page url 3
          (fst (Loinc.download_links (Loinc.find_downloadable_links s url w1) w1))
        = (w3, Some page) ->
        html_parser (body page) = None ->
        snd (Loinc.crawl_download_page url w) = None).
Proof.
  intros Hnew Hget. unfold Loinc.crawl_download_page, loinc_served_as_file.
  destruct (decide _) as [|_]; [contradiction|]. rewrite Hget. split.
  - intros -> default E.
    rewrite (loinc_filename_none_any _ _ _ E). reflexivity.
  - intros -> Ht s w3 page Hs Hg Hp. rewrite Hs. unfold bind. simpl.
    pose proof (loinc_download_links_return (Loinc.find_downloadable_links s url w1) w1) as R.
    destruct (Loinc.download_links _ w1) as [w2 [[]|]]; simpl in *; [|discriminate].
    rewrite Ht. unfold Loinc.accept_terms_and_download. rewrite Hg, Hp. reflexivity.
Qed.

End LoincMore.

(** ** The run of [download_all_loinc.py] *)

Section Within.
Context {P : Platform}.
Variable allowed : event -> bool.

Lemma within_refl w : within allowed w w.
Proof.
  split; [reflexivity|]. split; [reflexivity|].
  exists []. rewrite app_nil_r. split; reflexivity.
Qed.

Lemma within_trans w1 w2 w3 :
  within allowed w1 w2 -> within allowed w2 w3 -> within allowed w1 w3.
Proof.
  intros (V1 & D1 & l1 & L1 & A1) (V2 & D2 & l2 & L2 & A2).
  split; [congruence|]. split; [congruence|].
  exists (l1 ++ l2). rewrite L2, L1, <- app_assoc, forallb_app, A1, A2.
  split; reflexivity.
Qed.

Lemma within_emit e w : allowed e = true -> within allowed w (emit e w).
Proof.
  intros He. split; [reflexivity|]. split; [reflexivity|].
  exists [e]. simpl. rewrite He. split; reflexivity.
Qed.

Lemma within_ret {A} (a : A) : within_eff allowed (ret a).
Proof. intros w. apply within_refl. Qed.


Lemma within_bind {A B} (m : eff A) (k : A -> eff B) :
  within_eff allowed m -> (forall a, within_eff allowed (k a)) ->
  within_eff allowed (bind m k).
Proof.
  intros Hm Hk w. unfold bind. specialize (Hm w).
  destruct (m w) as [w1 [a|]]; simpl in *; [|assumption].
  eapply within_trans; [exact Hm|apply Hk].
Qed.




Lemma within_os_call e : allowed e = true -> within_eff allowed (os_call e).
Proof. intros He w. apply within_emit, He. Qed.


Lemma within_write_all path cs :
  (forall c, allowed (FileWrite path c) = true) ->
  within_eff allowed (write_all path cs).
Proof.
  intros He. induction cs as [|c cs IH]; simpl; [apply within_ret|].
  apply within_bind; [apply within_os_call, He|intros; exact IH].
Qed.

(** A block of code whose exceptions are caught. *)
Lemma within_caught {A B} (m : eff A) (f : option A -> B) w :
  within_eff allowed m ->
  within allowed w (fst (let (w1, o) := m w in (w1, f o))).
Proof. intros Hm. specialize (Hm w). destruct (m w). exact Hm. Qed.

End Within.

Section AllLoincOnce.
Context {P : Platform}.
Variable anchor_text : soup -> nat -> string.
















End AllLoincOnce.

(** ** File names: the three scripts *)

Section AllLoincNames.
Context {P : Platform}.

Lemma opened_app l1 l2 : opened (l1 ++ l2) = opened l1 ++ opened l2.
Proof.
  induction l1 as [|e l1 IH]; simpl; [reflexivity|].
  destruct e; simpl; rewrite ?IH; reflexivity.
Qed.

Lemma no_file_open_nil l : forallb no_file_open l = true -> opened l = [].
Proof.
  induction l as [|e l IH]; [reflexivity|]. simpl. intros H.
  apply andb_true_iff in H as [He Hl].
  destruct e; try discriminate; auto.
Qed.

(** [download_file] of [download_all_loinc.py] opens no file but the one
    named by the name it was given, or by the last segment of the URL,
    taken as it is. *)
Lemma all_loinc_download_file_opens url filename w :
  exists l,
    log (fst (AllLoinc.download_file url filename w)) = log w ++ l
    /\ forall p, p ∈ opened l ->
         p = Py.join AllLoinc.DOWNLOAD_DIR
               [match filename with
                | Some name => name
                | None =>
                    let name := Py.basename (hd EmptyString (Py.split url "?")) in
                    if String.eqb name EmptyString || String.eqb name "/"
                    then "file_" +:+ pretty (time_now (length (log w)))
                    else name
                end].
Proof.
  destruct (AllLoinc.download_file url filename w) as [w' b] eqn:H. simpl.
  revert H. unfold AllLoinc.download_file.
  set (path := Py.join AllLoinc.DOWNLOAD_DIR _).
  destruct (path_exists _ _).
  { intros H. injection H as <- _. exists []. rewrite app_nil_r.
    split; [reflexivity|]. intros p Hp. apply elem_of_nil in Hp. contradiction. }
  unfold content, http_get, raise_for_status, os_call, raise, ret.
  unfold bind. intros H. simpl in H. crack H; injection H as <- _.
  all: repeat match goal with
  | E : write_all ?p ?cs ?w0 = (_, _) |- _ =>
      let Q := fresh "Q" in
      pose proof (within_write_all no_file_open p cs (fun _ => eq_refl) w0) as Q;
      rewrite E in Q; clear E; simpl in Q;
      destruct Q as (_ & _ & ? & Q & ?%no_file_open_nil)
  end.
  all: simpl; rewrite ?Q; simpl; rewrite <- ?app_assoc; simpl;
    eexists; (split; [reflexivity|]); simpl; rewrite ?opened_app; simpl;
    try match goal with H : opened _ = [] |- _ => rewrite H end; simpl;
    intros p Hp;
    repeat (apply elem_of_cons in Hp as [Hp|Hp]; [exact Hp|]);
    apply elem_of_nil in Hp; contradiction.
Qed.

End AllLoincNames.

(** C9, as the code has it.  In [crawl_cms_hcpcs.py] and
    [download_loinc.py] the file name is cleaned with the pattern
    [[^\w\.-]], and [\w] on a [str] accepts the letters and digits of every
    script: every character of the name [get_filename_from_url] returns is
    one of [A-Za-z0-9._-] or a letter or digit beyond ASCII, which is
    kept; when the name that is cleaned is ASCII, every character of the
    result is one of [A-Za-z0-9._-].  In [download_loinc.py] the default
    name is returned as it is when the cleaned name is empty, so the same
    is asked of it.  [download_all_loinc.py] cleans nothing: the only file
    [download_file] opens is the one named by the name it was given or,
    without one, by the last segment of the URL, as it is. *)
Theorem C9_file_names_are_cleaned (P : Platform) :
  (forall url default c,
      c ∈ chars (Cms.get_filename_from_url url default) -> sound_char c)
  /\ (forall url default name c,
        Loinc.get_filename_from_url url default = Some name ->
        (forall d, d ∈ chars default -> sound_char d) ->
        c ∈ chars name -> sound_char c)
  /\ (forall s,
        (forall c, c ∈ chars s -> (N_of_ascii c < 128)%N) ->
        forall c, c ∈ chars (Re.sub_unsafe s) -> safe_char c = true)
  /\ (forall url filename w,
        exists l,
          log (fst (AllLoinc.download_file url filename w)) = log w ++ l
          /\ forall p, p ∈ opened l ->
               p = Py.join AllLoinc.DOWNLOAD_DIR
                     [match filename with
                      | Some name => name
                      | None =>
                          let name :=
                            Py.basename (hd EmptyString (Py.split url "?")) in
                          if String.eqb name EmptyString || String.eqb name "/"
                          then "file_" +:+ pretty (time_now (length (log w)))
                          else name
                      end]).
Proof.
  split; [|split; [|split]].
  - intros url default c. apply sub_unsafe_sound.
  - intros url default name c E Hd. unfold Loinc.get_filename_from_url in E.
    match type of E with
    | match ?x with _ => _ end = _ => destruct x as [f|]; [|discriminate]
    end.
    injection E as <-. destruct (String.eqb _ _); [apply Hd|apply sub_unsafe_sound].
  - apply sub_unsafe_ascii.
  - apply all_loinc_download_file_opens.
Qed.

(** An instance of C9: the name of an archive with a space in it, and the
    character that stands for the space. *)
Lemma C9_file_names_are_cleaned_witness :
  Re.sub_unsafe "HCPCS 2024.zip" = "HCPCS_2024.zip"
  /\ safe_char "_" = true.
Proof.
  split; [reflexivity|].
  apply (proj1 (proj2 (proj2 (C9_file_names_are_cleaned Demo.blank))) "HCPCS 2024.zip").
  - intros c Hc. apply list_elem_of_In in Hc. vm_compute in Hc.
    repeat (destruct Hc as [<-|Hc]; [vm_compute; reflexivity|]). contradiction.
  - apply list_elem_of_In. vm_compute. do 5 right. left. reflexivity.
Defined.

(** C9 as stated fails: a file name with an accented letter keeps it, and
    that letter is not one of [A-Za-z0-9._-]; and [download_all_loinc.py]
    writes an archive under its name as the URL has it, space and
    brackets included. *)
Lemma C9_accented_letter_is_kept :
  Cms.get_filename_from_url (P := Demo.blank) Demo.accented "file"
  = "r" +:+ String "233" "sum" +:+ String "233" ".pdf"
  /\ "233"%char ∈ chars (Cms.get_filename_from_url (P := Demo.blank) Demo.accented "file")
  /\ safe_char "233" = false
  /\ opened (log (fst (AllLoinc.download_file (P := Sample.archives)
                         Sample.spaced None start)))
     = ["loinc/My File (1).zip"]
  /\ safe_char " " = false.
Proof.
  split; [vm_compute; reflexivity|]. split; [|split; [reflexivity|]].
  - apply list_elem_of_In. vm_compute. right. left. reflexivity.
  - split; vm_compute; reflexivity.
Qed.

(** ** The links of a page *)

Section Links.
Context {P : Platform}.

(** The links [find_downloadable_links] of [crawl_cms_hcpcs.py] returns
    are the targets of the anchors of the page whose path ends in one of
    the download extensions, or has one of the keywords while the target
    is not in the Visited Set, and nothing else; no link is returned
    twice. *)
Theorem cms_links_are_the_matching_anchors s base w :
  NoDup (Cms.find_downloadable_links s base w)
  /\ forall u,
       u ∈ Cms.find_downloadable_links s base w <->
       exists href,
         href ∈ anchors s
         /\ u = urljoin base href
         /\ (Cms.is_download_path (Py.lower (urlparse_path u)) = true
             \/ (Cms.has_keyword (Py.lower (urlparse_path u)) = true
                 /\ u ∉ VISITED_URLS w)).
Proof.
  split; [unfold Cms.find_downloadable_links, list_set; apply NoDup_elements|]. intros u.
  unfold Cms.find_downloadable_links.
  rewrite elem_of_list_set, cms_text_links_nil, app_nil_r, list_elem_of_In, in_flat_map.
  split.
  - intros (href & Hin & Hu). exists href. split; [apply list_elem_of_In, Hin|].
    unfold Cms.anchor_links in Hu. apply in_app_or in Hu as [Hu|Hu].
    + destruct (Cms.is_download_path _) eqn:E; [|contradiction].
      destruct Hu as [<-|[]]. auto.
    + destruct (Cms.has_keyword _) eqn:E; [|contradiction].
      destruct (decide _); [contradiction|]. destruct Hu as [<-|[]]. auto.
  - intros (href & Hin & -> & H). exists href. split; [apply list_elem_of_In, Hin|].
    unfold Cms.anchor_links. apply in_or_app. destruct H as [H|[H Hn]].
    + left. rewrite H. left. reflexivity.
    + right. rewrite H. destruct (decide _); [contradiction|]. left. reflexivity.
Qed.

(** The links [find_downloadable_links] of [download_loinc.py] returns are
    the targets of the anchors with a non-empty [href] whose path ends in
    one of the download extensions, or has one of the keywords while the
    target is not in the Visited Set, together with the targets of the
    forms with a non-empty [action] whose target has [download] in it,
    and nothing else; no link is returned twice. *)
Theorem loinc_links_are_the_matching_anchors_and_forms s base w :
  NoDup (Loinc.find_downloadable_links s base w)
  /\ forall u,
       u ∈ Loinc.find_downloadable_links s base w <->
       (exists href,
          href ∈ anchors s
          /\ href <> EmptyString
          /\ u = urljoin base href
          /\ (Loinc.is_download_path (Py.lower (urlparse_path u)) = true
              \/ (Loinc.has_keyword (Py.lower (urlparse_path u)) = true
                  /\ u ∉ VISITED_URLS w)))
       \/ (exists action,
             action ∈ forms s
             /\ action <> EmptyString
             /\ u = urljoin base action
             /\ Py.contains (Py.lower u) "download" = true).
Proof.
  split; [unfold Loinc.find_downloadable_links, list_set; apply NoDup_elements|]. intros u.
  unfold Loinc.find_downloadable_links.
  rewrite elem_of_list_set, loinc_text_links_nil, app_nil_l, elem_of_app,
    !list_elem_of_In, !in_flat_map.
  split.
  - intros [(href & Hin & Hu)|(action & Hin & Hu)]; [left|right].
    + exists href. split; [apply list_elem_of_In, Hin|].
      unfold Loinc.anchor_links in Hu.
      destruct (String.eqb_spec href EmptyString); [contradiction|].
      split; [assumption|]. apply in_app_or in Hu as [Hu|Hu].
      * destruct (Loinc.is_download_path _) eqn:E; [|contradiction].
        destruct Hu as [<-|[]]. auto.
      * destruct (Loinc.has_keyword _) eqn:E; [|contradiction].
        destruct (decide _); [contradiction|]. destruct Hu as [<-|[]]. auto.
    + exists action. split; [apply list_elem_of_In, Hin|].
      unfold Loinc.form_links in Hu.
      destruct (String.eqb_spec action EmptyString); [contradiction|].
      split; [assumption|].
      destruct (Py.contains _ _) eqn:E; [|contradiction].
      destruct Hu as [<-|[]]. auto.
  - intros [(href & Hin & Hne & -> & H)|(action & Hin & Hne & -> & H)]; [left|right].
    + exists href. split; [apply list_elem_of_In, Hin|].
      unfold Loinc.anchor_links.
      destruct (String.eqb_spec href EmptyString); [contradiction|].
      apply in_or_app. destruct H as [H|[H Hn]].
      * left. rewrite H. left. reflexivity.
      * right. rewrite H. destruct (decide _); [contradiction|]. left. reflexivity.
    + exists action. split; [apply list_elem_of_In, Hin|].
      unfold Loinc.form_links.
      destruct (String.eqb_spec action EmptyString); [contradiction|].
      rewrite H. left. reflexivity.
Qed.

End Links.

(** ** The table of [convert_icd10_to_csv.py] *)

Section IcdStrings.

(** *** Reversal and stripping *)

Lemma append_nil_l b : EmptyString +:+ b = b.
Proof. reflexivity. Qed.

Lemma append_cons c a b : String c a +:+ b = String c (a +:+ b).
Proof. reflexivity. Qed.

Lemma string_app_nil s : s +:+ EmptyString = s.
Proof.
  induction s as [|c r IH]; [reflexivity|]. rewrite append_cons, IH. reflexivity.
Qed.

Lemma string_app_assoc a b c : (a +:+ b) +:+ c = a +:+ (b +:+ c).
Proof.
  induction a as [|x a IH]; [reflexivity|]. rewrite !append_cons, IH. reflexivity.
Qed.

Lemma rev_app_spec s acc : String.rev_app s acc = String.rev s +:+ acc.
Proof.
  unfold String.rev. revert acc. induction s as [|c r IH]; intros acc; simpl; [reflexivity|].
  rewrite IH, (IH (String c EmptyString)), string_app_assoc. reflexivity.
Qed.

Lemma rev_cons c r : String.rev (String c r) = String.rev r +:+ String c EmptyString.
Proof. unfold String.rev at 1. simpl. apply rev_app_spec. Qed.

Lemma rev_append a b : String.rev (a +:+ b) = String.rev b +:+ String.rev a.
Proof.
  induction a as [|x a IH].
  - rewrite append_nil_l. symmetry. apply string_app_nil.
  - rewrite append_cons, !rev_cons, IH. apply string_app_assoc.
Qed.

Lemma rev_rev s : String.rev (String.rev s) = s.
Proof.
  induction s as [|c r IH]; [reflexivity|].
  rewrite rev_cons, rev_append, IH. reflexivity.
Qed.

Lemma length_append a b :
  String.length (a +:+ b) = String.length a + String.length b.
Proof.
  induction a as [|x a IH]; [reflexivity|].
  rewrite append_cons. simpl. rewrite IH. reflexivity.
Qed.

Lemma rev_length s : String.length (String.rev s) = String.length s.
Proof.
  induction s as [|c r IH]; [reflexivity|].
  rewrite rev_cons, length_append, IH. simpl. lia.
Qed.

Lemma chars_append a b :
  list_ascii_of_string (a +:+ b) = list_ascii_of_string a ++ list_ascii_of_string b.
Proof.
  induction a as [|x a IH]; [reflexivity|].
  rewrite append_cons. simpl. rewrite IH. reflexivity.
Qed.

Lemma rev_chars s :
  list_ascii_of_string (String.rev s) = rev (list_ascii_of_string s).
Proof.
  induction s as [|c r IH]; [reflexivity|].
  rewrite rev_cons, chars_append, IH. reflexivity.
Qed.

Lemma lstrip_length s : String.length (Icd10.lstrip s) <= String.length s.
Proof.
  induction s as [|c r IH]; simpl; [lia|].
  destruct (Re.space_char c); simpl; lia.
Qed.

Lemma lstrip_head s c r : Icd10.lstrip s = String c r -> Re.space_char c = false.
Proof.
  induction s as [|x s IH]; simpl; [discriminate|].
  destruct (Re.space_char x) eqn:E; [exact IH|].
  intros H. injection H as <- _. exact E.
Qed.

Lemma lstrip_fixed c r : Re.space_char c = false -> Icd10.lstrip (String c r) = String c r.
Proof. intros H. simpl. rewrite H. reflexivity. Qed.

Lemma lstrip_lstrip s : Icd10.lstrip (Icd10.lstrip s) = Icd10.lstrip s.
Proof.
  destruct (Icd10.lstrip s) as [|c r] eqn:E; [reflexivity|].
  apply lstrip_fixed, (lstrip_head _ _ _ E).
Qed.

Lemma lstrip_chars s c :
  In c (list_ascii_of_string (Icd10.lstrip s)) -> In c (list_ascii_of_string s).
Proof.
  induction s as [|x s IH]; simpl; [tauto|].
  destruct (Re.space_char x); simpl; tauto.
Qed.

(** Stripping the left end of [a +:+ b] when [a] is not all white space. *)
Lemma lstrip_append a b :
  Icd10.lstrip a <> EmptyString -> Icd10.lstrip (a +:+ b) = Icd10.lstrip a +:+ b.
Proof.
  induction a as [|x a IH]; simpl; [congruence|].
  destruct (Re.space_char x); [exact IH|reflexivity].
Qed.

(** ... and when it is. *)
Lemma lstrip_blank a b :
  Icd10.lstrip a = EmptyString -> Icd10.lstrip (a +:+ b) = Icd10.lstrip b.
Proof.
  induction a as [|x a IH]; simpl; [reflexivity|].
  destruct (Re.space_char x); [exact IH|discriminate].
Qed.

Lemma blank_append a b :
  Icd10.lstrip (a +:+ b) = EmptyString <->
  Icd10.lstrip a = EmptyString /\ Icd10.lstrip b = EmptyString.
Proof.
  induction a as [|x a IH]; simpl; [tauto|].
  destruct (Re.space_char x); [exact IH|].
  split; [discriminate|intros [H _]; discriminate H].
Qed.

Lemma blank_rev s :
  Icd10.lstrip (String.rev s) = EmptyString <-> Icd10.lstrip s = EmptyString.
Proof.
  induction s as [|c r IH]; [reflexivity|].
  rewrite rev_cons, blank_append, IH. simpl.
  destruct (Re.space_char c); [tauto|].
  split; [intros [_ H]; discriminate H|discriminate].
Qed.

Lemma rstrip_length s : String.length (Icd10.rstrip s) <= String.length s.
Proof.
  unfold Icd10.rstrip. rewrite rev_length.
  etransitivity; [apply lstrip_length|]. rewrite rev_length. reflexivity.
Qed.

Lemma rstrip_rstrip s : Icd10.rstrip (Icd10.rstrip s) = Icd10.rstrip s.
Proof. unfold Icd10.rstrip. rewrite rev_rev, lstrip_lstrip. reflexivity. Qed.

Lemma append_not_empty a c b : a +:+ String c b <> EmptyString.
Proof. destruct a; discriminate. Qed.

Lemma lstrip_last a c :
  Re.space_char c = false ->
  exists u, Icd10.lstrip (a +:+ String c EmptyString) = u +:+ String c EmptyString.
Proof.
  intros H. induction a as [|x a IH]; simpl.
  - rewrite H. exists EmptyString. reflexivity.
  - destruct (Re.space_char x); [exact IH|].
    exists (String x a). reflexivity.
Qed.

(** Stripping the right end keeps a first character that is no white
    space. *)
Lemma rstrip_head c r :
  Re.space_char c = false -> exists r', Icd10.rstrip (String c r) = String c r'.
Proof.
  intros H. unfold Icd10.rstrip. rewrite rev_cons.
  destruct (lstrip_last (String.rev r) c H) as [u ->].
  rewrite rev_append. simpl. eauto.
Qed.

Lemma strip_empty s : Icd10.strip s = EmptyString <-> Icd10.lstrip s = EmptyString.
Proof.
  unfold Icd10.strip. destruct (Icd10.lstrip s) as [|c r] eqn:E; [tauto|].
  destruct (rstrip_head c r (lstrip_head _ _ _ E)) as [r' ->].
  split; discriminate.
Qed.

Lemma strip_lstrip s : Icd10.lstrip (Icd10.strip s) = Icd10.strip s.
Proof.
  unfold Icd10.strip. destruct (Icd10.lstrip s) as [|c r] eqn:E; [reflexivity|].
  destruct (rstrip_head c r (lstrip_head _ _ _ E)) as [r' ->].
  apply lstrip_fixed, (lstrip_head _ _ _ E).
Qed.

Lemma strip_strip s : Icd10.strip (Icd10.strip s) = Icd10.strip s.
Proof.
  unfold Icd10.strip at 1. rewrite strip_lstrip. unfold Icd10.strip.
  apply rstrip_rstrip.
Qed.

Lemma strip_chars s c :
  In c (list_ascii_of_string (Icd10.strip s)) -> In c (list_ascii_of_string s).
Proof.
  unfold Icd10.strip, Icd10.rstrip. rewrite rev_chars, <- in_rev. intros H.
  apply lstrip_chars in H. rewrite rev_chars, <- in_rev in H.
  apply lstrip_chars, H.
Qed.

(** A string stripped at its right end has no white-space tail. *)
Lemma rstrip_tail pre s :
  Icd10.rstrip (pre +:+ s) = pre +:+ s -> s <> EmptyString ->
  Icd10.lstrip s <> EmptyString.
Proof.
  intros Hfix Hne Hblank. apply (f_equal String.length) in Hfix.
  unfold Icd10.rstrip in Hfix.
  rewrite rev_append, lstrip_blank in Hfix by (apply blank_rev, Hblank).
  pose proof (rstrip_length pre) as Hl. unfold Icd10.rstrip in Hl.
  rewrite length_append in Hfix.
  destruct s; [congruence|]. simpl in Hfix. lia.
Qed.

Lemma strip_rstrip s : Icd10.rstrip (Icd10.strip s) = Icd10.strip s.
Proof. apply rstrip_rstrip. Qed.

End IcdStrings.

Section IcdPages.

(** *** Pages are read one by one *)

Lemma save_prefix cc cd codes :
  Icd10.save cc cd codes = codes ++ Icd10.save cc cd [].
Proof.
  unfold Icd10.save. destruct cc as [c|]; [|rewrite app_nil_r; reflexivity].
  destruct (Icd10.truthy _); [|rewrite app_nil_r; reflexivity].
  destruct (String.eqb _ _); [rewrite app_nil_r|]; reflexivity.
Qed.

Lemma read_line_prefix codes cc cd line :
  Icd10.read_line (codes, cc, cd) line =
  let '(more, cc', cd') := Icd10.read_line ([], cc, cd) line in
  (codes ++ more, cc', cd').
Proof.
  unfold Icd10.read_line.
  destruct (String.eqb _ _); [rewrite app_nil_r; reflexivity|].
  destruct (Icd10.code_match _) as [[c d]|].
  - rewrite save_prefix. reflexivity.
  - destruct (Icd10.truthy cc); rewrite app_nil_r; reflexivity.
Qed.

Lemma read_lines_prefix lines codes cc cd :
  fold_left Icd10.read_line lines (codes, cc, cd) =
  let '(more, cc', cd') := fold_left Icd10.read_line lines ([], cc, cd) in
  (codes ++ more, cc', cd').
Proof.
  revert codes cc cd. induction lines as [|line lines IH]; intros codes cc cd;
    cbn [fold_left].
  - rewrite app_nil_r. reflexivity.
  - rewrite read_line_prefix.
    destruct (Icd10.read_line ([], cc, cd) line) as [[more cc1] cd1].
    rewrite IH, (IH more).
    destruct (fold_left Icd10.read_line lines ([], cc1, cd1)) as [[more' cc2] cd2].
    rewrite app_assoc. reflexivity.
Qed.

Lemma read_page_prefix codes text :
  Icd10.read_page codes text = codes ++ Icd10.read_page [] text.
Proof.
  unfold Icd10.read_page. destruct text as [t|]; [|rewrite app_nil_r; reflexivity].
  destruct (String.eqb t EmptyString); [rewrite app_nil_r; reflexivity|].
  rewrite read_lines_prefix.
  destruct (fold_left Icd10.read_line _ ([], None, [])) as [[more cc] cd].
  rewrite save_prefix, (save_prefix _ _ more), app_assoc. reflexivity.
Qed.

Lemma read_pages_prefix pages codes :
  fold_left Icd10.read_page pages codes =
  codes ++ Icd10.extract_icd10_codes pages.
Proof.
  unfold Icd10.extract_icd10_codes.
  revert codes. induction pages as [|p pages IH]; intros codes; cbn [fold_left].
  - rewrite app_nil_r. reflexivity.
  - rewrite IH, (IH (Icd10.read_page [] p)), read_page_prefix, app_assoc. reflexivity.
Qed.

Lemma extract_pages p pages :
  Icd10.extract_icd10_codes (p :: pages) =
  Icd10.read_page [] p ++ Icd10.extract_icd10_codes pages.
Proof. unfold Icd10.extract_icd10_codes at 1. cbn [fold_left]. apply read_pages_prefix. Qed.

(** *** The match of the pattern *)

Lemma digits_spec s ds r :
  Icd10.digits s = (ds, r) -> s = ds +:+ r /\ all_digits ds = true.
Proof.
  revert ds r. induction s as [|c s IH]; intros ds r; simpl.
  - intros E. injection E as <- <-. auto.
  - destruct (Icd10.digit_char c) eqn:Ec.
    + destruct (Icd10.digits s) as [ds' r']. intros E. injection E as <- <-.
      destruct (IH _ _ eq_refl) as [-> Hd]. split; [reflexivity|].
      unfold all_digits. simpl. rewrite Ec. exact Hd.
    + intros E. injection E as <- <-. auto.
Qed.

Lemma line_run_single s : single_line (Icd10.line_run s).
Proof.
  unfold single_line. induction s as [|c s IH]; simpl; [tauto|].
  destruct (Ascii.eqb_spec c "010"); simpl; [tauto|].
  intros [H|H]; [congruence|tauto].
Qed.

Lemma match_spaces_run s g :
  Icd10.match_spaces s = Some g -> exists s', g = Icd10.line_run s'.
Proof.
  revert g. induction s as [|c s IH]; intros g; simpl; [discriminate|].
  assert ((if Ascii.eqb c "010" then None
           else Some (if Ascii.eqb c "010" then EmptyString
                      else String c (Icd10.line_run s))) = Some g ->
          exists s', g = Icd10.line_run s') as Hhere.
  { destruct (Ascii.eqb c "010") eqn:E; [discriminate|].
    intros H. injection H as <-. exists (String c s). simpl. rewrite E. reflexivity. }
  destruct (Re.space_char c); [|exact Hhere].
  destruct (Icd10.match_spaces s) as [g'|]; [|exact Hhere].
  intros H. injection H as <-. apply IH. reflexivity.
Qed.

Lemma space_newline : Re.space_char "010" = true.
Proof. reflexivity. Qed.

(** Before text that is not all white space, [\s+] takes all the white
    space there is and the group starts at the first other character. *)
Lemma match_spaces_text s :
  Icd10.lstrip s <> EmptyString ->
  exists c r, Icd10.match_spaces s = Some (String c r) /\ Re.space_char c = false.
Proof.
  induction s as [|c s IH]; simpl; [congruence|].
  destruct (Re.space_char c) eqn:Ec.
  - intros H. destruct (IH H) as (x & r & -> & Hx). eauto.
  - intros _. destruct (Ascii.eqb_spec c "010") as [->|_]; [discriminate Ec|]. eauto.
Qed.

Lemma after_code_text pre s g :
  Icd10.rstrip (pre +:+ s) = pre +:+ s ->
  Icd10.after_code s = Some g ->
  single_line g /\ Icd10.lstrip g <> EmptyString.
Proof.
  intros Hfix. unfold Icd10.after_code. destruct s as [|c s]; [discriminate|].
  destruct (Re.space_char c) eqn:Ec; [|discriminate]. intros Hg. split.
  - destruct (match_spaces_run _ _ Hg) as [s' ->]. apply line_run_single.
  - pose proof (rstrip_tail pre (String c s) Hfix) as Ht. simpl in Ht. rewrite Ec in Ht.
    destruct (match_spaces_text s) as (x & r & E & Hx); [apply Ht; discriminate|].
    rewrite E in Hg. injection Hg as <-. simpl. rewrite Hx. discriminate.
Qed.

Lemma code_match_spec line c g :
  Icd10.rstrip line = line ->
  Icd10.code_match line = Some (c, g) ->
  code_shape c = true /\ single_line g /\ Icd10.lstrip g <> EmptyString.
Proof.
  intros Hfix. unfold Icd10.code_match.
  destruct line as [|a [|b [|d rest]]]; try discriminate.
  destruct (Icd10.upper_char a && Icd10.digit_char b && Icd10.digit_char d) eqn:Eh;
    [|discriminate].
  assert (option_map (fun g => (String a (String b (String d EmptyString)), g))
            (Icd10.after_code rest) = Some (c, g) ->
          code_shape c = true /\ single_line g /\ Icd10.lstrip g <> EmptyString) as Hplain.
  { destruct (Icd10.after_code rest) as [g'|] eqn:Eg; [|discriminate].
    intros H. injection H as <- <-. split; [simpl; rewrite Eh; reflexivity|].
    apply (after_code_text (String a (String b (String d EmptyString))) rest); assumption. }
  destruct rest as [|x r]; [exact Hplain|].
  destruct (Ascii.eqb_spec x ".") as [->|Hx].
  - destruct (Icd10.digits r) as [ds r'] eqn:Ed.
    destruct (digits_spec _ _ _ Ed) as [-> Hds].
    destruct (String.eqb_spec ds EmptyString) as [->|Hne]; [exact Hplain|].
    destruct (Icd10.after_code r') as [g'|] eqn:Eg; [|exact Hplain].
    intros H. injection H as <- <-. split.
    + simpl. rewrite Eh. cbn [String.append]. destruct ds; [congruence|].
      simpl. exact Hds.
    + apply (after_code_text
               (String a (String b (String d (String "." ds)))) r'); [|assumption].
      exact Hfix.
  - replace (match x with "."%char => _ | _ => None end) with (@None (string * string)).
    + exact Hplain.
    + destruct x as [[] [] [] [] [] [] [] []]; try reflexivity. congruence.
Qed.

Lemma code_match_empty : Icd10.code_match EmptyString = None.
Proof. reflexivity. Qed.

End IcdPages.

Section IcdRows.

Lemma split_newline_single s :
  Forall single_line (Py.split s (String "010" EmptyString)).
Proof.
  unfold Py.split. induction s as [|c s IH]; cbn [Py.split_go].
  - constructor; [|constructor]. unfold single_line. simpl. tauto.
  - destruct (String.prefix (String "010" EmptyString) (String c s)) eqn:Ep.
    + constructor; [unfold single_line; simpl; tauto|exact IH].
    + assert (single_line (String c EmptyString)) as Hc.
      { unfold single_line. simpl. intros [->|[]].
        simpl in Ep. destruct s; discriminate Ep. }
      destruct (Py.split_go _ 0 s) as [|h t].
      * constructor; [exact Hc|constructor].
      * inversion IH as [|? ? Hh Ht]; subst. constructor; [|exact Ht].
        unfold single_line in *. simpl. simpl in Hc. tauto.
Qed.

Lemma concat_single l :
  Forall single_line l -> single_line (String.concat " " l).
Proof.
  induction 1 as [|x l Hx Hl IH]; [unfold single_line; simpl; tauto|].
  destruct l as [|y l]; [exact Hx|].
  change (single_line (x +:+ " " +:+ String.concat " " (y :: l))).
  unfold single_line in *. rewrite !chars_append, !in_app_iff. simpl.
  intros [H|[[H|[]]|H]]; [tauto|discriminate H|tauto].
Qed.

Lemma strip_single s : single_line s -> single_line (Icd10.strip s).
Proof. unfold single_line. intros H Hin. apply H, strip_chars, Hin. Qed.

Lemma save_sound codes cc cd :
  sound_state (codes, cc, cd) -> Forall well_formed (Icd10.save cc cd codes).
Proof.
  intros (Hc & Hcc & Hcd). unfold Icd10.save. destruct cc as [c|]; [|exact Hc].
  destruct (Icd10.truthy _); [|exact Hc].
  destruct (String.eqb_spec (Icd10.strip (String.concat " " cd)) EmptyString) as [|Hne];
    [exact Hc|].
  apply Forall_app. split; [exact Hc|]. constructor; [|constructor].
  repeat split; simpl.
  - apply Hcc. reflexivity.
  - exact Hne.
  - apply strip_strip.
  - apply strip_single, concat_single, Hcd.
Qed.

Lemma read_line_sound st line :
  single_line line -> sound_state st -> sound_state (Icd10.read_line st line).
Proof.
  destruct st as [[codes cc] cd]. intros Hl Hs. unfold Icd10.read_line.
  destruct (String.eqb _ _); [exact Hs|].
  destruct (Icd10.code_match _) as [[c d]|] eqn:Em.
  - destruct (code_match_spec _ _ _ (strip_rstrip line) Em) as (Hc & Hd & _).
    split; [apply save_sound, Hs|]. split.
    + intros c' E. injection E as <-. exact Hc.
    + constructor; [exact Hd|constructor].
  - destruct (Icd10.truthy cc); [|exact Hs].
    destruct Hs as (Hc & Hcc & Hcd). repeat split; try assumption.
    apply Forall_app. split; [exact Hcd|].
    constructor; [apply strip_single, Hl|constructor].
Qed.

Lemma read_lines_sound lines st :
  Forall single_line lines -> sound_state st ->
  sound_state (fold_left Icd10.read_line lines st).
Proof.
  intros Hl. revert st. induction Hl as [|line lines H _ IH]; intros st Hs;
    cbn [fold_left]; [exact Hs|].
  apply IH, read_line_sound; assumption.
Qed.

Lemma read_page_sound text : Forall well_formed (Icd10.read_page [] text).
Proof.
  unfold Icd10.read_page. destruct text as [t|]; [|constructor].
  destruct (String.eqb t EmptyString); [constructor|].
  pose proof (read_lines_sound _ ([], None, []) (split_newline_single t)) as H.
  destruct (fold_left Icd10.read_line _ _) as [[codes cc] cd].
  apply save_sound, H. repeat split; [constructor|discriminate|constructor].
Qed.

Lemma code_shape_not_empty c : code_shape c = true -> c <> EmptyString.
Proof. destruct c; [discriminate|discriminate]. Qed.

Lemma live_truthy codes c cd :
  live_state (codes, Some c, cd) -> Icd10.truthy (Some c) = true.
Proof.
  intros H. destruct (H c eq_refl) as [Hne _]. simpl.
  destruct (String.eqb_spec c EmptyString); [contradiction|reflexivity].
Qed.

Lemma save_codes codes cc cd :
  live_state (codes, cc, cd) ->
  map Icd10.code (Icd10.save cc cd codes) = map Icd10.code codes ++ pending cc.
Proof.
  intros H. unfold Icd10.save. destruct cc as [c|]; [|rewrite app_nil_r; reflexivity].
  rewrite (live_truthy _ _ _ H).
  destruct (H c eq_refl) as (_ & g & rest & -> & Hg).
  destruct (String.eqb_spec (Icd10.strip (String.concat " " (g :: rest))) EmptyString)
    as [E|_]; [|rewrite map_app; reflexivity].
  exfalso. apply strip_empty in E. destruct rest as [|y rest]; [exact (Hg E)|].
  change (Icd10.lstrip (g +:+ " " +:+ String.concat " " (y :: rest)) = EmptyString) in E.
  rewrite lstrip_append in E by exact Hg.
  destruct (Icd10.lstrip g); [congruence|discriminate E].
Qed.

Lemma read_line_codes codes cc cd line :
  live_state (codes, cc, cd) ->
  let '(codes', cc', cd') := Icd10.read_line (codes, cc, cd) line in
  live_state (codes', cc', cd')
  /\ map Icd10.code codes' ++ pending cc' =
     map Icd10.code codes ++ pending cc ++ pending (announced line).
Proof.
  intros H. unfold Icd10.read_line, announced.
  destruct (String.eqb_spec (Icd10.strip line) EmptyString) as [E|_].
  - rewrite E, code_match_empty. simpl. rewrite !app_nil_r. auto.
  - destruct (Icd10.code_match _) as [[c d]|] eqn:Em; simpl.
    + destruct (code_match_spec _ _ _ (strip_rstrip line) Em) as (Hc & _ & Hd).
      split.
      * intros c' E. injection E as <-. split; [apply code_shape_not_empty, Hc|eauto].
      * rewrite save_codes by exact H. rewrite <- app_assoc. reflexivity.
    + destruct cc as [c|]; [|simpl; rewrite !app_nil_r; auto].
      rewrite (live_truthy _ _ _ H). rewrite !app_nil_r. split; [|reflexivity].
      intros c' E. injection E as <-.
      destruct (H c eq_refl) as (Hne & g & rest & -> & Hg).
      split; [exact Hne|]. exists g, (rest ++ [Icd10.strip line]). auto.
Qed.

Lemma read_lines_codes lines codes cc cd :
  live_state (codes, cc, cd) ->
  let '(codes', cc', cd') := fold_left Icd10.read_line lines (codes, cc, cd) in
  live_state (codes', cc', cd')
  /\ map Icd10.code codes' ++ pending cc' =
     map Icd10.code codes ++ pending cc ++ omap announced lines.
Proof.
  revert codes cc cd. induction lines as [|line lines IH]; intros codes cc cd H;
    cbn [fold_left].
  - simpl. rewrite app_nil_r. auto.
  - pose proof (read_line_codes codes cc cd line H) as H1.
    destruct (Icd10.read_line (codes, cc, cd) line) as [[codes1 cc1] cd1].
    destruct H1 as [Hl1 E1]. specialize (IH codes1 cc1 cd1 Hl1).
    destruct (fold_left Icd10.read_line lines (codes1, cc1, cd1)) as [[codes2 cc2] cd2].
    destruct IH as [Hl2 E2]. split; [exact Hl2|].
    rewrite E2, app_assoc, E1, <- !app_assoc. f_equal. f_equal.
    simpl. unfold announced at 2. destruct (announced line); reflexivity.
Qed.

Lemma read_page_codes text :
  map Icd10.code (Icd10.read_page [] text) = code_lines text.
Proof.
  unfold Icd10.read_page, code_lines. destruct text as [t|]; [|reflexivity].
  destruct (String.eqb_spec t EmptyString) as [->|_]; [reflexivity|].
  pose proof (read_lines_codes (Py.split t (String "010" EmptyString)) [] None []) as H.
  destruct (fold_left Icd10.read_line _ _) as [[codes cc] cd].
  destruct H as [Hl E]; [intros c; discriminate|].
  rewrite save_codes by exact Hl. exact E.
Qed.

(** The pages of the document are read one by one: the table of a
    document is the table of its first pages followed by the table of
    the others.  In particular a description never runs on from one
    page to the next. *)
Theorem icd10_pages_are_independent pages more :
  Icd10.extract_icd10_codes (pages ++ more)
  = Icd10.extract_icd10_codes pages ++ Icd10.extract_icd10_codes more.
Proof.
  unfold Icd10.extract_icd10_codes at 1. rewrite fold_left_app.
  apply read_pages_prefix.
Qed.

(** Every row of the table has a code of the shape letter, two digits
    and optional decimals, and a description that is not empty, has no
    white space at its ends and holds no line feed. *)
Theorem icd10_rows_are_well_formed pages :
  Forall well_formed (Icd10.extract_icd10_codes pages).
Proof.
  induction pages as [|p pages IH]; [constructor|].
  rewrite extract_pages. apply Forall_app. split; [apply read_page_sound|exact IH].
Qed.

(** The table has one row for every line that announces a code, in the
    order of the lines: no such line is lost, whatever follows it, and
    no other line starts a row. *)
Theorem icd10_one_row_per_code_line pages :
  map Icd10.code (Icd10.extract_icd10_codes pages) = flat_map code_lines pages.
Proof.
  induction pages as [|p pages IH]; [reflexivity|].
  rewrite extract_pages, map_app, read_page_codes, IH. reflexivity.
Qed.

End IcdRows.

(** ** Instances *)

(** The seed of a crawl of a site that is down. *)
Lemma cms_unreachable_page_is_given_up_witness :
  Cms.crawl_page (P := Demo.down) Demo.seed 0 3 start
  = Some {| VISITED_URLS := {[Demo.seed]} ∪ ∅;
            DOWNLOADED_FILES := ∅;
            log := [PageFetch Demo.seed;
                    HttpGet Demo.seed 30 false; Sleep 2000;
                    HttpGet Demo.seed 30 false; Sleep 2000;
                    HttpGet Demo.seed 30 false] |}.
Proof.
  apply (cms_unreachable_page_is_given_up (P := Demo.down) Demo.seed 0 3 start).
  - apply not_elem_of_empty.
  - lia.
  - reflexivity.
  - reflexivity.
  - reflexivity.
Defined.

(** A crawl that starts at an archive, on the site that answers every
    request with a small page. *)
Lemma cms_file_url_is_requested_twice_witness :
  exists w' rest,
    Cms.crawl_page (P := Demo.wall) Demo.zip 0 3 start = Some w'
    /\ log w' = [PageFetch Demo.zip; HttpGet Demo.zip 30 false;
                 HttpGet Demo.zip 60 true] ++ rest
    /\ page_fetches (log w') = [Demo.zip]
    /\ VISITED_URLS w' = {[Demo.zip]} ∪ ∅.
Proof.
  refine (proj1 (cms_file_url_is_requested_twice (P := Demo.wall) Demo.zip 0 3 start
                   (Demo.html Demo.zip "<html>Please log in</html>") _ _ _ _) _).
  - apply not_elem_of_empty.
  - lia.
  - reflexivity.
  - vm_compute. reflexivity.
  - apply not_elem_of_empty.
Defined.

(** The name of the archive of the examples. *)
Lemma cms_file_link_names_witness :
  Cms.get_filename_from_url (P := Demo.blank) Demo.zip "file" = "a.zip"
  /\ Cms.get_filename_from_url (P := Demo.blank) Demo.zip "file" <> EmptyString
  /\ Py.contains (Cms.get_filename_from_url (P := Demo.blank) Demo.zip "file") "/"
     = false.
Proof.
  apply (cms_file_link_names (P := Demo.blank) Demo.zip "file").
  vm_compute. reflexivity.
Defined.

(** A URL without a file name whose query mentions [file] only. *)
Lemma loinc_file_name_raises_witness :
  Loinc.get_filename_from_url (P := Demo.blank) Sample.listing "file" = None.
Proof.
  apply (loinc_file_name_raises (P := Demo.blank) Sample.listing "file").
  split; [left; vm_compute; reflexivity|]. split; vm_compute; reflexivity.
Defined.

(** A name taken from the query. *)
Lemma loinc_file_names_stay_in_the_directory_witness :
  Loinc.get_filename_from_url (P := Demo.blank) Sample.attachment "file"
  = Some "Loinc_2.81.zip"
  /\ "Loinc_2.81.zip" <> EmptyString
  /\ Py.contains "Loinc_2.81.zip" "/" = false
  /\ Py.join Loinc.DOWNLOAD_DIR ["Loinc_2.81.zip"] = "loinc/Loinc_2.81.zip".
Proof.
  assert (Loinc.get_filename_from_url (P := Demo.blank) Sample.attachment "file"
          = Some "Loinc_2.81.zip") as E by (vm_compute; reflexivity).
  split; [exact E|].
  apply (loinc_file_names_stay_in_the_directory (P := Demo.blank)
           Sample.attachment "file" "Loinc_2.81.zip" E).
  - intros H. discriminate H.
  - vm_compute. reflexivity.
Defined.

(** A crawl that raises: the URL is served as an archive and has no
    name. *)
Lemma loinc_crawl_raises_only_witness :
  (Sample.listing ∉ VISITED_URLS start)
  /\ exists w1 response,
       Loinc.get_page (P := Sample.archives) Sample.listing 3
         (visit Sample.listing start) = (w1, Some response)
       /\ ((loinc_served_as_file (P := Sample.archives) Sample.listing response = true
            /\ forall default,
                 Loinc.get_filename_from_url (P := Sample.archives) Sample.listing default
                 = None)
           \/ (loinc_served_as_file (P := Sample.archives) Sample.listing response = false
               /\ Py.contains Sample.listing "file-access"
                  || Py.contains (Py.lower Sample.listing) "download" = true
               /\ exists s w3 page,
                    html_parser (Platform := Sample.archives) (body response) = Some s
                    /\ Loinc.get_page (P := Sample.archives) Sample.listing 3
                         (fst (Loinc.download_links (P := Sample.archives)
                                 (Loinc.find_downloadable_links (P := Sample.archives)
                                    s Sample.listing w1) w1))
                       = (w3, Some page)
                    /\ html_parser (Platform := Sample.archives) (body page) = None)).
Proof.
  apply (loinc_crawl_raises_only (P := Sample.archives) Sample.listing start).
  vm_compute. reflexivity.
Defined.

(** The same crawl, from the answer of the server to the exception. *)
Lemma loinc_crawl_raises_when_witness :
  snd (Loinc.crawl_download_page (P := Sample.archives) Sample.listing start) = None.
Proof.
  refine (proj1 (loinc_crawl_raises_when (P := Sample.archives) Sample.listing start
                   (emit (HttpGet Sample.listing 60 false)
                      (emit (PageFetch Sample.listing) (visit Sample.listing start)))
                   (Demo.archive Sample.listing) _ _) _ "file" _).
  - apply not_elem_of_empty.
  - reflexivity.
  - vm_compute. reflexivity.
  - vm_compute. reflexivity.
Defined.

(** A crawl of the site of the examples. *)
Lemma cms_crawl_page_advances_witness :
  exists w',
    Cms.crawl_page (P := Demo.flaky) Demo.seed 0 3 start = Some w'
    /\ advance start w'.
Proof.
  destruct (Cms.crawl_page (P := Demo.flaky) Demo.seed 0 3 start) as [w'|] eqn:E.
  - exists w'. split; [reflexivity|].
    exact (cms_crawl_page_advances (P := Demo.flaky) Demo.seed 0 3 start w' E).
  - vm_compute in E. discriminate E.
Defined.

(** The target of a form that posts to a download address. *)
Lemma loinc_links_are_the_matching_anchors_and_forms_witness :
  "https://loinc.org/download/latest"
  ∈ Loinc.find_downloadable_links (P := Demo.blank) Sample.form_page
      Loinc.DOWNLOAD_PAGE_URL start.
Proof.
  apply (proj2 (loinc_links_are_the_matching_anchors_and_forms (P := Demo.blank)
                  Sample.form_page Loinc.DOWNLOAD_PAGE_URL start)).
  right. exists "/download/latest".
  split; [apply list_elem_of_singleton; reflexivity|].
  split; [intros H; discriminate H|].
  split; vm_compute; reflexivity.
Defined.

(** The table of a document of three pages: the text before the first
    code of a page is dropped, and so is the page without text. *)
Example icd10_table :
  Icd10.extract_icd10_codes Sample.table
  = [{| Icd10.code := "A00"; Icd10.description := "Cholera due to Vibrio" |};
     {| Icd10.code := "A00.1"; Icd10.description := "Cholera eltor" |};
     {| Icd10.code := "Z99.9"; Icd10.description := "Dependence" |}].
Proof. vm_compute. reflexivity. Qed.

(** A crawl of the site of the examples, after the download directory
    was made. *)
Lemma cms_visited_set_is_the_pages_fetched_witness :
  exists w',
    Cms.crawl_page (P := Demo.flaky) Demo.seed 0 3
      (emit (Makedirs Cms.DOWNLOAD_DIR) start) = Some w'
    /\ VISITED_URLS w' = list_to_set (page_fetches (log w'))
    /\ size (VISITED_URLS w') = length (page_fetches (log w')).
Proof.
  apply (cms_visited_set_is_the_pages_fetched (P := Demo.flaky) Demo.seed 0 3
           (emit (Makedirs Cms.DOWNLOAD_DIR) start)); reflexivity.
Defined.
